(** * anet.c: the TCP socket helpers of readsb, embedded and verified

    The helper layer is a set of short C functions that call straight into
    the kernel and the C library.  The embedding keeps that shape: every
    function of [anet.c] is a computation in a state monad over a [World],
    the part of the process and of its surroundings the helpers can see or
    change:

    - the descriptor table (one [File] per open descriptor),
    - the address lists handed out by [getaddrinfo] and not yet released,
    - [errno],
    - the caller's memory objects the helpers write to (the error sink, the
      out-address slot, the descriptor array, the I/O buffer, the strings
      returned by [anetAddrStrdup]),
    - what the surroundings will do next: the outcome of the next fallible
      calls ([w_script]), the data and errors queued on each descriptor, the
      resolver's answers,
    - a log of every call made, newest first.

    Loops over the resolver's candidates are structural recursions on the
    candidate list; the three [while] loops ([anetRead], [anetWrite],
    [anetGenericAccept]) take fuel and return [None] when it runs out. *)

From Stdlib Require Import ZArith Lia.
From Stdlib.Strings Require Import Byte.
From stdpp Require Import base option list gmap strings.

Local Open Scope Z_scope.

(** ** Constants of the system headers (Linux values) and of anet.h *)

(** Modelled from the spec: [ANET_OK] of anet.h, which is not among the
    sources; the specification gives OK = 0. *)
Definition ANET_OK : Z := 0.

(** Modelled from the spec: [ANET_ERR] of anet.h, ERR = -1. *)
Definition ANET_ERR : Z := -1.

Definition ANET_CONNECT_NONE : Z := 0.
Definition ANET_CONNECT_NONBLOCK : Z := 1.

Definition AF_UNSPEC : Z := 0.
Definition AF_INET : Z := 2.
Definition AF_INET6 : Z := 10.
Definition SOCK_STREAM : Z := 1.
Definition AI_PASSIVE : Z := 1.

Definition SOL_SOCKET : Z := 1.
Definition IPPROTO_TCP : Z := 6.
Definition IPPROTO_IPV6 : Z := 41.
Definition SO_REUSEADDR : Z := 2.
Definition SO_SNDBUF : Z := 7.
Definition SO_KEEPALIVE : Z := 9.
Definition TCP_NODELAY : Z := 1.
Definition IPV6_V6ONLY : Z := 26.

Definition O_NONBLOCK : Z := 2048.

Definition EINTR : Z := 4.
Definition EBADF : Z := 9.
Definition EAGAIN : Z := 11.
Definition EINPROGRESS : Z := 115.

Definition INET_ADDRSTRLEN : Z := 16.
Definition INET6_ADDRSTRLEN : Z := 46.

Definition INT_MAX : Z := 2147483647.

(** The conversion of a value to [int] (two's complement, 32 bits). *)
Definition to_int (z : Z) : Z := (z + 2 ^ 31) mod 2 ^ 32 - 2 ^ 31.

(** ** Socket addresses *)

(** [struct sockaddr]: the family discriminator and the bytes after it.
    [struct sockaddr_in] and [struct sockaddr_in6] are views of the same
    bytes. *)
Record sockaddr := { sa_family : Z; sa_data : list byte }.

Definition byte_of_Z (z : Z) : byte :=
  default Byte.x00 (Byte.of_N (Z.to_N (z mod 256))).

(** The object representation: [sa_family_t] is two bytes in host order
    (little endian), the data follows. *)
Definition sockaddr_bytes (sa : sockaddr) : list byte :=
  byte_of_Z (sa_family sa) :: byte_of_Z (sa_family sa / 256) :: sa_data sa.

(** [sizeof] of the object [sa] points to. *)
Definition sockaddr_len (sa : sockaddr) : Z := Z.of_nat (length (sockaddr_bytes sa)).

(** [((struct sockaddr_in * ) sa)->sin_addr]: 4 bytes after the port. *)
Definition sin_addr (sa : sockaddr) : list byte := take 4 (drop 2 (sa_data sa)).

(** [((struct sockaddr_in6 * ) sa)->sin6_addr]: 16 bytes after port and
    flow information. *)
Definition sin6_addr (sa : sockaddr) : list byte := take 16 (drop 6 (sa_data sa)).

(** One node of a [struct addrinfo] list; [ai_next] is the tail of the Rocq
    list the node sits in. *)
Record addrinfo := { ai_family : Z; ai_addr : sockaddr }.

Definition ai_addrlen (ai : addrinfo) : Z := sockaddr_len (ai_addr ai).

(** ** The platform

    What the C library and the missing header [anet.h] fix: the size of a
    pointer, the length of the error buffer, and the text converters. *)
Class Platform := {
  (** [sizeof(void * )] *)
  sizeof_ptr : Z;
  (** [ANET_ERR_LEN] of anet.h (not among the sources) *)
  ANET_ERR_LEN : Z;
  strerror : Z → string;
  gai_strerror : Z → string;
  (** [inet_ntop(af, src, dst, size)]: the text written to [dst], or [None]
      when the call fails (unknown family, text longer than [size - 1]). *)
  inet_ntop : Z → list byte → Z → option string;
  (** pointers have at least the 32 bits of an [int] *)
  sizeof_ptr_min : 4 ≤ sizeof_ptr;
  (** the error buffer holds at least 256 characters, as the specification
      requires *)
  ANET_ERR_LEN_min : 256 ≤ ANET_ERR_LEN;
}.

(** ** The world *)

(** What a descriptor's next [read] meets. *)
Inductive rd_event :=
  | RdData (bs : list byte)
  | RdFail (e : Z).

(** What a descriptor's next [write] meets: room for [k] bytes, or an error. *)
Inductive wr_event :=
  | WrRoom (k : Z)
  | WrFail (e : Z).

(** What a listening socket's next [accept] meets. *)
Inductive acc_event :=
  | AccConn (peer : sockaddr)
  | AccFail (e : Z).

Record File := {
  f_domain : Z;
  f_status : Z;                     (* file status flags *)
  f_opts : list (Z * Z * Z);        (* (level, option, value), newest first *)
  f_bound : option sockaddr;
  f_backlog : option Z;             (* [Some n] after [listen(s, n)] *)
  f_peer : option sockaddr;
  f_rx : list rd_event;
  f_tx : list wr_event;
  f_sent : list byte;
  f_incoming : list acc_event;
}.

Inductive event :=
  | EvSocket (domain ret : Z)
  | EvSetsockopt (fd level optname val ret : Z)
  | EvGetfl (fd ret : Z)
  | EvSetfl (fd flags ret : Z)
  | EvConnect (fd : Z) (sa : sockaddr) (ret : Z)
  | EvBind (fd : Z) (sa : sockaddr) (ret : Z)
  | EvListen (fd backlog ret : Z)
  | EvAccept (fd ret : Z)
  | EvClose (fd : Z)
  | EvRead (fd count ret : Z)
  | EvWrite (fd count ret : Z)
  | EvGetaddrinfo (ret : Z)
  | EvFreeaddrinfo (h : nat)
  | EvSetError (err : bool) (msg : string).

Record World := {
  w_files : gmap Z File;
  w_addrlists : gmap nat (list addrinfo);
  w_errno : Z;
  w_script : list (option Z);
  w_resolver : option string → string → Z → positive + list addrinfo;
  w_err : string;                   (* the caller's error sink *)
  w_ss : list byte;                 (* the caller's out-address slot *)
  w_fds : list Z;                   (* the caller's descriptor array *)
  w_buf : list byte;                (* the caller's I/O buffer *)
  w_heap : gmap Z (Z * option string);
  w_log : list event;
}.

Definition set_files (f : gmap Z File → gmap Z File) (w : World) : World :=
  {| w_files := f (w_files w); w_addrlists := w_addrlists w; w_errno := w_errno w;
     w_script := w_script w; w_resolver := w_resolver w; w_err := w_err w;
     w_ss := w_ss w; w_fds := w_fds w; w_buf := w_buf w; w_heap := w_heap w;
     w_log := w_log w |}.

Definition set_addrlists (f : gmap nat (list addrinfo) → gmap nat (list addrinfo))
    (w : World) : World :=
  {| w_files := w_files w; w_addrlists := f (w_addrlists w); w_errno := w_errno w;
     w_script := w_script w; w_resolver := w_resolver w; w_err := w_err w;
     w_ss := w_ss w; w_fds := w_fds w; w_buf := w_buf w; w_heap := w_heap w;
     w_log := w_log w |}.

Definition set_errno (e : Z) (w : World) : World :=
  {| w_files := w_files w; w_addrlists := w_addrlists w; w_errno := e;
     w_script := w_script w; w_resolver := w_resolver w; w_err := w_err w;
     w_ss := w_ss w; w_fds := w_fds w; w_buf := w_buf w; w_heap := w_heap w;
     w_log := w_log w |}.

Definition set_script (s : list (option Z)) (w : World) : World :=
  {| w_files := w_files w; w_addrlists := w_addrlists w; w_errno := w_errno w;
     w_script := s; w_resolver := w_resolver w; w_err := w_err w;
     w_ss := w_ss w; w_fds := w_fds w; w_buf := w_buf w; w_heap := w_heap w;
     w_log := w_log w |}.

Definition set_err (s : string) (w : World) : World :=
  {| w_files := w_files w; w_addrlists := w_addrlists w; w_errno := w_errno w;
     w_script := w_script w; w_resolver := w_resolver w; w_err := s;
     w_ss := w_ss w; w_fds := w_fds w; w_buf := w_buf w; w_heap := w_heap w;
     w_log := w_log w |}.

Definition set_ss (s : list byte) (w : World) : World :=
  {| w_files := w_files w; w_addrlists := w_addrlists w; w_errno := w_errno w;
     w_script := w_script w; w_resolver := w_resolver w; w_err := w_err w;
     w_ss := s; w_fds := w_fds w; w_buf := w_buf w; w_heap := w_heap w;
     w_log := w_log w |}.

Definition set_fds (l : list Z) (w : World) : World :=
  {| w_files := w_files w; w_addrlists := w_addrlists w; w_errno := w_errno w;
     w_script := w_script w; w_resolver := w_resolver w; w_err := w_err w;
     w_ss := w_ss w; w_fds := l; w_buf := w_buf w; w_heap := w_heap w;
     w_log := w_log w |}.

Definition set_buf (l : list byte) (w : World) : World :=
  {| w_files := w_files w; w_addrlists := w_addrlists w; w_errno := w_errno w;
     w_script := w_script w; w_resolver := w_resolver w; w_err := w_err w;
     w_ss := w_ss w; w_fds := w_fds w; w_buf := l; w_heap := w_heap w;
     w_log := w_log w |}.

Definition set_heap (h : gmap Z (Z * option string)) (w : World) : World :=
  {| w_files := w_files w; w_addrlists := w_addrlists w; w_errno := w_errno w;
     w_script := w_script w; w_resolver := w_resolver w; w_err := w_err w;
     w_ss := w_ss w; w_fds := w_fds w; w_buf := w_buf w; w_heap := h;
     w_log := w_log w |}.

Definition add_log (e : event) (w : World) : World :=
  {| w_files := w_files w; w_addrlists := w_addrlists w; w_errno := w_errno w;
     w_script := w_script w; w_resolver := w_resolver w; w_err := w_err w;
     w_ss := w_ss w; w_fds := w_fds w; w_buf := w_buf w; w_heap := w_heap w;
     w_log := e :: w_log w |}.

(** ** The monad of calls *)

Definition sys (A : Type) : Type := World → A * World.

#[global] Instance sys_mret : MRet sys := λ A x w, (x, w).
#[global] Instance sys_mbind : MBind sys :=
  λ A B f m w, let '(x, w') := m w in f x w'.

Definition get_world : sys World := λ w, (w, w).
Definition modify (f : World → World) : sys unit := λ w, (tt, f w).
Definition log (e : event) : sys unit := modify (add_log e).

(** A call that fails returns -1 and leaves its reason in [errno]. *)
Definition fail_with (e : Z) : sys Z := modify (set_errno e) ;; mret (-1).

(** The outcome the surroundings have in store for the next fallible call:
    [None] lets it succeed (as does an exhausted script), [Some e] makes it
    fail with [errno = e]. *)
Definition next_outcome : sys (option Z) := λ w,
  (mjoin (head (w_script w)), set_script (tail (w_script w)) w).

Definition logged (ev : Z → event) (m : sys Z) : sys Z :=
  r ← m; log (ev r);; mret r.

(** ** The kernel *)

(** A key no entry of the table uses, at least [base]: one past the largest
    key in use.  Which unused descriptor the kernel picks does not matter to
    the helpers. *)
Definition fresh_key {A} (base : Z) (m : gmap Z A) : Z :=
  foldr (λ kv acc, Z.max (kv.1 + 1) acc) base (map_to_list m).

Definition new_socket (domain : Z) : File :=
  {| f_domain := domain; f_status := 2; f_opts := []; f_bound := None;
     f_backlog := None; f_peer := None; f_rx := []; f_tx := []; f_sent := [];
     f_incoming := [] |}.

Definition set_status (v : Z) (f : File) : File :=
  {| f_domain := f_domain f; f_status := v; f_opts := f_opts f;
     f_bound := f_bound f; f_backlog := f_backlog f; f_peer := f_peer f;
     f_rx := f_rx f; f_tx := f_tx f; f_sent := f_sent f;
     f_incoming := f_incoming f |}.

Definition add_opt (o : Z * Z * Z) (f : File) : File :=
  {| f_domain := f_domain f; f_status := f_status f; f_opts := o :: f_opts f;
     f_bound := f_bound f; f_backlog := f_backlog f; f_peer := f_peer f;
     f_rx := f_rx f; f_tx := f_tx f; f_sent := f_sent f;
     f_incoming := f_incoming f |}.

Definition set_bound (sa : sockaddr) (f : File) : File :=
  {| f_domain := f_domain f; f_status := f_status f; f_opts := f_opts f;
     f_bound := Some sa; f_backlog := f_backlog f; f_peer := f_peer f;
     f_rx := f_rx f; f_tx := f_tx f; f_sent := f_sent f;
     f_incoming := f_incoming f |}.

Definition set_backlog (n : Z) (f : File) : File :=
  {| f_domain := f_domain f; f_status := f_status f; f_opts := f_opts f;
     f_bound := f_bound f; f_backlog := Some n; f_peer := f_peer f;
     f_rx := f_rx f; f_tx := f_tx f; f_sent := f_sent f;
     f_incoming := f_incoming f |}.

Definition set_peer (sa : sockaddr) (f : File) : File :=
  {| f_domain := f_domain f; f_status := f_status f; f_opts := f_opts f;
     f_bound := f_bound f; f_backlog := f_backlog f; f_peer := Some sa;
     f_rx := f_rx f; f_tx := f_tx f; f_sent := f_sent f;
     f_incoming := f_incoming f |}.

Definition set_rx (l : list rd_event) (f : File) : File :=
  {| f_domain := f_domain f; f_status := f_status f; f_opts := f_opts f;
     f_bound := f_bound f; f_backlog := f_backlog f; f_peer := f_peer f;
     f_rx := l; f_tx := f_tx f; f_sent := f_sent f;
     f_incoming := f_incoming f |}.

Definition set_tx (l : list wr_event) (sent : list byte) (f : File) : File :=
  {| f_domain := f_domain f; f_status := f_status f; f_opts := f_opts f;
     f_bound := f_bound f; f_backlog := f_backlog f; f_peer := f_peer f;
     f_rx := f_rx f; f_tx := l; f_sent := sent;
     f_incoming := f_incoming f |}.

Definition set_incoming (l : list acc_event) (f : File) : File :=
  {| f_domain := f_domain f; f_status := f_status f; f_opts := f_opts f;
     f_bound := f_bound f; f_backlog := f_backlog f; f_peer := f_peer f;
     f_rx := f_rx f; f_tx := f_tx f; f_sent := f_sent f;
     f_incoming := l |}.

(** Run [k] on the open file behind [fd]; [EBADF] when there is none. *)
Definition with_file (fd : Z) (k : File → sys Z) : sys Z :=
  w ← get_world;
  match w_files w !! fd with
  | None => fail_with EBADF
  | Some f => k f
  end.

(** A call on [fd] whose success is up to the surroundings and, when it
    succeeds, replaces the file by [upd f] and returns [ret f]. *)
Definition fallible (fd : Z) (upd : File → File) (ret : File → Z) : sys Z :=
  with_file fd (λ f,
    o ← next_outcome;
    match o with
    | Some e => fail_with e
    | None => modify (set_files <[fd := upd f]>);; mret (ret f)
    end).

(** [socket(domain, SOCK_STREAM, 0)] *)
Definition sys_socket (domain : Z) : sys Z :=
  logged (EvSocket domain)
    (o ← next_outcome;
     match o with
     | Some e => fail_with e
     | None =>
         w ← get_world;
         let s := fresh_key 0 (w_files w) in
         modify (set_files <[s := new_socket domain]>);; mret s
     end).

(** [setsockopt(fd, level, optname, &val, sizeof(val))] *)
Definition sys_setsockopt (fd level optname val : Z) : sys Z :=
  logged (EvSetsockopt fd level optname val)
    (fallible fd (add_opt (level, optname, val)) (λ _, 0)).

(** [fcntl(fd, F_GETFL)] *)
Definition sys_fcntl_getfl (fd : Z) : sys Z :=
  logged (EvGetfl fd) (fallible fd id f_status).

(** [fcntl(fd, F_SETFL, flags)] *)
Definition sys_fcntl_setfl (fd flags : Z) : sys Z :=
  logged (EvSetfl fd flags) (fallible fd (set_status flags) (λ _, 0)).

(** [connect(fd, sa, len)].  [EINPROGRESS] is one of the failures the
    surroundings can choose. *)
Definition sys_connect (fd : Z) (sa : sockaddr) (len : Z) : sys Z :=
  logged (EvConnect fd sa) (fallible fd (set_peer sa) (λ _, 0)).

(** [bind(fd, sa, len)] *)
Definition sys_bind (fd : Z) (sa : sockaddr) (len : Z) : sys Z :=
  logged (EvBind fd sa) (fallible fd (set_bound sa) (λ _, 0)).

(** [listen(fd, backlog)] *)
Definition sys_listen (fd backlog : Z) : sys Z :=
  logged (EvListen fd backlog) (fallible fd (set_backlog backlog) (λ _, 0)).

(** [close(fd)] *)
Definition sys_close (fd : Z) : sys Z :=
  log (EvClose fd);;
  with_file fd (λ _, modify (set_files (delete fd));; mret 0).

(** Overwrite [dst] from offset [off] on with [src]. *)
Definition splice_at {A} (off : nat) (src dst : list A) : list A :=
  take off dst ++ src ++ drop (off + length src) dst.

(** [memcpy(ss, src, n)] into the caller's out-address slot. *)
Definition memcpy_ss (src : list byte) (n : Z) : sys unit :=
  modify (λ w, set_ss (splice_at 0 (take (Z.to_nat n) src) (w_ss w)) w).

(** [accept(fd, sa, &len)] with [sa] the caller's slot (or NULL): the next
    entry of the listener's queue decides.  The peer's address is stored
    truncated to [len] bytes.  An empty queue answers [EAGAIN]. *)
Definition sys_accept (fd : Z) (have_sa : bool) (len : Z) : sys Z :=
  logged (EvAccept fd)
    (with_file fd (λ f,
       match f_incoming f with
       | [] => fail_with EAGAIN
       | AccFail e :: rest =>
           modify (set_files <[fd := set_incoming rest f]>);; fail_with e
       | AccConn peer :: rest =>
           modify (set_files <[fd := set_incoming rest f]>);;
           w ← get_world;
           let s := fresh_key 0 (w_files w) in
           modify (set_files <[s := set_peer peer (new_socket (f_domain f))]>);;
           (if have_sa then memcpy_ss (sockaddr_bytes peer) len else mret tt);;
           mret s
       end)).

(** [read(fd, buf + off, count)]: at most [count] bytes of the data at the
    head of the descriptor's queue; 0 at end of file (empty queue). *)
Definition sys_read (fd : Z) (off : Z) (count : Z) : sys Z :=
  logged (EvRead fd count)
    (with_file fd (λ f,
       match f_rx f with
       | [] => mret 0
       | RdFail e :: rest =>
           modify (set_files <[fd := set_rx rest f]>);; fail_with e
       | RdData bs :: rest =>
           let n := Z.min count (Z.of_nat (length bs)) in
           let left := drop (Z.to_nat n) bs in
           modify (set_files
             <[fd := set_rx (if n <? Z.of_nat (length bs)
                             then RdData left :: rest else rest) f]>);;
           modify (λ w, set_buf
             (splice_at (Z.to_nat off) (take (Z.to_nat n) bs) (w_buf w)) w);;
           mret n
       end)).

(** [write(fd, buf + off, count)]: the head of the descriptor's queue says
    how many bytes are taken; an empty queue takes everything. *)
Definition sys_write (fd : Z) (off : Z) (count : Z) : sys Z :=
  logged (EvWrite fd count)
    (with_file fd (λ f,
       let take_bytes (n : Z) (rest : list wr_event) : sys Z :=
         w ← get_world;
         modify (set_files
           <[fd := set_tx rest
                     (f_sent f ++ take (Z.to_nat n) (drop (Z.to_nat off) (w_buf w)))
                     f]>);;
         mret n in
       match f_tx f with
       | [] => take_bytes count []
       | WrFail e :: rest =>
           modify (set_files <[fd := set_tx rest (f_sent f) f]>);; fail_with e
       | WrRoom k :: rest => take_bytes (Z.min count (Z.max 0 k)) rest
       end)).

(** ** The C library *)

(** [getaddrinfo(host, service, &hints, &res)] with [hints.ai_flags = flags]
    and the other hints as anet.c sets them.  The resolver answers with an
    error code (the [EAI_] codes are negative) or with the candidates; a
    successful call hands out a new list, which stays live until
    [freeaddrinfo]. *)
Definition sys_getaddrinfo (host : option string) (service : string) (flags : Z)
    : sys (Z * (nat * list addrinfo)) := λ w,
  match w_resolver w host service flags with
  | inl code =>
      let r := Z.neg code in
      ((r, (0%nat, [])), add_log (EvGetaddrinfo r) w)
  | inr l =>
      let h := fresh (dom (w_addrlists w)) in
      ((0, (h, l)), add_log (EvGetaddrinfo 0) (set_addrlists <[h := l]> w))
  end.

(** [freeaddrinfo(res)] *)
Definition sys_freeaddrinfo (h : nat) : sys unit :=
  modify (set_addrlists (delete h));; log (EvFreeaddrinfo h).

(** [malloc(size)]: a new block, its content not yet written.  Allocation
    is taken to succeed. *)
Definition sys_malloc (size : Z) : sys Z :=
  w ← get_world;
  let p := fresh_key 1 (w_heap w) in
  modify (set_heap (<[p := (size, None)]> (w_heap w)));; mret p.

(** [strdup(s)] *)
Definition sys_strdup (s : string) : sys Z :=
  w ← get_world;
  let p := fresh_key 1 (w_heap w) in
  modify (set_heap (<[p := (Z.of_nat (String.length s) + 1, Some s)]> (w_heap w)));;
  mret p.

Definition ENOSPC : Z := 28.

(** [inet_ntop(af, src, dst, size)] with [dst] a block of the heap: the
    platform's converter says what is written; on failure nothing is written
    and NULL is returned. *)
Definition sys_inet_ntop `{Platform} (af : Z) (src : list byte) (dst size : Z) : sys Z :=
  match inet_ntop af src size with
  | Some s =>
      w ← get_world;
      match w_heap w !! dst with
      | Some (cap, _) => modify (set_heap (<[dst := (cap, Some s)]> (w_heap w)));; mret dst
      | None => mret dst
      end
  | None => modify (set_errno ENOSPC);; mret 0
  end.

(** The value of [errno]. *)
Definition errno : sys Z := λ w, (w_errno w, w).

(** [%s] of a [char * ] that may be NULL (as glibc prints it). *)
Definition fmt_s (s : option string) : string := default "(null)" s.

(** * anet.c *)

Section anet.
Context `{Platform}.

(** The conversion of an [int] to [size_t]. *)
Definition to_size_t (z : Z) : Z := z mod 2 ^ (8 * sizeof_ptr).

(** What [vsnprintf(err, ANET_ERR_LEN, ...)] leaves in the buffer: the first
    [ANET_ERR_LEN - 1] characters of the message. *)
Definition cut (msg : string) : string :=
  String.substring 0 (Z.to_nat (ANET_ERR_LEN - 1)) msg.

(** [anetSetError(err, fmt, ...)], with [msg] the expansion of the format
    and [err] telling whether a sink was passed: the call is logged; without
    a sink nothing else happens, else the cut message replaces the sink's
    content. *)
Definition anetSetError (err : bool) (msg : string) : sys unit :=
  log (EvSetError err msg);;
  if negb err then mret tt
  else modify (set_err (cut msg)).

Definition anetNonBlock (err : bool) (fd : Z) : sys Z :=
  flags ← sys_fcntl_getfl fd;
  if flags =? -1 then
    e ← errno;
    anetSetError err ("fcntl(F_GETFL): " +:+ strerror e);;
    mret ANET_ERR
  else
    r ← sys_fcntl_setfl fd (Z.lor flags O_NONBLOCK);
    if r =? -1 then
      e ← errno;
      anetSetError err ("fcntl(F_SETFL,O_NONBLOCK): " +:+ strerror e);;
      mret ANET_ERR
    else mret ANET_OK.

Definition anetTcpNoDelay (err : bool) (fd : Z) : sys Z :=
  r ← sys_setsockopt fd IPPROTO_TCP TCP_NODELAY 1;
  if r =? -1 then
    e ← errno;
    anetSetError err ("setsockopt TCP_NODELAY: " +:+ strerror e);;
    mret ANET_ERR
  else mret ANET_OK.

Definition anetSetSendBuffer (err : bool) (fd buffsize : Z) : sys Z :=
  r ← sys_setsockopt fd SOL_SOCKET SO_SNDBUF buffsize;
  if r =? -1 then
    e ← errno;
    anetSetError err ("setsockopt SO_SNDBUF: " +:+ strerror e);;
    mret ANET_ERR
  else mret ANET_OK.

Definition anetTcpKeepAlive (err : bool) (fd : Z) : sys Z :=
  r ← sys_setsockopt fd SOL_SOCKET SO_KEEPALIVE 1;
  if r =? -1 then
    e ← errno;
    anetSetError err ("setsockopt SO_KEEPALIVE: " +:+ strerror e);;
    mret ANET_ERR
  else mret ANET_OK.

Definition anetCreateSocket (err : bool) (domain : Z) : sys Z :=
  s ← sys_socket domain;
  if s =? -1 then
    e ← errno;
    anetSetError err ("creating socket: " +:+ strerror e);;
    mret ANET_ERR
  else
    r ← sys_setsockopt s SOL_SOCKET SO_REUSEADDR 1;
    if r =? -1 then
      e ← errno;
      anetSetError err ("setsockopt SO_REUSEADDR: " +:+ strerror e);;
      mret ANET_ERR
    else mret s.

(** The [for] loop of [anetTcpGenericConnect] from candidate [p] on, and the
    two statements after it; [h] is [gai_result]. *)
Fixpoint anetTcpGenericConnect_loop (err : bool) (flags : Z) (ss : bool) (h : nat)
    (p : list addrinfo) : sys Z :=
  match p with
  | [] => sys_freeaddrinfo h;; mret ANET_ERR
  | ai :: ai_next =>
      s ← anetCreateSocket err (ai_family ai);
      if s =? ANET_ERR then anetTcpGenericConnect_loop err flags ss h ai_next
      else
        nb ← (if negb (Z.land flags ANET_CONNECT_NONBLOCK =? 0)
              then anetNonBlock err s else mret ANET_OK);
        if negb (nb =? ANET_OK) then mret ANET_ERR
        else
          c ← sys_connect s (ai_addr ai) (ai_addrlen ai);
          if 0 <=? c then
            (if ss then memcpy_ss (sockaddr_bytes (ai_addr ai)) sizeof_ptr else mret tt);;
            sys_freeaddrinfo h;;
            mret s
          else
            e ← errno;
            if (e =? EINPROGRESS) && negb (Z.land flags ANET_CONNECT_NONBLOCK =? 0) then
              (if ss then memcpy_ss (sockaddr_bytes (ai_addr ai)) sizeof_ptr else mret tt);;
              sys_freeaddrinfo h;;
              mret s
            else
              anetSetError err ("connect: " +:+ strerror e);;
              sys_close s;;
              anetTcpGenericConnect_loop err flags ss h ai_next
  end.

Definition anetTcpGenericConnect (err : bool) (addr : option string) (service : string)
    (flags : Z) (ss : bool) : sys Z :=
  '(gai_error, (h, gai_result)) ← sys_getaddrinfo addr service 0;
  if negb (gai_error =? 0) then
    anetSetError err
      ("can't resolve " +:+ fmt_s addr +:+ ": " +:+ gai_strerror gai_error);;
    mret ANET_ERR
  else anetTcpGenericConnect_loop err flags ss h gai_result.

Definition anetTcpConnect (err : bool) (addr : option string) (service : string)
    (ss : bool) : sys Z :=
  anetTcpGenericConnect err addr service ANET_CONNECT_NONE ss.

Definition anetTcpNonBlockConnect (err : bool) (addr : option string) (service : string)
    (ss : bool) : sys Z :=
  anetTcpGenericConnect err addr service ANET_CONNECT_NONBLOCK ss.

(** On success the list is the caller's: the handle and the candidates are
    returned with the status. *)
Definition anetGetaddrinfo (err : bool) (addr : option string) (service : string)
    : sys (Z * (nat * list addrinfo)) :=
  '(gai_error, res) ← sys_getaddrinfo addr service 0;
  if negb (gai_error =? 0) then
    anetSetError err
      ("can't resolve " +:+ fmt_s addr +:+ ": " +:+ gai_strerror gai_error);;
    mret (ANET_ERR, res)
  else mret (0, res).

Definition anetTcpNonBlockConnectAddr (err : bool) (p : addrinfo) (ss : bool) : sys Z :=
  s ← anetCreateSocket err (ai_family p);
  if s =? ANET_ERR then mret ANET_ERR
  else
    nb ← anetNonBlock err s;
    if negb (nb =? ANET_OK) then mret ANET_ERR
    else
      c ← sys_connect s (ai_addr p) (ai_addrlen p);
      if 0 <=? c then
        (if ss then memcpy_ss (sockaddr_bytes (ai_addr p)) sizeof_ptr else mret tt);;
        mret s
      else
        e ← errno;
        if e =? EINPROGRESS then
          (if ss then memcpy_ss (sockaddr_bytes (ai_addr p)) sizeof_ptr else mret tt);;
          mret s
        else
          anetSetError err ("connect: " +:+ strerror e);;
          sys_close s;;
          mret ANET_ERR.

(** The [while] loop of [anetRead]; [off] is how far [buf] has moved. *)
Fixpoint anetRead_loop (fuel : nat) (fd off count totlen : Z) : sys (option Z) :=
  if totlen =? count then mret (Some totlen)
  else
    match fuel with
    | O => mret None
    | S fuel' =>
        r ← sys_read fd off (to_size_t (to_int (count - totlen)));
        let nread := to_int r in
        if nread =? 0 then mret (Some totlen)
        else if nread =? -1 then mret (Some (-1))
        else anetRead_loop fuel' fd (off + nread) count (to_int (totlen + nread))
    end.

Definition anetRead (fuel : nat) (fd count : Z) : sys (option Z) :=
  anetRead_loop fuel fd 0 count 0.

(** The [while] loop of [anetWrite]. *)
Fixpoint anetWrite_loop (fuel : nat) (fd off count totlen : Z) : sys (option Z) :=
  if totlen =? count then mret (Some totlen)
  else
    match fuel with
    | O => mret None
    | S fuel' =>
        r ← sys_write fd off (to_size_t (to_int (count - totlen)));
        let nwritten := to_int r in
        if nwritten =? 0 then mret (Some totlen)
        else if nwritten =? -1 then mret (Some (-1))
        else anetWrite_loop fuel' fd (off + nwritten) count (to_int (totlen + nwritten))
    end.

Definition anetWrite (fuel : nat) (fd count : Z) : sys (option Z) :=
  anetWrite_loop fuel fd 0 count 0.

Definition anetListen (err : bool) (s : Z) (sa : sockaddr) (len : Z) : sys Z :=
  (if sa_family sa =? AF_INET6
   then sys_setsockopt s IPPROTO_IPV6 IPV6_V6ONLY 1;; mret tt
   else mret tt);;
  b ← sys_bind s sa len;
  if b =? -1 then
    e ← errno;
    anetSetError err ("bind: " +:+ strerror e);;
    sys_close s;;
    mret ANET_ERR
  else
    l ← sys_listen s 511;
    if l =? -1 then
      e ← errno;
      anetSetError err ("listen: " +:+ strerror e);;
      sys_close s;;
      mret ANET_ERR
    else mret ANET_OK.

(** The [for] loop of [anetTcpServer] from candidate [p] on with [i]
    listeners stored so far, and the two statements after it. *)
Fixpoint anetTcpServer_loop (err : bool) (nfds : Z) (h : nat) (p : list addrinfo)
    (i : Z) : sys Z :=
  match p with
  | ai :: ai_next =>
      if i <? nfds then
        s ← anetCreateSocket err (ai_family ai);
        if s =? ANET_ERR then anetTcpServer_loop err nfds h ai_next i
        else
          l ← anetListen err s (ai_addr ai) (ai_addrlen ai);
          if l =? ANET_ERR then anetTcpServer_loop err nfds h ai_next i
          else
            modify (λ w, set_fds (<[Z.to_nat i := s]> (w_fds w)) w);;
            anetTcpServer_loop err nfds h ai_next (i + 1)
      else sys_freeaddrinfo h;; mret (if 0 <? i then i else ANET_ERR)
  | [] => sys_freeaddrinfo h;; mret (if 0 <? i then i else ANET_ERR)
  end.

Definition anetTcpServer (err : bool) (service : string) (bindaddr : option string)
    (nfds : Z) : sys Z :=
  '(gai_error, (h, gai_result)) ← sys_getaddrinfo bindaddr service AI_PASSIVE;
  if negb (gai_error =? 0) then
    anetSetError err
      ("can't resolve " +:+ fmt_s bindaddr +:+ ": " +:+ gai_strerror gai_error);;
    mret ANET_ERR
  else anetTcpServer_loop err nfds h gai_result 0.

(** The [while(1)] loop of [anetGenericAccept]; [sa] says whether the
    address pointer is non-NULL, [len] is what [*len] holds on entry. *)
Fixpoint anetGenericAccept (fuel : nat) (err : bool) (s : Z) (sa : bool) (len : Z)
    : sys (option Z) :=
  match fuel with
  | O => mret None
  | S fuel' =>
      fd ← sys_accept s sa len;
      if fd =? -1 then
        e ← errno;
        if e =? EINTR then anetGenericAccept fuel' err s sa len
        else
          anetSetError err ("accept: " +:+ strerror e);;
          mret (Some fd)
      else mret (Some fd)
  end.

Definition anetTcpAccept (fuel : nat) (err : bool) (s : Z) (ss : bool) : sys (option Z) :=
  let sslen := sizeof_ptr in
  r ← anetGenericAccept fuel err s ss sslen;
  match r with
  | None => mret None
  | Some fd => if fd =? ANET_ERR then mret (Some ANET_ERR) else mret (Some fd)
  end.

Definition has_family (res : option sockaddr) (family : Z) : bool :=
  match res with
  | Some sa => sa_family sa =? family
  | None => false
  end.

(** [res] is [None] for a NULL pointer; the result is the address of the
    returned string in the heap. *)
Definition anetAddrStrdup (res : option sockaddr) : sys Z :=
  if has_family res AF_INET then
    s ← sys_malloc INET_ADDRSTRLEN;
    sys_inet_ntop AF_INET (from_option sin_addr [] res) s INET_ADDRSTRLEN;;
    mret s
  else if has_family res AF_INET6 then
    s ← sys_malloc INET6_ADDRSTRLEN;
    sys_inet_ntop AF_INET6 (from_option sin6_addr [] res) s INET6_ADDRSTRLEN;;
    mret s
  else sys_strdup "NOT_AN_ADDRESS".

End anet.

(** * A concrete platform: Linux, LP64, glibc

    Used to run the helpers on concrete inputs. *)
Module Linux.

Definition digit (n : Z) : string :=
  String (Ascii.ascii_of_nat (Z.to_nat (n + (if n <? 10 then 48 else 87)))) "".

(** [%d] of a value between 0 and 999. *)
Definition dec (n : Z) : string :=
  (if 100 <=? n then digit (n / 100 mod 10) else "") +:+
  (if 10 <=? n then digit (n / 10 mod 10) else "") +:+
  digit (n mod 10).

(** [%x] of a 16-bit value. *)
Definition hex (n : Z) : string :=
  (if 4096 <=? n then digit (n / 4096 mod 16) else "") +:+
  (if 256 <=? n then digit (n / 256 mod 16) else "") +:+
  (if 16 <=? n then digit (n / 16 mod 16) else "") +:+
  digit (n mod 16).

Definition byte_to_Z (b : byte) : Z := Z.of_N (Byte.to_N b).

Definition dotted_quad (a b c d : byte) : string :=
  dec (byte_to_Z a) +:+ "." +:+ dec (byte_to_Z b) +:+ "." +:+
  dec (byte_to_Z c) +:+ "." +:+ dec (byte_to_Z d).

(** The eight 16-bit groups of an IPv6 address (network order). *)
Fixpoint words (bs : list byte) : list Z :=
  match bs with
  | hi :: lo :: rest => (256 * byte_to_Z hi + byte_to_Z lo) :: words rest
  | _ => []
  end.

Definition longer (cur best : option (nat * nat)) : option (nat * nat) :=
  match cur, best with
  | Some (_, l), Some (_, bl) => if (bl <? l)%nat then cur else best
  | Some _, None => cur
  | None, _ => best
  end.

(** The first longest run of zero groups, as (start, length). *)
Fixpoint zero_run (ws : list Z) (i : nat) (cur best : option (nat * nat))
    : option (nat * nat) :=
  match ws with
  | [] => longer cur best
  | w :: rest =>
      if w =? 0 then
        zero_run rest (S i)
          (Some (match cur with Some (b, l) => (b, S l) | None => (i, 1%nat) end)) best
      else zero_run rest (S i) None (longer cur best)
  end.

(** glibc's [inet_ntop6]: the groups in hexadecimal, the longest run of two
    or more zero groups written [::], and the last 32 bits as a dotted quad
    for the IPv4-compatible and IPv4-mapped forms. *)
Fixpoint colon_hex_from (base len : nat) (w5 : Z) (tail4 : string) (i : nat)
    (ws : list Z) : string :=
  match ws with
  | [] => if (0 <? len)%nat && (base + len =? 8)%nat then ":" else ""
  | w :: rest =>
      if (0 <? len)%nat && (base <=? i)%nat && (i <? base + len)%nat then
        (if (i =? base)%nat then ":" else "") +:+
        colon_hex_from base len w5 tail4 (S i) rest
      else
        (if (i =? 0)%nat then "" else ":") +:+
        (if (i =? 6)%nat && (0 <? len)%nat && (base =? 0)%nat &&
            ((len =? 6)%nat || ((len =? 5)%nat && (w5 =? 65535)))
         then tail4
         else hex w +:+ colon_hex_from base len w5 tail4 (S i) rest)
  end.

Definition colon_hex (bs : list byte) : string :=
  let ws := words bs in
  let '(base, len) :=
    match zero_run ws 0 None None with
    | Some (b, l) => if (l <? 2)%nat then (0%nat, 0%nat) else (b, l)
    | None => (0%nat, 0%nat)
    end in
  let tail4 :=
    match drop 12 bs with
    | [a; b; c; d] => dotted_quad a b c d
    | _ => ""
    end in
  colon_hex_from base len (ws !!! 5%nat) tail4 0 ws.

Definition fits (s : string) (size : Z) : option string :=
  if Z.of_nat (String.length s) <? size then Some s else None.

Definition inet_ntop (af : Z) (src : list byte) (size : Z) : option string :=
  if af =? AF_INET then
    match src with
    | [a; b; c; d] => fits (dotted_quad a b c d) size
    | _ => None
    end
  else if af =? AF_INET6 then
    if (length src =? 16)%nat then fits (colon_hex src) size else None
  else None.

Definition strerror (e : Z) : string :=
  if e =? 4 then "Interrupted system call"
  else if e =? 9 then "Bad file descriptor"
  else if e =? 11 then "Resource temporarily unavailable"
  else if e =? 12 then "Cannot allocate memory"
  else if e =? 13 then "Permission denied"
  else if e =? 24 then "Too many open files"
  else if e =? 97 then "Address family not supported by protocol"
  else if e =? 98 then "Address already in use"
  else if e =? 101 then "Network is unreachable"
  else if e =? 110 then "Connection timed out"
  else if e =? 111 then "Connection refused"
  else if e =? 115 then "Operation now in progress"
  else "Unknown error " +:+ dec e.

Definition gai_strerror (code : Z) : string :=
  if code =? -2 then "Name or service not known"
  else if code =? -3 then "Temporary failure in name resolution"
  else "Unknown error".

End Linux.

#[global] Instance linux_lp64 : Platform := {|
  sizeof_ptr := 8;
  ANET_ERR_LEN := 256;
  strerror := Linux.strerror;
  gai_strerror := Linux.gai_strerror;
  inet_ntop := Linux.inet_ntop;
  sizeof_ptr_min := ltac:(done);
  ANET_ERR_LEN_min := ltac:(done);
|}.

(** * Specifications *)

(** What a full-count transfer of [count] bytes does from a running total
    [tot] on, as the list of the calls it makes (oldest first, [ev req ret]
    a call asking for [req] bytes and returning [ret]) and its result:
    no call once [count] bytes have accumulated, result [count]; a call
    returning 0 ends it with the total so far; a call returning -1 ends it
    with -1; any other call adds what it returned and the transfer goes on.
    Every call asks for the bytes still missing. *)
Inductive full_run (ev : Z → Z → event) (count : Z) : Z → list event → Z → Prop :=
  | run_done : full_run ev count count [] count
  | run_zero tot :
      tot ≠ count → full_run ev count tot [ev (count - tot) 0] tot
  | run_fail tot :
      tot ≠ count → full_run ev count tot [ev (count - tot) (-1)] (-1)
  | run_more tot n tr r :
      tot ≠ count → 0 < n → tot + n ≤ count →
      full_run ev count (tot + n) tr r →
      full_run ev count tot (ev (count - tot) n :: tr) r.

(** * Example worlds *)

Module Examples.

Definition bytes (l : list Z) : list byte := map byte_of_Z l.

(** A process with no descriptor open, a resolver that knows no name, an
    empty sink, a zeroed slot and buffer, and a descriptor array of four
    entries holding -1. *)
Definition world0 : World :=
  {| w_files := ∅; w_addrlists := ∅; w_errno := 0; w_script := [];
     w_resolver := λ _ _ _, inl 2%positive;
     w_err := ""; w_ss := replicate 128 Byte.x00; w_fds := replicate 4 (-1);
     w_buf := replicate 16 Byte.x00; w_heap := ∅; w_log := [] |}.

(** Descriptor 3 is the read end of a pipe in which 10 bytes were written,
    in two pieces, before the write end was closed. *)
Definition pipe_world : World :=
  set_files <[3 := set_rx [RdData (bytes [1; 2; 3; 4]); RdData (bytes [5; 6; 7; 8; 9; 10])]
                     (new_socket 0)]> world0.

(** Descriptor 3 takes 4 bytes, then 6, then nothing more. *)
Definition slow_peer_world : World :=
  set_buf (bytes [1; 2; 3; 4; 5; 6; 7; 8; 9; 10; 11; 12; 13; 14; 15; 16])
    (set_files <[3 := set_tx [WrRoom 4; WrRoom 6; WrRoom 0] [] (new_socket 0)]> world0).

Definition EACCES : Z := 13.
Definition ECONNREFUSED : Z := 111.

(** [struct sockaddr_in] for 192.0.2.7, port 80: port and address in
    network order, then the 8 bytes of [sin_zero]. *)
Definition sa_v4 : sockaddr :=
  {| sa_family := AF_INET;
     sa_data := bytes [0; 80; 192; 0; 2; 7; 0; 0; 0; 0; 0; 0; 0; 0] |}.

(** [struct sockaddr_in6] for 2001:db8::1, port 80: port, flow information,
    the 16 address bytes, scope id. *)
Definition sa_v6 : sockaddr :=
  {| sa_family := AF_INET6;
     sa_data := bytes [0; 80; 0; 0; 0; 0;
                       32; 1; 13; 184; 0; 0; 0; 0; 0; 0; 0; 0; 0; 0; 0; 1;
                       0; 0; 0; 0] |}.

Definition cand_v4 : addrinfo := {| ai_family := AF_INET; ai_addr := sa_v4 |}.
Definition cand_v6 : addrinfo := {| ai_family := AF_INET6; ai_addr := sa_v6 |}.

(** [world0] with a resolver that answers every query with [cands] and
    surroundings that treat the next fallible calls as [script] says. *)
Definition net_world (cands : list addrinfo) (script : list (option Z)) : World :=
  {| w_files := ∅; w_addrlists := ∅; w_errno := 0; w_script := script;
     w_resolver := λ _ _ _, inr cands;
     w_err := ""; w_ss := replicate 128 Byte.x00; w_fds := replicate 4 (-1);
     w_buf := replicate 16 Byte.x00; w_heap := ∅; w_log := [] |}.

(** One IPv4 candidate; [socket] and [setsockopt(SO_REUSEADDR)] succeed, the
    following [fcntl(F_GETFL)] is refused. *)
Definition fcntl_refused_world : World :=
  net_world [cand_v4] [None; None; Some EACCES].

(** [socket] succeeds, [setsockopt(SO_REUSEADDR)] is refused. *)
Definition reuseaddr_refused_world : World :=
  net_world [cand_v4] [None; Some EACCES].

(** One IPv6 candidate, every call succeeds. *)
Definition v6_world : World := net_world [cand_v6] [].

(** Two candidates: the connection to the first is refused, the second
    accepts. *)
Definition fallback_world : World :=
  net_world [cand_v6; cand_v4] [None; None; Some ECONNREFUSED].

(** Descriptor 3 listens; the first [accept] is interrupted by a signal,
    then a connection from 2001:db8::1 arrives. *)
Definition listener_world : World :=
  set_files <[3 := set_incoming [AccFail EINTR; AccConn sa_v6]
                     (set_backlog 511 (set_bound sa_v6 (new_socket AF_INET6)))]> world0.

(** One IPv6 candidate; the non-blocking [connect] answers [EINPROGRESS]. *)
Definition pending_world : World :=
  net_world [cand_v6] [None; None; None; None; Some EINPROGRESS].

Definition EADDRINUSE : Z := 98.

(** An IPv6 and an IPv4 wildcard candidate; the IPv6 socket is created and
    restricted to IPv6, but its [bind] finds the port taken. *)
Definition server_world : World :=
  net_world [cand_v6; cand_v4] [None; None; None; Some EADDRINUSE].

(** Descriptor 3 is a fresh IPv6 socket; the surroundings refuse the next
    fallible call. *)
Definition refusing_world : World :=
  set_script [Some EACCES] (set_files <[3 := new_socket AF_INET6]> world0).

Definition ECONNABORTED : Z := 103.

(** Descriptor 3 listens; the first [accept] is interrupted by a signal,
    the second finds that the peer has gone. *)
Definition aborting_world : World :=
  set_files <[3 := set_incoming [AccFail EINTR; AccFail ECONNABORTED]
                     (set_backlog 511 (set_bound sa_v6 (new_socket AF_INET6)))]> world0.
End Examples.


(** * Specifications of the calls made *)

(** What a call leaves besides its result: one more log entry, a
    descriptor table, and the caller's memory and the address lists as
    they were. *)
Definition call_frame (w w1 : World) (e : event) (files : gmap Z File) : Prop :=
  w_log w1 = e :: w_log w ∧ w_files w1 = files ∧
  w_addrlists w1 = w_addrlists w ∧ w_err w1 = w_err w ∧ w_ss w1 = w_ss w ∧
  w_fds w1 = w_fds w ∧ w_resolver w1 = w_resolver w.

(** A call that reported failure to anet.c: -1 from a system call, a
    non-zero code from [getaddrinfo]. *)
Definition is_failed (e : event) : bool :=
  match e with
  | EvSocket _ r | EvSetsockopt _ _ _ _ r | EvGetfl _ r | EvSetfl _ _ r
  | EvConnect _ _ r | EvBind _ _ r | EvListen _ _ r | EvAccept _ r => r =? -1
  | EvGetaddrinfo r => negb (r =? 0)
  | _ => false
  end.

(** The messages written to the sink by the calls of a log (oldest first). *)
Fixpoint reports (tr : list event) : list string :=
  match tr with
  | [] => []
  | EvSetError true msg :: tr' => msg :: reports tr'
  | _ :: tr' => reports tr'
  end.

Section runs.
Context `{Platform}.

(** The content of the sink after the calls of a log, from its content
    before: every write replaces it. *)
Fixpoint sink_after (tr : list event) (sink : string) : string :=
  match tr with
  | [] => sink
  | EvSetError true msg :: tr' => sink_after tr' (cut msg)
  | _ :: tr' => sink_after tr' sink
  end.

(** The calls of [anetCreateSocket] for a family (oldest first) and its
    outcome: the new socket, or none. *)
Inductive create_run (err : bool) (domain : Z) : list event → option Z → Prop :=
  | create_no_socket e :
      create_run err domain
        [EvSocket domain (-1); EvSetError err ("creating socket: " +:+ strerror e)]
        None
  | create_no_reuseaddr s e :
      s ≠ -1 →
      create_run err domain
        [EvSocket domain s; EvSetsockopt s SOL_SOCKET SO_REUSEADDR 1 (-1);
         EvSetError err ("setsockopt SO_REUSEADDR: " +:+ strerror e)]
        None
  | create_ok s :
      s ≠ -1 →
      create_run err domain
        [EvSocket domain s; EvSetsockopt s SOL_SOCKET SO_REUSEADDR 1 0]
        (Some s).

(** The [IPV6_V6ONLY] call of [anetListen], made for IPv6 addresses only;
    its result [r] is not looked at. *)
Definition v6only_call (s : Z) (sa : sockaddr) (r : Z) : list event :=
  if sa_family sa =? AF_INET6 then [EvSetsockopt s IPPROTO_IPV6 IPV6_V6ONLY 1 r] else [].

(** The calls of [anetListen] on socket [s] and whether [s] now listens:
    a failed [bind] or [listen] is reported and followed by [close(s)]. *)
Inductive listen_run (err : bool) (s : Z) (sa : sockaddr) : list event → bool → Prop :=
  | listen_no_bind r e :
      listen_run err s sa
        (v6only_call s sa r ++
         [EvBind s sa (-1); EvSetError err ("bind: " +:+ strerror e); EvClose s])
        false
  | listen_no_listen r e :
      listen_run err s sa
        (v6only_call s sa r ++
         [EvBind s sa 0; EvListen s 511 (-1);
          EvSetError err ("listen: " +:+ strerror e); EvClose s])
        false
  | listen_ok r :
      listen_run err s sa
        (v6only_call s sa r ++ [EvBind s sa 0; EvListen s 511 0])
        true.


End runs.


(** A log in which the sink is written only if some call failed. *)
Definition quiet (tr : list event) : Prop :=
  Forall (λ e, is_failed e = false) tr → reports tr = [].

(** The operations that take an error sink. *)
Inductive op :=
  | OpNonBlock (fd : Z)
  | OpTcpNoDelay (fd : Z)
  | OpSetSendBuffer (fd buffsize : Z)
  | OpTcpKeepAlive (fd : Z)
  | OpGetaddrinfo (addr : option string) (service : string)
  | OpTcpConnect (addr : option string) (service : string) (ss : bool)
  | OpTcpNonBlockConnect (addr : option string) (service : string) (ss : bool)
  | OpTcpNonBlockConnectAddr (p : addrinfo) (ss : bool)
  | OpTcpServer (service : string) (bindaddr : option string) (nfds : Z)
  | OpTcpAccept (s : Z) (ss : bool).

Definition returning (m : sys Z) : sys (option Z) := r ← m; mret (Some r).

(** The call of an operation, with or without a sink, and its result. *)
Definition run_op `{Platform} (fuel : nat) (err : bool) (o : op) : sys (option Z) :=
  match o with
  | OpNonBlock fd => returning (anetNonBlock err fd)
  | OpTcpNoDelay fd => returning (anetTcpNoDelay err fd)
  | OpSetSendBuffer fd n => returning (anetSetSendBuffer err fd n)
  | OpTcpKeepAlive fd => returning (anetTcpKeepAlive err fd)
  | OpGetaddrinfo addr service => returning (x ← anetGetaddrinfo err addr service; mret x.1)
  | OpTcpConnect addr service ss => returning (anetTcpConnect err addr service ss)
  | OpTcpNonBlockConnect addr service ss =>
      returning (anetTcpNonBlockConnect err addr service ss)
  | OpTcpNonBlockConnectAddr p ss => returning (anetTcpNonBlockConnectAddr err p ss)
  | OpTcpServer service bindaddr nfds =>
      returning (anetTcpServer err service bindaddr nfds)
  | OpTcpAccept s ss => anetTcpAccept fuel err s ss
  end.

(** The entries waiting in the queue of listener [s]. *)
Definition pending (w : World) (s : Z) : nat :=
  from_option (λ f, length (f_incoming f)) 0%nat (w_files w !! s).

(** Fuel that lets the operation return: only [anetTcpAccept] loops, once
    per queue entry at most. *)
Definition enough_fuel (o : op) (w : World) (fuel : nat) : Prop :=
  match o with
  | OpTcpAccept s _ => (pending w s < fuel)%nat
  | _ => True
  end.

(** What a call with the calls [tr] does to the log and to the sink. *)
Definition sink_post `{Platform} (w w' : World) (tr : list event) : Prop :=
  w_log w' = rev tr ++ w_log w ∧ w_err w' = sink_after tr (w_err w) ∧ quiet tr.

(** A failure was reported, or there was none. *)
Definition told (tr : list event) : Prop :=
  reports tr ≠ [] ∨ Forall (λ e, is_failed e = false) tr.

(** The text an address stands for, in the words of the specification: the
    platform's presentation of the IPv4 or IPv6 address, within the
    family's maximum length, and [NOT_AN_ADDRESS] for any other family and
    for no address at all. *)
Definition presentation `{Platform} (res : option sockaddr) : option string :=
  match res with
  | None => Some "NOT_AN_ADDRESS"
  | Some sa =>
      if sa_family sa =? AF_INET then
        inet_ntop AF_INET (sin_addr sa) INET_ADDRSTRLEN
      else if sa_family sa =? AF_INET6 then
        inet_ntop AF_INET6 (sin6_addr sa) INET6_ADDRSTRLEN
      else Some "NOT_AN_ADDRESS"
  end.

(** * Further specifications *)

(** The [connect] calls of a log, oldest first: the address tried and what
    [connect] returned. *)
Fixpoint connects (tr : list event) : list (sockaddr * Z) :=
  match tr with
  | [] => []
  | EvConnect _ sa r :: tr' => (sa, r) :: connects tr'
  | _ :: tr' => connects tr'
  end.

(** The heads of the messages an option operation can leave in the sink. *)
Definition option_heads (o : op) : list string :=
  match o with
  | OpNonBlock _ => ["fcntl(F_GETFL): "; "fcntl(F_SETFL,O_NONBLOCK): "]
  | OpTcpNoDelay _ => ["setsockopt TCP_NODELAY: "]
  | OpSetSendBuffer _ _ => ["setsockopt SO_SNDBUF: "]
  | OpTcpKeepAlive _ => ["setsockopt SO_KEEPALIVE: "]
  | _ => []
  end.

(** The socket an option operation works on. *)
Definition option_fd (o : op) : option Z :=
  match o with
  | OpNonBlock fd | OpTcpNoDelay fd | OpSetSendBuffer fd _ | OpTcpKeepAlive fd => Some fd
  | _ => None
  end.

(** The (level, option, value) of the three [setsockopt] operations. *)
Definition setter_option (o : op) : option (Z * Z * Z) :=
  match o with
  | OpTcpNoDelay _ => Some (IPPROTO_TCP, TCP_NODELAY, 1)
  | OpSetSendBuffer _ n => Some (SOL_SOCKET, SO_SNDBUF, n)
  | OpTcpKeepAlive _ => Some (SOL_SOCKET, SO_KEEPALIVE, 1)
  | _ => None
  end.

(** The position of [O_NONBLOCK] among the file status flags. *)
Definition O_NONBLOCK_bit : Z := 11.

(** A [setsockopt] or [fcntl] call that failed. *)
Definition setup_failed (e : event) : bool :=
  match e with
  | EvSetsockopt _ _ _ _ r | EvGetfl _ r | EvSetfl _ _ r => r =? -1
  | _ => false
  end.

(** A log without a failed [setsockopt] or [fcntl]. *)
Definition setup_clean (tr : list event) : Prop :=
  Forall (λ e, setup_failed e = false) tr.

(** The socket a connect operation hands out for candidate [ai]: of the
    candidate's family, with [SO_REUSEADDR] as its only option, with
    [O_NONBLOCK] added to the flags of a new socket if [nonblock], and
    connected to the candidate's address unless [connect] answered
    [rc = -1]. *)
Definition client_socket (nonblock : bool) (ai : addrinfo) (rc : Z) : File :=
  let f0 := add_opt (SOL_SOCKET, SO_REUSEADDR, 1) (new_socket (ai_family ai)) in
  let f1 := if nonblock then set_status (Z.lor (f_status f0) O_NONBLOCK) f0 else f0 in
  if rc =? -1 then f1 else set_peer (ai_addr ai) f1.

(** The slot after the address of [ai] was saved to it. *)
Definition saved_address `{Platform} (ss : bool) (ai : addrinfo) (slot : list byte)
    : list byte :=
  if ss
  then splice_at 0 (take (Z.to_nat sizeof_ptr) (sockaddr_bytes (ai_addr ai))) slot
  else slot.

(** Whether the flags of [anetTcpGenericConnect] ask for a non-blocking
    socket. *)
Definition wants_nonblock (flags : Z) : bool :=
  negb (Z.land flags ANET_CONNECT_NONBLOCK =? 0).

(** What the candidate loop of [anetTcpGenericConnect], run on the
    candidates [p] of list [h] from world [w], has done when it returns [r]
    in world [w'] after the calls [tr]. *)
Definition connect_outcome `{Platform} (flags : Z) (ss : bool) (h : nat)
    (p : list addrinfo) (w : World) (tr : list event) (r : Z) (w' : World) : Prop :=
  w_log w' = rev tr ++ w_log w ∧
  w_files w ⊆ w_files w' ∧ w_fds w' = w_fds w ∧ w_resolver w' = w_resolver w ∧
  map fst (connects tr) `sublist_of` map ai_addr p ∧
  ((∃ ai rc before, 0 ≤ r ∧ ai ∈ p ∧
      connects tr = before ++ [(ai_addr ai, rc)] ∧ Forall (λ c, c.2 = -1) before ∧
      (rc = 0 ∨ rc = -1 ∧ wants_nonblock flags = true) ∧
      w_files w !! r = None ∧
      w_files w' !! r = Some (client_socket (wants_nonblock flags) ai rc) ∧
      (setup_clean tr →
       w_files w' = <[r := client_socket (wants_nonblock flags) ai rc]> (w_files w)) ∧
      w_addrlists w' = delete h (w_addrlists w) ∧
      w_ss w' = saved_address ss ai (w_ss w) ∧
      (rc = -1 → w_errno w' = EINPROGRESS)) ∨
   (r = ANET_ERR ∧ w_ss w' = w_ss w ∧ Forall (λ c, c.2 = -1) (connects tr) ∧
    (setup_clean tr → w_files w' = w_files w) ∧
    (setup_clean tr ∨ wants_nonblock flags = false →
     w_addrlists w' = delete h (w_addrlists w)))).

(** The socket [anetTcpServer] hands out for candidate [ai]: a new socket
    of the candidate's family with [SO_REUSEADDR], with [IPV6_V6ONLY] too
    if [v6only], bound to the candidate's address and listening with a
    backlog of 511.  Its status flags are those of a new socket. *)
Definition listener_socket (ai : addrinfo) (v6only : bool) : File :=
  let f0 := add_opt (SOL_SOCKET, SO_REUSEADDR, 1) (new_socket (ai_family ai)) in
  let f1 := if v6only then add_opt (IPPROTO_IPV6, IPV6_V6ONLY, 1) f0 else f0 in
  set_backlog 511 (set_bound (ai_addr ai) f1).

(** Descriptor [sa.1] is the listener for candidate [sa.2]; [IPV6_V6ONLY]
    can only be set on a listener for an IPv6 address. *)
Definition listener_of (w : World) (sa : Z * addrinfo) : Prop :=
  ∃ v6only : bool,
    (v6only = true → sa_family (ai_addr sa.2) = AF_INET6) ∧
    w_files w !! sa.1 = Some (listener_socket sa.2 v6only).

(** Two worlds that differ at most in the sink and in the log. *)
Definition same_but_sink (w1 w2 : World) : Prop :=
  w_files w1 = w_files w2 ∧ w_addrlists w1 = w_addrlists w2 ∧
  w_errno w1 = w_errno w2 ∧ w_script w1 = w_script w2 ∧
  w_resolver w1 = w_resolver w2 ∧ w_ss w1 = w_ss w2 ∧ w_fds w1 = w_fds w2 ∧
  w_buf w1 = w_buf w2 ∧ w_heap w1 = w_heap w2.

(** Two computations that return the same and keep such worlds such. *)
Definition sink_blind {A} (m1 m2 : sys A) : Prop :=
  ∀ w1 w2, same_but_sink w1 w2 →
    (m1 w1).1 = (m2 w2).1 ∧ same_but_sink (m1 w1).2 (m2 w2).2.
(** * Proofs *)

Ltac sys_simpl :=
  unfold logged, fallible, with_file, fail_with, log, modify, get_world, errno,
    next_outcome, memcpy_ss;
  unfold mbind, sys_mbind, mret, sys_mret; cbn.

Lemma to_int_id z : - 2 ^ 31 ≤ z < 2 ^ 31 → to_int z = z.
Proof. intros Hz. unfold to_int. rewrite Z.mod_small; lia. Qed.

Lemma to_size_t_id `{Platform} z : 0 ≤ z < 2 ^ 31 → to_size_t z = z.
Proof.
  intros Hz. unfold to_size_t. apply Z.mod_small.
  pose proof sizeof_ptr_min.
  assert (2 ^ 32 ≤ 2 ^ (8 * sizeof_ptr)) by (apply Z.pow_le_mono_r; lia).
  lia.
Qed.

(** ** The kernel's [read] and [write] keep their contract *)

Lemma sys_read_spec fd off k w :
  0 ≤ k →
  ∃ r w', sys_read fd off k w = (r, w') ∧ (r = -1 ∨ 0 ≤ r ≤ k) ∧
          w_log w' = EvRead fd k r :: w_log w.
Proof.
  intros Hk. unfold sys_read. sys_simpl.
  destruct (w_files w !! fd) as [f|]; cbn; [destruct (f_rx f) as [|[bs|e] rest]; cbn|];
    (eexists _, _; split; [reflexivity|]; cbn; split; [lia|done]).
Qed.

Lemma sys_write_spec fd off k w :
  0 ≤ k →
  ∃ r w', sys_write fd off k w = (r, w') ∧ (r = -1 ∨ 0 ≤ r ≤ k) ∧
          w_log w' = EvWrite fd k r :: w_log w.
Proof.
  intros Hk. unfold sys_write. sys_simpl.
  destruct (w_files w !! fd) as [f|]; cbn; [destruct (f_tx f) as [|[c|e] rest]; cbn|];
    (eexists _, _; split; [reflexivity|]; cbn; split; [lia|done]).
Qed.

Section full_count.
Context `{Platform}.

Lemma anetRead_loop_run fd count fuel : ∀ off totlen w,
  0 ≤ totlen ≤ count → count ≤ INT_MAX →
  (Z.to_nat (count - totlen) ≤ fuel)%nat →
  ∃ r w' tr, anetRead_loop fuel fd off count totlen w = (Some r, w') ∧
             w_log w' = rev tr ++ w_log w ∧
             full_run (EvRead fd) count totlen tr r.
Proof.
  unfold INT_MAX. induction fuel as [|fuel IH]; intros off totlen w Htot Hmax Hfuel; cbn.
  - assert (totlen = count) as -> by lia. rewrite Z.eqb_refl.
    exists count, w, []. repeat split. constructor.
  - destruct (Z.eqb_spec totlen count) as [->|Hne].
    { exists count, w, []. repeat split. constructor. }
    unfold mbind, sys_mbind.
    rewrite to_int_id, to_size_t_id by lia.
    destruct (sys_read_spec fd off (count - totlen) w) as (r & w1 & -> & Hr & Hlog); [lia|].
    rewrite to_int_id by lia.
    destruct (Z.eqb_spec r 0) as [->|Hr0].
    { exists totlen, w1, [EvRead fd (count - totlen) 0]. repeat split; [done|].
      by constructor. }
    destruct (Z.eqb_spec r (-1)) as [->|Hr1].
    { exists (-1), w1, [EvRead fd (count - totlen) (-1)]. repeat split; [done|].
      by constructor. }
    rewrite to_int_id by lia.
    destruct (IH (off + r) (totlen + r) w1) as (r' & w' & tr & -> & Hlog' & Hrun);
      [lia..|].
    exists r', w', (EvRead fd (count - totlen) r :: tr). repeat split.
    + rewrite Hlog', Hlog. cbn. by rewrite <- app_assoc.
    + constructor; [done|lia..|done].
Qed.

Lemma anetWrite_loop_run fd count fuel : ∀ off totlen w,
  0 ≤ totlen ≤ count → count ≤ INT_MAX →
  (Z.to_nat (count - totlen) ≤ fuel)%nat →
  ∃ r w' tr, anetWrite_loop fuel fd off count totlen w = (Some r, w') ∧
             w_log w' = rev tr ++ w_log w ∧
             full_run (EvWrite fd) count totlen tr r.
Proof.
  unfold INT_MAX. induction fuel as [|fuel IH]; intros off totlen w Htot Hmax Hfuel; cbn.
  - assert (totlen = count) as -> by lia. rewrite Z.eqb_refl.
    exists count, w, []. repeat split. constructor.
  - destruct (Z.eqb_spec totlen count) as [->|Hne].
    { exists count, w, []. repeat split. constructor. }
    unfold mbind, sys_mbind.
    rewrite to_int_id, to_size_t_id by lia.
    destruct (sys_write_spec fd off (count - totlen) w) as (r & w1 & -> & Hr & Hlog); [lia|].
    rewrite to_int_id by lia.
    destruct (Z.eqb_spec r 0) as [->|Hr0].
    { exists totlen, w1, [EvWrite fd (count - totlen) 0]. repeat split; [done|].
      by constructor. }
    destruct (Z.eqb_spec r (-1)) as [->|Hr1].
    { exists (-1), w1, [EvWrite fd (count - totlen) (-1)]. repeat split; [done|].
      by constructor. }
    rewrite to_int_id by lia.
    destruct (IH (off + r) (totlen + r) w1) as (r' & w' & tr & -> & Hlog' & Hrun);
      [lia..|].
    exists r', w', (EvWrite fd (count - totlen) r :: tr). repeat split.
    + rewrite Hlog', Hlog. cbn. by rewrite <- app_assoc.
    + constructor; [done|lia..|done].
Qed.

Lemma full_run_range ev count tot tr r :
  0 ≤ tot ≤ count → full_run ev count tot tr r → r = -1 ∨ tot ≤ r ≤ count.
Proof. intros Htot Hrun. induction Hrun; lia. Qed.

End full_count.

(** ** Full-count reads and writes *)

(** Scenario 5 of the specification: 10 bytes in the pipe, then end of file,
    16 asked for. *)
Example anetRead_pipe :
  (anetRead 16 3 16 Examples.pipe_world).1 = Some 10 ∧
  take 10 (w_buf (anetRead 16 3 16 Examples.pipe_world).2)
    = Examples.bytes [1; 2; 3; 4; 5; 6; 7; 8; 9; 10] ∧
  rev (w_log (anetRead 16 3 16 Examples.pipe_world).2)
    = [EvRead 3 16 4; EvRead 3 12 6; EvRead 3 6 0].
Proof. vm_compute. done. Qed.

Example anetWrite_slow_peer :
  (anetWrite 16 3 16 Examples.slow_peer_world).1 = Some 10 ∧
  rev (w_log (anetWrite 16 3 16 Examples.slow_peer_world).2)
    = [EvWrite 3 16 4; EvWrite 3 12 6; EvWrite 3 6 0].
Proof. vm_compute. done. Qed.





Lemma anetRead_zero `{Platform} fuel fd w : anetRead fuel fd 0 w = (Some 0, w).
Proof. by destruct fuel. Qed.

Lemma anetWrite_zero `{Platform} fuel fd w : anetWrite fuel fd 0 w = (Some 0, w).
Proof. by destruct fuel. Qed.

(** C10. For a count [0 <= n], [anetRead] and [anetWrite] return -1 or a
    total between 0 and [n]; with [n = 0] both return 0 and leave the world
    as it was: no read or write is made (the log does not grow). *)
Theorem anetRead_anetWrite_range `{Platform} (w : World) (fd n : Z) (fuel : nat) :
  0 ≤ n ≤ INT_MAX →
  (Z.to_nat n ≤ fuel)%nat →
  ∃ r wr t wt,
    anetRead fuel fd n w = (Some r, wr) ∧ (r = -1 ∨ 0 ≤ r ≤ n) ∧
    anetWrite fuel fd n w = (Some t, wt) ∧ (t = -1 ∨ 0 ≤ t ≤ n) ∧
    (n = 0 → r = 0 ∧ wr = w ∧ t = 0 ∧ wt = w).
Proof.
  intros Hn Hfuel.
  destruct (anetRead_loop_run fd n fuel 0 0 w) as (r & wr & tr & Er & _ & Hr);
    [lia..|by rewrite Z.sub_0_r|].
  destruct (anetWrite_loop_run fd n fuel 0 0 w) as (t & wt & tt & Et & _ & Ht);
    [lia..|by rewrite Z.sub_0_r|].
  fold (anetRead fuel fd n) in Er. fold (anetWrite fuel fd n) in Et.
  exists r, wr, t, wt. repeat split; try done.
  - eapply full_run_range; [|done]. lia.
  - eapply full_run_range; [|done]. lia.
  - subst n. rewrite anetRead_zero in Er. congruence.
  - subst n. rewrite anetRead_zero in Er. congruence.
  - subst n. rewrite anetWrite_zero in Et. congruence.
  - subst n. rewrite anetWrite_zero in Et. congruence.
Qed.

Lemma anetRead_anetWrite_range_witness :
  0 ≤ 0 ≤ INT_MAX ∧ (Z.to_nat 0 ≤ 0)%nat ∧
  ∃ r wr t wt,
    anetRead 0 3 0 Examples.pipe_world = (Some r, wr) ∧ (r = -1 ∨ 0 ≤ r ≤ 0) ∧
    anetWrite 0 3 0 Examples.pipe_world = (Some t, wt) ∧ (t = -1 ∨ 0 ≤ t ≤ 0) ∧
    (0 = 0 → r = 0 ∧ wr = Examples.pipe_world ∧ t = 0 ∧ wt = Examples.pipe_world).
Proof.
  assert (H1 : 0 ≤ 0 ≤ INT_MAX) by (unfold INT_MAX; lia).
  assert (H2 : (Z.to_nat 0 ≤ 0)%nat) by (vm_compute; lia).
  exact (conj H1 (conj H2 (anetRead_anetWrite_range Examples.pipe_world 3 0 0 H1 H2))).
Defined.

(** ** Resources on the error paths *)

(** C1 (defect). A non-blocking connect whose [fcntl] fails returns [ERR]
    through the early [return] of the candidate loop: the address list that
    [getaddrinfo] handed out is still live afterwards, [freeaddrinfo] was
    never called. *)
Theorem anetTcpNonBlockConnect_keeps_addrlist :
  let '(r, w') := anetTcpNonBlockConnect true (Some "example.org") "80" true
                    Examples.fcntl_refused_world in
  r = ANET_ERR ∧
  w_addrlists Examples.fcntl_refused_world = ∅ ∧
  w_addrlists w' !! 0%nat = Some [Examples.cand_v4] ∧
  rev (w_log w') =
    [EvGetaddrinfo 0; EvSocket AF_INET 0; EvSetsockopt 0 SOL_SOCKET SO_REUSEADDR 1 0;
     EvGetfl 0 (-1); EvSetError true "fcntl(F_GETFL): Permission denied"].
Proof. vm_compute. done. Qed.

(** C2 (defect). [anetCreateSocket] returns [ERR] when [setsockopt] fails
    and leaves the socket it created open; the connect path returns [ERR]
    when [anetNonBlock] fails and leaves the candidate's socket open.
    Neither path calls [close]. *)
Theorem failed_calls_keep_socket_open :
  (let '(r, w') := anetCreateSocket true AF_INET Examples.reuseaddr_refused_world in
   r = ANET_ERR ∧
   w_files Examples.reuseaddr_refused_world = ∅ ∧
   w_files w' !! 0 = Some (new_socket AF_INET) ∧
   rev (w_log w') =
     [EvSocket AF_INET 0; EvSetsockopt 0 SOL_SOCKET SO_REUSEADDR 1 (-1);
      EvSetError true "setsockopt SO_REUSEADDR: Permission denied"]) ∧
  (let '(r, w') := anetTcpNonBlockConnect true (Some "example.org") "80" true
                     Examples.fcntl_refused_world in
   r = ANET_ERR ∧
   w_files Examples.fcntl_refused_world = ∅ ∧
   is_Some (w_files w' !! 0) ∧
   EvClose 0 ∉ w_log w').
Proof.
  split; vm_compute; (split; [done|]); (split; [done|]); split; try done.
  - by eexists.
  - intros Hin. repeat (apply elem_of_cons in Hin as [Hin|Hin]; [discriminate|]).
    by apply elem_of_nil in Hin.
Qed.

(** ** The out-address slot *)

(** C7 (defect). A connect that succeeds on an IPv6 candidate, with a zeroed
    out-address slot provided: [memcpy(ss, p->ai_addr, sizeof(&ss))] copies
    the 8 bytes of a pointer, so the slot receives family, port and flow
    information only; the 16 address bytes and the scope id are not copied,
    and the slot does not hold the candidate's 28-byte socket address.  The
    same happens on the [EINPROGRESS] path. *)
Theorem anetTcpConnect_copies_pointer_size :
  (let '(r, w') := anetTcpConnect true (Some "example.org") "80" true Examples.v6_world in
   r = 0 ∧
   length (sockaddr_bytes Examples.sa_v6) = 28%nat ∧
   take 28 (w_ss w') ≠ sockaddr_bytes Examples.sa_v6 ∧
   take 8 (w_ss w') = take 8 (sockaddr_bytes Examples.sa_v6) ∧
   drop 8 (w_ss w') = drop 8 (w_ss Examples.v6_world)) ∧
  (let '(r, w') := anetTcpNonBlockConnect true (Some "example.org") "80" true
                     Examples.pending_world in
   r = 0 ∧
   w_errno w' = EINPROGRESS ∧
   take 28 (w_ss w') ≠ sockaddr_bytes Examples.sa_v6 ∧
   take 8 (w_ss w') = take 8 (sockaddr_bytes Examples.sa_v6) ∧
   drop 8 (w_ss w') = drop 8 (w_ss Examples.pending_world)).
Proof. split; vm_compute; repeat split; done. Qed.

(** C8 (defect). [anetTcpAccept] on a listener whose first [accept] is
    interrupted and whose second meets a connection from an IPv6 peer: the
    interruption is retried and the new descriptor returned, but [accept]
    was given [sslen = sizeof(&ss)], the 8 bytes of a pointer, so the slot
    holds only the first 8 bytes of the peer's 28-byte socket address. *)
Theorem anetTcpAccept_stores_pointer_size :
  let '(r, w') := anetTcpAccept 2 true 3 true Examples.listener_world in
  r = Some 4 ∧
  rev (w_log w') = [EvAccept 3 (-1); EvAccept 3 4] ∧
  (f_peer <$> w_files w' !! 4) = Some (Some Examples.sa_v6) ∧
  take 28 (w_ss w') ≠ sockaddr_bytes Examples.sa_v6 ∧
  take 8 (w_ss w') = take 8 (sockaddr_bytes Examples.sa_v6) ∧
  drop 8 (w_ss w') = drop 8 (w_ss Examples.listener_world).
Proof. vm_compute; repeat split; done. Qed.

(** ** The kernel calls, one by one *)

Lemma fresh_key_spec {A} (base : Z) (m : gmap Z A) :
  base ≤ fresh_key base m ∧ m !! fresh_key base m = None.
Proof.
  unfold fresh_key.
  assert (∀ l : list (Z * A),
    base ≤ foldr (λ kv acc, Z.max (kv.1 + 1) acc) base l ∧
    ∀ k v, (k, v) ∈ l → k < foldr (λ kv acc, Z.max (kv.1 + 1) acc) base l) as Hl.
  { induction l as [|[k0 v0] l [IH1 IH2]]; cbn.
    - split; [lia|]. intros k v Hin. by apply elem_of_nil in Hin.
    - split; [lia|]. intros k v [Heq|Hin]%elem_of_cons.
      + inversion Heq; subst. lia.
      + specialize (IH2 k v Hin). lia. }
  destruct (Hl (map_to_list m)) as [H1 H2]. split; [done|].
  destruct (m !! foldr _ base (map_to_list m)) as [v|] eqn:E; [|done].
  apply elem_of_map_to_list in E. apply H2 in E. lia.
Qed.

Lemma logged_fallible_spec ev fd upd ret w :
  ∃ r w1, logged ev (fallible fd upd ret) w = (r, w1) ∧
    ((r = -1 ∧ call_frame w w1 (ev (-1)) (w_files w)) ∨
     (∃ f, w_files w !! fd = Some f ∧ r = ret f ∧
           call_frame w w1 (ev r) (<[fd := upd f]> (w_files w)))).
Proof.
  sys_simpl. destruct (w_files w !! fd) as [f|] eqn:Ef; cbn.
  - destruct (mjoin (head (w_script w))) as [e|]; cbn.
    + eexists _, _. split; [reflexivity|]. left. by repeat split.
    + eexists _, _. split; [reflexivity|]. right. exists f. by repeat split.
  - eexists _, _. split; [reflexivity|]. left. by repeat split.
Qed.

Lemma sys_socket_spec domain w :
  ∃ r w1, sys_socket domain w = (r, w1) ∧
    ((r = -1 ∧ call_frame w w1 (EvSocket domain (-1)) (w_files w)) ∨
     (0 ≤ r ∧ w_files w !! r = None ∧
      call_frame w w1 (EvSocket domain r) (<[r := new_socket domain]> (w_files w)))).
Proof.
  unfold sys_socket. sys_simpl.
  destruct (mjoin (head (w_script w))) as [e|]; cbn.
  - eexists _, _. split; [reflexivity|]. left. by repeat split.
  - eexists _, _. split; [reflexivity|]. right.
    destruct (fresh_key_spec 0 (w_files w)) as [H0 Hnone]. by repeat split.
Qed.

Lemma sys_close_spec fd w :
  ∃ r w1, sys_close fd w = (r, w1) ∧
          call_frame w w1 (EvClose fd) (delete fd (w_files w)).
Proof.
  unfold sys_close. sys_simpl. destruct (w_files w !! fd) as [f|] eqn:Ef; cbn.
  - eexists _, _. split; [reflexivity|]. by repeat split.
  - eexists _, _. split; [reflexivity|]. repeat split. cbn. by rewrite delete_id.
Qed.

Ltac frame_split :=
  repeat match goal with
  | H : call_frame _ _ _ _ |- _ => destruct H as (? & ? & ? & ? & ? & ? & ?)
  end.

Ltac frame_rw :=
  repeat match goal with
  | H : w_log ?x = _ |- context [w_log ?x] => rewrite H
  | H : w_files ?x = _ |- context [w_files ?x] => rewrite H
  | H : w_addrlists ?x = _ |- context [w_addrlists ?x] => rewrite H
  | H : w_err ?x = _ |- context [w_err ?x] => rewrite H
  | H : w_ss ?x = _ |- context [w_ss ?x] => rewrite H
  | H : w_fds ?x = _ |- context [w_fds ?x] => rewrite H
  | H : w_resolver ?x = _ |- context [w_resolver ?x] => rewrite H
  end.

Lemma bind_eq {A B} (m : sys A) (f : A → sys B) w :
  (m ≫= f) w = let '(x, w') := m w in f x w'.
Proof. done. Qed.

Lemma sys_setsockopt_spec fd level optname val w :
  ∃ r w1, sys_setsockopt fd level optname val w = (r, w1) ∧
    ((r = -1 ∧ call_frame w w1 (EvSetsockopt fd level optname val (-1)) (w_files w)) ∨
     (∃ f, w_files w !! fd = Some f ∧ r = 0 ∧
           call_frame w w1 (EvSetsockopt fd level optname val r)
             (<[fd := add_opt (level, optname, val) f]> (w_files w)))).
Proof. apply logged_fallible_spec. Qed.

Lemma sys_fcntl_getfl_spec fd w :
  ∃ r w1, sys_fcntl_getfl fd w = (r, w1) ∧
    ((r = -1 ∧ call_frame w w1 (EvGetfl fd (-1)) (w_files w)) ∨
     (∃ f, w_files w !! fd = Some f ∧ r = f_status f ∧
           call_frame w w1 (EvGetfl fd r) (<[fd := f]> (w_files w)))).
Proof. apply (logged_fallible_spec (EvGetfl fd) fd id f_status). Qed.

Lemma sys_fcntl_setfl_spec fd flags w :
  ∃ r w1, sys_fcntl_setfl fd flags w = (r, w1) ∧
    ((r = -1 ∧ call_frame w w1 (EvSetfl fd flags (-1)) (w_files w)) ∨
     (∃ f, w_files w !! fd = Some f ∧ r = 0 ∧
           call_frame w w1 (EvSetfl fd flags r) (<[fd := set_status flags f]> (w_files w)))).
Proof. apply logged_fallible_spec. Qed.

Lemma sys_connect_spec fd sa len w :
  ∃ r w1, sys_connect fd sa len w = (r, w1) ∧
    ((r = -1 ∧ call_frame w w1 (EvConnect fd sa (-1)) (w_files w)) ∨
     (∃ f, w_files w !! fd = Some f ∧ r = 0 ∧
           call_frame w w1 (EvConnect fd sa r) (<[fd := set_peer sa f]> (w_files w)))).
Proof. apply logged_fallible_spec. Qed.

Lemma sys_bind_spec fd sa len w :
  ∃ r w1, sys_bind fd sa len w = (r, w1) ∧
    ((r = -1 ∧ call_frame w w1 (EvBind fd sa (-1)) (w_files w)) ∨
     (∃ f, w_files w !! fd = Some f ∧ r = 0 ∧
           call_frame w w1 (EvBind fd sa r) (<[fd := set_bound sa f]> (w_files w)))).
Proof. apply logged_fallible_spec. Qed.

Lemma sys_listen_spec fd backlog w :
  ∃ r w1, sys_listen fd backlog w = (r, w1) ∧
    ((r = -1 ∧ call_frame w w1 (EvListen fd backlog (-1)) (w_files w)) ∨
     (∃ f, w_files w !! fd = Some f ∧ r = 0 ∧
           call_frame w w1 (EvListen fd backlog r)
             (<[fd := set_backlog backlog f]> (w_files w)))).
Proof. apply logged_fallible_spec. Qed.

Section server.
Context `{Platform}.

Lemma anetSetError_spec err msg w :
  ∃ w1, anetSetError err msg w = (tt, w1) ∧
    w_log w1 = EvSetError err msg :: w_log w ∧ w_files w1 = w_files w ∧
    w_addrlists w1 = w_addrlists w ∧
    w_err w1 = (if err then cut msg else w_err w) ∧ w_ss w1 = w_ss w ∧
    w_fds w1 = w_fds w ∧ w_resolver w1 = w_resolver w.
Proof.
  unfold anetSetError. sys_simpl. destruct err; cbn; eexists; by repeat split.
Qed.

Lemma sink_after_app tr1 tr2 sink :
  sink_after (tr1 ++ tr2) sink = sink_after tr2 (sink_after tr1 sink).
Proof.
  revert sink. induction tr1 as [|e tr1 IH]; intros sink; [done|].
  destruct e; cbn; try done. by destruct err.
Qed.

Lemma sink_after_v6only s sa r sink : sink_after (v6only_call s sa r) sink = sink.
Proof. unfold v6only_call. by destruct (sa_family sa =? AF_INET6). Qed.

Lemma anetCreateSocket_spec err domain w :
  ∃ r w1 tr, anetCreateSocket err domain w = (r, w1) ∧
    w_log w1 = rev tr ++ w_log w ∧ w_err w1 = sink_after tr (w_err w) ∧
    w_fds w1 = w_fds w ∧ w_addrlists w1 = w_addrlists w ∧
    ((r = ANET_ERR ∧ create_run err domain tr None ∧ w_files w ⊆ w_files w1) ∨
     (r ≠ ANET_ERR ∧ create_run err domain tr (Some r) ∧ w_files w !! r = None ∧
      w_files w1 =
        <[r := add_opt (SOL_SOCKET, SO_REUSEADDR, 1) (new_socket domain)]> (w_files w))).
Proof.
  unfold anetCreateSocket, mbind, sys_mbind.
  destruct (sys_socket_spec domain w)
    as (s & w1 & -> & [[-> Hfr]|(Hs & Hnone & Hfr)]).
  - cbn. unfold errno.
    destruct (anetSetError_spec err ("creating socket: " +:+ strerror (w_errno w1)) w1)
      as (w2 & -> & ?); destruct_and!. cbn. frame_split.
    eexists _, _, [_; _]. split; [reflexivity|]. frame_rw.
    split_and!; [done|by destruct err|done..|].
    left. repeat split; [constructor|done].
  - destruct (Z.eqb_spec s (-1)) as [->|Hne]; [lia|].
    unfold sys_setsockopt.
    destruct (logged_fallible_spec (EvSetsockopt s SOL_SOCKET SO_REUSEADDR 1) s
                (add_opt (SOL_SOCKET, SO_REUSEADDR, 1)) (λ _, 0) w1)
      as (r & w2 & -> & [[-> Hfr2]|(f & Hf & -> & Hfr2)]).
    + cbn. unfold errno.
      destruct (anetSetError_spec err ("setsockopt SO_REUSEADDR: " +:+ strerror (w_errno w2)) w2)
        as (w3 & -> & ?); destruct_and!. cbn. frame_split.
      eexists _, _, [_; _; _]. split; [reflexivity|]. frame_rw.
      split_and!; [done|by destruct err|done..|].
      left. repeat split; [by constructor|].
      by apply insert_subseteq.
    + cbn. frame_split.
      eexists _, _, [_; _]. split; [reflexivity|]. frame_rw.
      split_and!; [done..|].
      right. repeat split; try done; [by constructor|].
      match goal with Hw : w_files w1 = _ |- _ => rewrite Hw in Hf end.
      rewrite lookup_insert_eq in Hf. injection Hf as <-.
      by rewrite insert_insert_eq.
Qed.

Lemma anetListen_spec err s sa len w f :
  w_files w !! s = Some f →
  ∃ r w1 tr, anetListen err s sa len w = (r, w1) ∧
    w_log w1 = rev tr ++ w_log w ∧ w_err w1 = sink_after tr (w_err w) ∧
    w_fds w1 = w_fds w ∧ w_addrlists w1 = w_addrlists w ∧
    ((r = ANET_ERR ∧ listen_run err s sa tr false ∧
      w_files w1 = delete s (w_files w)) ∨
     (r = ANET_OK ∧ listen_run err s sa tr true ∧
      ∃ f', w_files w1 = <[s := f']> (w_files w) ∧ f_domain f' = f_domain f ∧
            f_bound f' = Some sa ∧ f_backlog f' = Some 511)).
Proof.
  intros Hf. unfold anetListen. rewrite bind_eq.
  assert (∃ r0 w0 f0, (if sa_family sa =? AF_INET6
            then sys_setsockopt s IPPROTO_IPV6 IPV6_V6ONLY 1;; mret ()
            else mret ()) w = (tt, w0) ∧
          w_log w0 = rev (v6only_call s sa r0) ++ w_log w ∧ w_err w0 = w_err w ∧
          w_fds w0 = w_fds w ∧ w_addrlists w0 = w_addrlists w ∧
          w_files w0 = <[s := f0]> (w_files w) ∧ f_domain f0 = f_domain f)
    as (r0 & w0 & f0 & -> & Hlog0 & Herr0 & Hfds0 & Haddr0 & Hfiles0 & Hdom0).
  { unfold v6only_call. destruct (sa_family sa =? AF_INET6).
    - unfold mbind, sys_mbind, sys_setsockopt.
      destruct (logged_fallible_spec (EvSetsockopt s IPPROTO_IPV6 IPV6_V6ONLY 1) s
                  (add_opt (IPPROTO_IPV6, IPV6_V6ONLY, 1)) (λ _, 0) w)
        as (r & w1 & -> & [[-> Hfr]|(f1 & Hf1 & -> & Hfr)]); frame_split.
      + exists (-1), w1, f. repeat split; try done. frame_rw. by rewrite insert_id.
      + exists 0, w1, (add_opt (IPPROTO_IPV6, IPV6_V6ONLY, 1) f1).
        repeat split; try done. cbn. congruence.
    - exists 0, w, f. repeat split. by rewrite insert_id. }
  rewrite bind_eq.
  destruct (sys_bind_spec s sa len w0) as (b & w1 & -> & [[-> Hfr]|(f1 & Hf1 & -> & Hfr)]).
  - cbn. rewrite bind_eq. unfold errno. rewrite bind_eq.
    destruct (anetSetError_spec err ("bind: " +:+ strerror (w_errno w1)) w1)
      as (w2 & -> & ?); destruct_and!. rewrite bind_eq.
    destruct (sys_close_spec s w2) as (c & w3 & -> & Hfr3). cbn. frame_split.
    eexists _, _, (v6only_call s sa r0 ++ [_; _; _]). split; [reflexivity|].
    frame_rw. rewrite rev_app_distr, sink_after_app, sink_after_v6only.
    split_and!; [done|by destruct err|done..|]. left. repeat split.
    + constructor.
    + by rewrite delete_insert_eq.
  - cbn. rewrite bind_eq.
    destruct (sys_listen_spec s 511 w1) as (l & w2 & -> & [[-> Hfr2]|(f2 & Hf2 & -> & Hfr2)]).
    + cbn. rewrite bind_eq. unfold errno. rewrite bind_eq.
      destruct (anetSetError_spec err ("listen: " +:+ strerror (w_errno w2)) w2)
        as (w3 & -> & ?); destruct_and!. rewrite bind_eq.
      destruct (sys_close_spec s w3) as (c & w4 & -> & Hfr4). cbn. frame_split.
      eexists _, _, (v6only_call s sa r0 ++ [_; _; _; _]). split; [reflexivity|].
      frame_rw. rewrite rev_app_distr, sink_after_app, sink_after_v6only.
      split_and!; [done|by destruct err|done..|]. left. repeat split.
      * constructor.
      * by rewrite delete_insert_eq, delete_insert_eq.
    + cbn. frame_split.
      eexists _, _, (v6only_call s sa r0 ++ [_; _]). split; [reflexivity|].
      frame_rw. rewrite rev_app_distr, sink_after_app, sink_after_v6only.
      split_and!; [done..|]. right. repeat split.
      * constructor.
      * rewrite Hfiles0, lookup_insert_eq in Hf1. injection Hf1 as <-.
        match goal with Hw : w_files w1 = _ |- _ => rewrite Hw, lookup_insert_eq in Hf2 end.
        injection Hf2 as <-.
        exists (set_backlog 511 (set_bound sa f0)).
        by rewrite !insert_insert_eq.
Qed.

Lemma sys_freeaddrinfo_eq h w :
  sys_freeaddrinfo h w =
    (tt, add_log (EvFreeaddrinfo h) (set_addrlists (delete h) w)).
Proof. done. Qed.

Lemma store_next {A} (l : list A) (i k : nat) (x : A) (rest : list A) :
  (i < length l)%nat →
  take (S i) (<[i:=x]> l) ++ rest ++ drop (S i + k) (<[i:=x]> l)
  = take i l ++ (x :: rest) ++ drop (i + S k) l.
Proof.
  intros Hi.
  rewrite (take_S_r _ _ x) by (by apply list_lookup_insert_eq).
  rewrite take_insert_ge by lia. rewrite drop_insert_lt by lia.
  rewrite <- app_assoc. cbn. do 4 f_equal. lia.
Qed.


End server.

Example anetTcpServer_second_candidate :
  let '(r, w') := anetTcpServer true "30005" None 4 Examples.server_world in
  r = 1 ∧ w_fds w' = [0; -1; -1; -1] ∧ w_err w' = "bind: Address already in use" ∧
  (f_bound <$> w_files w' !! 0) = Some (Some Examples.sa_v4) ∧
  rev (w_log w') =
    [EvGetaddrinfo 0;
     EvSocket AF_INET6 0; EvSetsockopt 0 SOL_SOCKET SO_REUSEADDR 1 0;
     EvSetsockopt 0 IPPROTO_IPV6 IPV6_V6ONLY 1 0; EvBind 0 Examples.sa_v6 (-1);
     EvSetError true "bind: Address already in use"; EvClose 0;
     EvSocket AF_INET 0; EvSetsockopt 0 SOL_SOCKET SO_REUSEADDR 1 0;
     EvBind 0 Examples.sa_v4 0; EvListen 0 511 0;
     EvFreeaddrinfo 0].
Proof. vm_compute. repeat split; done. Qed.



(** ** The error sink *)

Lemma reports_app tr1 tr2 : reports (tr1 ++ tr2) = reports tr1 ++ reports tr2.
Proof.
  induction tr1 as [|e tr1 IH]; [done|].
  destruct e; cbn; try done. destruct err; cbn; by rewrite ?IH.
Qed.

Lemma quiet_app tr1 tr2 : quiet tr1 → quiet tr2 → quiet (tr1 ++ tr2).
Proof.
  intros H1 H2 [HF1 HF2]%Forall_app. by rewrite reports_app, H1, H2.
Qed.

Lemma reports_v6only `{Platform} s sa r : reports (v6only_call s sa r) = [].
Proof. unfold v6only_call. by destruct (sa_family sa =? AF_INET6). Qed.

Ltac quiet_tac :=
  let HF := fresh "HF" in
  intros HF; cbn in *;
  repeat match goal with
  | H : Forall _ (_ :: _) |- _ => apply Forall_cons in H as [? ?]
  end; cbn in *; try done; try discriminate.

Section sink.
Context `{Platform}.

Lemma sink_after_last tr sink :
  sink_after tr sink = from_option cut sink (last (reports tr)).
Proof.
  revert sink. induction tr as [|e tr IH]; intros sink; [done|].
  destruct e as [| | | | | | | | | | | | |[] msg]; cbn [sink_after reports];
    try exact (IH sink).
  rewrite IH. destruct (reports tr) as [|m l]; [done|].
  change (last (msg :: m :: l)) with (last (m :: l)).
  destruct (last (m :: l)) eqn:E; [done|]. by apply last_None in E.
Qed.

Lemma sink_post_refl w : sink_post w w [].
Proof. by repeat split. Qed.

Lemma sink_post_trans w w1 w2 tr1 tr2 :
  sink_post w w1 tr1 → sink_post w1 w2 tr2 → sink_post w w2 (tr1 ++ tr2).
Proof.
  intros (Hl1 & He1 & Hq1) (Hl2 & He2 & Hq2). repeat split.
  - by rewrite Hl2, Hl1, rev_app_distr, app_assoc.
  - by rewrite He2, He1, sink_after_app.
  - by apply quiet_app.
Qed.

Lemma create_run_sink err domain tr o :
  create_run err domain tr o →
  quiet tr ∧ (o = None → err = true → reports tr ≠ []) ∧
  (is_Some o → reports tr = [] ∧ Forall (λ e, is_failed e = false) tr).
Proof.
  intros Hrun. destruct Hrun; (split; [quiet_tac|split]).
  - by intros _ ->.
  - by intros [].
  - by intros _ ->.
  - by intros [].
  - done.
  - intros _. split; [done|]. repeat constructor. cbn. by apply Z.eqb_neq.
Qed.

Lemma told_app_reports_l tr1 tr2 : reports tr1 ≠ [] → told (tr1 ++ tr2).
Proof. intros Hr. left. rewrite reports_app. by destruct (reports tr1). Qed.

Lemma told_app_reports_r tr1 tr2 : reports tr2 ≠ [] → told (tr1 ++ tr2).
Proof.
  intros Hr. left. rewrite reports_app.
  destruct (reports tr1); [done|]. by destruct (reports tr2).
Qed.

Lemma told_app_clean tr1 tr2 :
  Forall (λ e, is_failed e = false) tr1 → told tr2 → told (tr1 ++ tr2).
Proof.
  intros HF [Hr|HF2]; [by apply told_app_reports_r|]. right. by apply Forall_app.
Qed.

(** The three option setters share one shape. *)
Lemma setsockopt_sink err fd level optname val (msg : string) w :
  ∃ r w' tr,
    (r ← sys_setsockopt fd level optname val;
     if r =? -1 then
       e ← errno; anetSetError err (msg +:+ strerror e);; mret ANET_ERR
     else mret ANET_OK) w = (r, w') ∧
    sink_post w w' tr ∧ (r = ANET_ERR → err = true → reports tr ≠ []).
Proof.
  rewrite bind_eq.
  destruct (sys_setsockopt_spec fd level optname val w)
    as (r & w1 & -> & [[-> Hfr]|(f & Hf & -> & Hfr)]).
  - cbn. rewrite bind_eq. unfold errno. rewrite bind_eq.
    destruct (anetSetError_spec err (msg +:+ strerror (w_errno w1)) w1)
      as (w2 & -> & ?); destruct_and!. cbn. frame_split.
    eexists _, _, [_; _]. split; [reflexivity|]. unfold sink_post. frame_rw.
    split_and!; [done|by destruct err|quiet_tac|by intros _ ->].
  - cbn. frame_split.
    eexists _, _, [_]. split; [reflexivity|]. unfold sink_post. frame_rw.
    split_and!; [done..|quiet_tac|done].
Qed.

Lemma anetNonBlock_sink err fd w :
  ∃ r w' tr, anetNonBlock err fd w = (r, w') ∧ sink_post w w' tr ∧
    (r = ANET_OK ∧ reports tr = [] ∧ Forall (λ e, is_failed e = false) tr ∨
     r = ANET_ERR ∧ (err = true → reports tr ≠ [])) ∧
    w_addrlists w' = w_addrlists w.
Proof.
  unfold anetNonBlock. rewrite bind_eq.
  destruct (sys_fcntl_getfl_spec fd w) as (r & w1 & -> & Hr).
  destruct (Z.eqb_spec r (-1)) as [->|Hne].
  - assert (call_frame w w1 (EvGetfl fd (-1)) (w_files w1)) as Hfr.
    { destruct Hr as [[_ Hfr]|(f & Hf & _ & Hfr)]; frame_split; by repeat split. }
    rewrite bind_eq. unfold errno. rewrite bind_eq.
    destruct (anetSetError_spec err ("fcntl(F_GETFL): " +:+ strerror (w_errno w1)) w1)
      as (w2 & -> & ?); destruct_and!. cbn. frame_split.
    eexists _, _, [_; _]. split; [reflexivity|]. unfold sink_post. frame_rw.
    split_and!; [done|by destruct err|quiet_tac| |done].
    right. split; [done|]. by intros ->.
  - destruct Hr as [[-> Hfr]|(f & Hf & -> & Hfr)]; [done|]. rewrite bind_eq.
    destruct (sys_fcntl_setfl_spec fd (Z.lor (f_status f) O_NONBLOCK) w1)
      as (r & w2 & -> & [[-> Hfr2]|(f2 & Hf2 & -> & Hfr2)]).
    + cbn. rewrite bind_eq. unfold errno. rewrite bind_eq.
      destruct (anetSetError_spec err
                  ("fcntl(F_SETFL,O_NONBLOCK): " +:+ strerror (w_errno w2)) w2)
        as (w3 & -> & ?); destruct_and!. cbn. frame_split.
      eexists _, _, [_; _; _]. split; [reflexivity|]. unfold sink_post. frame_rw.
      split_and!; [done|by destruct err|quiet_tac| |done].
      right. split; [done|]. by intros ->.
    + cbn. frame_split.
      eexists _, _, [_; _]. split; [reflexivity|]. unfold sink_post. frame_rw.
      split_and!; [done..|quiet_tac| |done].
      left. split_and!; [done..|]. repeat constructor. cbn. by apply Z.eqb_neq.
Qed.

Lemma listen_run_sink err s sa tr b :
  listen_run err s sa tr b →
  quiet tr ∧ (b = false → err = true → reports tr ≠ []) ∧
  (b = true → reports tr = []).
Proof.
  intros Hrun. destruct Hrun; (split; [|split]).
  - intros [_ HF]%Forall_app. revert HF. quiet_tac.
  - intros _ ->. rewrite reports_app, reports_v6only. done.
  - done.
  - intros [_ HF]%Forall_app. revert HF. quiet_tac.
  - intros _ ->. rewrite reports_app, reports_v6only. done.
  - done.
  - intros _. by rewrite reports_app, reports_v6only.
  - done.
  - intros _. by rewrite reports_app, reports_v6only.
Qed.

Lemma sink_post_call w w1 e files :
  call_frame w w1 e files → reports [e] = [] → sink_post w w1 [e].
Proof.
  intros Hfr Hrep. frame_split. repeat split; [done| |by intros _].
  destruct e; try done. by destruct err.
Qed.

Lemma connect_done (ss : bool) src h (s : Z) w :
  ∃ w', ((if ss then memcpy_ss src sizeof_ptr else @mret sys _ _ tt)
         ≫= λ _, sys_freeaddrinfo h ≫= λ _, mret s) w = (s, w') ∧
    w_log w' = EvFreeaddrinfo h :: w_log w ∧ w_err w' = w_err w ∧
    w_addrlists w' = delete h (w_addrlists w) ∧ w_files w' = w_files w.
Proof. destruct ss; (eexists; split; [reflexivity|]); by repeat split. Qed.

Lemma connect_loop_sink err flags ss h p : ∀ w,
  ∃ r w' tr, anetTcpGenericConnect_loop err flags ss h p w = (r, w') ∧
    sink_post w w' tr ∧ (r = ANET_ERR → err = true → told tr) ∧
    (Z.land flags ANET_CONNECT_NONBLOCK = 0 →
     w_addrlists w' = delete h (w_addrlists w)).
Proof.
  induction p as [|ai p IH]; intros w.
  - cbn. rewrite bind_eq, sys_freeaddrinfo_eq. cbn.
    eexists _, _, [_]. split; [reflexivity|]. split_and!.
    + by repeat split.
    + intros _ _. right. by repeat constructor.
    + done.
  - cbn. rewrite bind_eq.
    destruct (anetCreateSocket_spec err (ai_family ai) w)
      as (s & w1 & tr1 & -> & Hlog1 & Herr1 & Hfds1 & Haddr1 &
          [(-> & Hrun1 & Hsub1)|(Hs & Hrun1 & Hnone & Hfiles1)]);
      destruct (create_run_sink _ _ _ _ Hrun1) as (Hq1 & Hrep1 & Hclean1).
    + cbn. destruct (IH w1) as (r & w' & trs & -> & Hpost & Htold & Haddr).
      eexists _, _, (tr1 ++ trs). split; [reflexivity|]. split_and!.
      * by apply (sink_post_trans w w1).
      * intros _ ->. apply told_app_reports_l. by apply Hrep1.
      * intros Hnb. by rewrite Haddr, Haddr1.
    + destruct (Z.eqb_spec s ANET_ERR) as [?|_]; [done|].
      destruct Hclean1 as [Hrep1' HF1]; [done|].
      rewrite bind_eq.
      assert (∃ nb w2 tr2,
        (if negb (Z.land flags ANET_CONNECT_NONBLOCK =? 0)
         then anetNonBlock err s else mret ANET_OK) w1 = (nb, w2) ∧
        sink_post w1 w2 tr2 ∧
        (nb = ANET_OK ∧ reports tr2 = [] ∧ Forall (λ e, is_failed e = false) tr2 ∨
         nb = ANET_ERR ∧ (err = true → reports tr2 ≠ []) ∧
         Z.land flags ANET_CONNECT_NONBLOCK ≠ 0) ∧
        w_addrlists w2 = w_addrlists w1)
        as (nb & w2 & tr2 & -> & Hpost2 & Hnb & Haddr2).
      { destruct (Z.eqb_spec (Z.land flags ANET_CONNECT_NONBLOCK) 0) as [Hz|Hnz]; cbn.
        - exists ANET_OK, w1, []. split; [done|]. split; [apply sink_post_refl|].
          split; [|done]. left. by repeat split.
        - destruct (anetNonBlock_sink err s w1) as (nb & w2 & tr2 & -> & Hp & Hcase & Ha).
          exists nb, w2, tr2. split_and!; try done.
          destruct Hcase as [?|[? ?]]; [by left|by right]. }
      assert (sink_post w w2 (tr1 ++ tr2)) as Hpost12.
      { by apply (sink_post_trans w w1). }
      destruct Hnb as [(-> & Hrep2 & HF2)|(-> & Hrep2 & Hnz)].
      2:{ cbn. eexists _, _, (tr1 ++ tr2). split; [reflexivity|]. split_and!; [done| |done].
          intros _ ->. apply told_app_reports_r. auto. }
      cbn. rewrite bind_eq.
      destruct (sys_connect_spec s (ai_addr ai) (ai_addrlen ai) w2)
        as (c & w3 & -> & [[-> Hfr]|(f & Hf & -> & Hfr)]).
      * cbn. rewrite bind_eq. unfold errno at 1. cbn. frame_split.
        destruct ((w_errno w3 =? EINPROGRESS) &&
                  negb (Z.land flags ANET_CONNECT_NONBLOCK =? 0)) eqn:Hin.
        -- destruct (connect_done ss (sockaddr_bytes (ai_addr ai)) h s w3)
             as (w' & -> & Hlog' & Herr' & Haddr' & Hfiles').
           eexists _, _, ((tr1 ++ tr2) ++ [_; _]). split; [reflexivity|]. split_and!.
           ++ apply (sink_post_trans w w2); [done|].
              repeat split; frame_rw; done.
           ++ done.
           ++ intros Hz. rewrite Hz in Hin. cbn in Hin. by rewrite andb_false_r in Hin.
        -- rewrite bind_eq.
           destruct (anetSetError_spec err ("connect: " +:+ strerror (w_errno w3)) w3)
             as (w4 & -> & ?); destruct_and!. rewrite bind_eq.
           destruct (sys_close_spec s w4) as (c & w5 & -> & Hfr5). frame_split.
           destruct (IH w5) as (r & w' & trs & -> & Hpost & Htold & Haddr).
           eexists _, _, ((tr1 ++ tr2) ++ [_; _; _] ++ trs). split; [reflexivity|].
           split_and!.
           ++ apply (sink_post_trans w w2); [done|].
              apply (sink_post_trans w2 w5); [|done].
              unfold sink_post. split_and!; frame_rw;
                [done|by destruct err|quiet_tac].
           ++ intros _ ->. by apply told_app_reports_r.
           ++ intros Hz. rewrite Haddr by done. frame_rw. congruence.
      * cbn. frame_split.
        destruct (connect_done ss (sockaddr_bytes (ai_addr ai)) h s w3)
          as (w' & -> & Hlog' & Herr' & Haddr' & Hfiles').
        eexists _, _, ((tr1 ++ tr2) ++ [_; _]). split; [reflexivity|]. split_and!.
        -- apply (sink_post_trans w w2); [done|].
           repeat split; frame_rw; done.
        -- done.
        -- intros Hz. frame_rw. congruence.
Qed.

Lemma fresh_addrlist (m : gmap nat (list addrinfo)) : m !! fresh (dom m) = None.
Proof. apply not_elem_of_dom, is_fresh. Qed.

Lemma anetTcpGenericConnect_sink err addr service flags ss w :
  ∃ r w' tr, anetTcpGenericConnect err addr service flags ss w = (r, w') ∧
    sink_post w w' tr ∧ (r = ANET_ERR → err = true → told tr) ∧
    (Z.land flags ANET_CONNECT_NONBLOCK = 0 → w_addrlists w' = w_addrlists w).
Proof.
  unfold anetTcpGenericConnect. rewrite bind_eq. unfold sys_getaddrinfo.
  destruct (w_resolver w addr service 0) as [code|cands]; cbn.
  - rewrite bind_eq.
    destruct (anetSetError_spec err
      ("can't resolve " +:+ fmt_s addr +:+ ": " +:+ gai_strerror (Z.neg code))
      (add_log (EvGetaddrinfo (Z.neg code)) w)) as (w1 & -> & ?); destruct_and!.
    cbn in *. eexists _, _, [_; _]. split; [reflexivity|].
    unfold sink_post. split_and!; frame_rw; [done|by destruct err|quiet_tac| |done].
    intros _ ->. by left.
  - set (h := fresh (dom (w_addrlists w))).
    destruct (connect_loop_sink err flags ss h cands
                (add_log (EvGetaddrinfo 0) (set_addrlists <[h:=cands]> w)))
      as (r & w' & tr & -> & Hpost & Htold & Haddr).
    exists r, w', ([EvGetaddrinfo 0] ++ tr). split; [done|]. split_and!.
    + eapply sink_post_trans; [|done]. by repeat split.
    + intros Hr He. by apply told_app_clean; [repeat constructor|apply Htold].
    + intros Hz. rewrite Haddr by done. cbn.
      apply delete_insert_id, fresh_addrlist.
Qed.

Lemma anetGetaddrinfo_sink err addr service w :
  ∃ r w' tr, anetGetaddrinfo err addr service w = (r, w') ∧
    sink_post w w' tr ∧ (r.1 = ANET_ERR → err = true → told tr).
Proof.
  unfold anetGetaddrinfo. rewrite bind_eq. unfold sys_getaddrinfo.
  destruct (w_resolver w addr service 0) as [code|cands]; cbn.
  - rewrite bind_eq.
    destruct (anetSetError_spec err
      ("can't resolve " +:+ fmt_s addr +:+ ": " +:+ gai_strerror (Z.neg code))
      (add_log (EvGetaddrinfo (Z.neg code)) w)) as (w1 & -> & ?); destruct_and!.
    cbn in *. eexists _, _, [_; _]. split; [reflexivity|].
    unfold sink_post. split_and!; frame_rw; [done|by destruct err|quiet_tac|].
    intros _ ->. by left.
  - eexists _, _, [_]. split; [reflexivity|]. split; [by repeat split|done].
Qed.

Lemma anetTcpNonBlockConnectAddr_sink err p ss w :
  ∃ r w' tr, anetTcpNonBlockConnectAddr err p ss w = (r, w') ∧
    sink_post w w' tr ∧ (r = ANET_ERR → err = true → told tr).
Proof.
  unfold anetTcpNonBlockConnectAddr. rewrite bind_eq.
  destruct (anetCreateSocket_spec err (ai_family p) w)
    as (s & w1 & tr1 & -> & Hlog1 & Herr1 & Hfds1 & Haddr1 &
        [(-> & Hrun1 & Hsub1)|(Hs & Hrun1 & Hnone & Hfiles1)]);
    destruct (create_run_sink _ _ _ _ Hrun1) as (Hq1 & Hrep1 & Hclean1).
  - cbn. exists ANET_ERR, w1, tr1. split; [done|]. split; [done|].
    intros _ ->. left. by apply Hrep1.
  - destruct (Z.eqb_spec s ANET_ERR) as [?|_]; [done|]. rewrite bind_eq.
    destruct (anetNonBlock_sink err s w1) as (nb & w2 & tr2 & -> & Hpost2 & Hnb & _).
    assert (sink_post w w2 (tr1 ++ tr2)) as Hpost12.
    { by apply (sink_post_trans w w1). }
    destruct Hnb as [(-> & Hrep2 & HF2)|(-> & Hrep2)].
    2:{ cbn. eexists _, _, (tr1 ++ tr2). split; [reflexivity|]. split; [done|].
        intros _ ->. apply told_app_reports_r. auto. }
    cbn. rewrite bind_eq.
    destruct (sys_connect_spec s (ai_addr p) (ai_addrlen p) w2)
      as (c & w3 & -> & [[-> Hfr]|(f & Hf & -> & Hfr)]).
    + cbn. rewrite bind_eq. unfold errno at 1. cbn. frame_split.
      destruct (w_errno w3 =? EINPROGRESS).
      * destruct ss;
          (eexists _, _, ((tr1 ++ tr2) ++ [_]); split; [reflexivity|]; split; [|done];
           apply (sink_post_trans w w2); [done|];
           unfold sink_post; split_and!; cbn; frame_rw; done).
      * rewrite bind_eq.
        destruct (anetSetError_spec err ("connect: " +:+ strerror (w_errno w3)) w3)
          as (w4 & -> & ?); destruct_and!. rewrite bind_eq.
        destruct (sys_close_spec s w4) as (c & w5 & -> & Hfr5). frame_split. cbn.
        eexists _, _, ((tr1 ++ tr2) ++ [_; _; _]). split; [reflexivity|]. split.
        -- apply (sink_post_trans w w2); [done|].
           unfold sink_post. split_and!; frame_rw; [done|by destruct err|quiet_tac].
        -- intros _ ->. by apply told_app_reports_r.
    + cbn. frame_split.
      destruct ss;
        (eexists _, _, ((tr1 ++ tr2) ++ [_]); split; [reflexivity|]; split; [|done];
         apply (sink_post_trans w w2); [done|];
         unfold sink_post; split_and!; cbn; frame_rw; done).
Qed.

Lemma server_loop_sink err nfds h p : ∀ i w,
  0 ≤ i →
  ∃ r w' tr, anetTcpServer_loop err nfds h p i w = (r, w') ∧
    sink_post w w' tr ∧ (0 < i → r ≠ ANET_ERR) ∧
    (r = ANET_ERR → err = true → told tr) ∧
    w_addrlists w' = delete h (w_addrlists w).
Proof.
  assert (∀ i w, 0 ≤ i →
    ∃ r w' tr, (sys_freeaddrinfo h;; mret (if 0 <? i then i else ANET_ERR)) w = (r, w') ∧
      sink_post w w' tr ∧ (0 < i → r ≠ ANET_ERR) ∧
      (r = ANET_ERR → err = true → told tr) ∧
      w_addrlists w' = delete h (w_addrlists w)) as Hend.
  { intros i w Hi. eexists _, _, [_]. split; [reflexivity|]. split_and!.
    - by repeat split.
    - intros Hlt. destruct (Z.ltb_spec 0 i); unfold ANET_ERR; lia.
    - intros _ _. right. by repeat constructor.
    - done. }
  induction p as [|ai p IH]; intros i w Hi; [by apply Hend|].
  cbn. destruct (Z.ltb_spec i nfds) as [Hlt|Hge]; [|by apply Hend].
  rewrite bind_eq.
  destruct (anetCreateSocket_spec err (ai_family ai) w)
    as (s & w1 & tr1 & -> & Hlog1 & Herr1 & Hfds1 & Haddr1 &
        [(-> & Hrun1 & Hsub1)|(Hs & Hrun1 & Hnone & Hfiles1)]);
    destruct (create_run_sink _ _ _ _ Hrun1) as (Hq1 & Hrep1 & Hclean1).
  - cbn. destruct (IH i w1 Hi) as (r & w' & trs & -> & Hpost & Hpos & Htold & Haddr).
    eexists _, _, (tr1 ++ trs). split; [reflexivity|]. split_and!; try done.
    + by apply (sink_post_trans w w1).
    + intros _ ->. apply told_app_reports_l. by apply Hrep1.
    + congruence.
  - destruct (Z.eqb_spec s ANET_ERR) as [?|_]; [done|]. rewrite bind_eq.
    destruct (anetListen_spec err s (ai_addr ai) (ai_addrlen ai) w1
                (add_opt (SOL_SOCKET, SO_REUSEADDR, 1) (new_socket (ai_family ai))))
      as (l & w2 & tr2 & -> & Hlog2 & Herr2 & Hfds2 & Haddr2 &
          [(-> & Hrun2 & Hfiles2)|(-> & Hrun2 & f' & Hfiles2 & _)]);
      [by rewrite Hfiles1, lookup_insert_eq|..];
      destruct (listen_run_sink _ _ _ _ _ Hrun2) as (Hq2 & Hrep2 & Hrep2');
      (assert (sink_post w w2 (tr1 ++ tr2)) as Hpost12;
       [by apply (sink_post_trans w w1)|]).
    + cbn. destruct (IH i w2 Hi) as (r & w' & trs & -> & Hpost & Hpos & Htold & Haddr).
      eexists _, _, ((tr1 ++ tr2) ++ trs). split; [reflexivity|]. split_and!; try done.
      * by apply (sink_post_trans w w2).
      * intros _ ->. apply told_app_reports_l. rewrite reports_app.
        specialize (Hrep2 eq_refl eq_refl). by destruct (reports tr1), (reports tr2).
      * congruence.
    + cbn. rewrite bind_eq. unfold modify.
      destruct (IH (i + 1) (set_fds (<[Z.to_nat i:=s]> (w_fds w2)) w2))
        as (r & w' & trs & -> & Hpost & Hpos & Htold & Haddr); [lia|].
      eexists _, _, ((tr1 ++ tr2) ++ trs). split; [reflexivity|].
      assert (r ≠ ANET_ERR) by (apply Hpos; lia).
      split_and!; try done.
      * apply (sink_post_trans w w2); [done|].
        destruct Hpost as (? & ? & ?). by repeat split.
      * cbn in Haddr. congruence.
Qed.

Lemma anetTcpServer_sink err service bindaddr nfds w :
  ∃ r w' tr, anetTcpServer err service bindaddr nfds w = (r, w') ∧
    sink_post w w' tr ∧ (r = ANET_ERR → err = true → told tr) ∧
    w_addrlists w' = w_addrlists w.
Proof.
  unfold anetTcpServer. rewrite bind_eq. unfold sys_getaddrinfo.
  destruct (w_resolver w bindaddr service AI_PASSIVE) as [code|cands]; cbn.
  - rewrite bind_eq.
    destruct (anetSetError_spec err
      ("can't resolve " +:+ fmt_s bindaddr +:+ ": " +:+ gai_strerror (Z.neg code))
      (add_log (EvGetaddrinfo (Z.neg code)) w)) as (w1 & -> & ?); destruct_and!.
    cbn in *. eexists _, _, [_; _]. split; [reflexivity|].
    unfold sink_post. split_and!; frame_rw; [done|by destruct err|quiet_tac| |done].
    intros _ ->. by left.
  - set (h := fresh (dom (w_addrlists w))).
    destruct (server_loop_sink err nfds h cands 0
                (add_log (EvGetaddrinfo 0) (set_addrlists <[h:=cands]> w)))
      as (r & w' & tr & -> & Hpost & _ & Htold & Haddr); [done|].
    exists r, w', ([EvGetaddrinfo 0] ++ tr). split; [done|]. split_and!.
    + eapply sink_post_trans; [|done]. by repeat split.
    + intros Hr He. by apply told_app_clean; [repeat constructor|apply Htold].
    + rewrite Haddr. cbn. apply delete_insert_id, fresh_addrlist.
Qed.

Lemma sys_accept_spec fd sa len w :
  ∃ r w1, sys_accept fd sa len w = (r, w1) ∧
    w_log w1 = EvAccept fd r :: w_log w ∧ w_err w1 = w_err w ∧
    w_addrlists w1 = w_addrlists w ∧
    (r = -1 → w_errno w1 = EINTR → (pending w1 fd < pending w fd)%nat).
Proof.
  unfold sys_accept, pending. sys_simpl.
  destruct (w_files w !! fd) as [f|] eqn:Ef; cbn.
  - destruct (f_incoming f) as [|[peer|e] rest] eqn:Einc; cbn.
    + eexists _, _. split; [reflexivity|]. repeat split. by cbn.
    + destruct (fresh_key_spec 0 (<[fd:=set_incoming rest f]> (w_files w))) as [Hge _].
      destruct sa; cbn; (eexists _, _; split; [reflexivity|]; repeat split; cbn; lia).
    + eexists _, _. split; [reflexivity|]. repeat split. cbn. intros _ _.
      rewrite lookup_insert_eq. cbn. lia.
  - eexists _, _. split; [reflexivity|]. repeat split. by cbn.
Qed.

Lemma accept_loop_sink err s sa len fuel : ∀ w,
  (pending w s < fuel)%nat →
  ∃ r w' tr, anetGenericAccept fuel err s sa len w = (Some r, w') ∧
    sink_post w w' tr ∧ (r = -1 → err = true → reports tr ≠ []) ∧
    w_addrlists w' = w_addrlists w.
Proof.
  induction fuel as [|fuel IH]; intros w Hfuel; [lia|].
  cbn. rewrite bind_eq.
  destruct (sys_accept_spec s sa len w) as (r & w1 & -> & Hlog & Herr & Haddr & Hpend).
  destruct (Z.eqb_spec r (-1)) as [->|Hne].
  - rewrite bind_eq. unfold errno at 1. cbn.
    destruct (Z.eqb_spec (w_errno w1) EINTR) as [Heintr|Hother].
    + destruct (IH w1) as (r & w' & trs & -> & Hpost & Hrep & Haddr'); [specialize (Hpend eq_refl Heintr); lia|].
      eexists _, _, ([_] ++ trs). split; [reflexivity|]. split_and!.
      * eapply sink_post_trans; [|done]. unfold sink_post.
        split_and!; [exact Hlog|exact Herr|by intros _].
      * intros Hr He. rewrite reports_app. cbn. by apply Hrep.
      * congruence.
    + rewrite bind_eq.
      destruct (anetSetError_spec err ("accept: " +:+ strerror (w_errno w1)) w1)
        as (w2 & -> & ?); destruct_and!. cbn.
      eexists _, _, [_; _]. split; [reflexivity|].
      unfold sink_post. split_and!; frame_rw; [done|by destruct err|quiet_tac| |congruence].
      by intros _ ->.
  - cbn. eexists _, _, [_]. split; [reflexivity|].
    unfold sink_post. split_and!; frame_rw; [done..|by intros _|done|done].
Qed.

Lemma anetTcpAccept_sink err s ss fuel w :
  (pending w s < fuel)%nat →
  ∃ r w' tr, anetTcpAccept fuel err s ss w = (Some r, w') ∧
    sink_post w w' tr ∧ (r = ANET_ERR → err = true → reports tr ≠ []).
Proof.
  intros Hfuel. unfold anetTcpAccept. rewrite bind_eq.
  destruct (accept_loop_sink err s ss sizeof_ptr fuel w Hfuel)
    as (r & w' & tr & -> & Hpost & Hrep & _).
  exists r, w', tr. split; [|done].
  by destruct (Z.eqb_spec r ANET_ERR) as [->|?].
Qed.


End sink.




(** ** Address stringification *)

(** Scenario 6 of the specification, and its IPv6 and other-family
    companions. *)
Example anetAddrStrdup_examples :
  (let '(p, w') := anetAddrStrdup (Some Examples.sa_v4) Examples.world0 in
   w_heap w' !! p = Some (16, Some "192.0.2.7")) ∧
  (let '(p, w') := anetAddrStrdup (Some Examples.sa_v6) Examples.world0 in
   w_heap w' !! p = Some (46, Some "2001:db8::1")) ∧
  (let '(p, w') := anetAddrStrdup (Some {| sa_family := 1; sa_data := [] |})
                     Examples.world0 in
   w_heap w' !! p = Some (15, Some "NOT_AN_ADDRESS")) ∧
  (let '(p, w') := anetAddrStrdup None Examples.world0 in
   w_heap w' !! p = Some (15, Some "NOT_AN_ADDRESS")).
Proof. vm_compute. repeat split; done. Qed.

(** C5. [anetAddrStrdup(res)] returns the address of a block that was not
    allocated before the call (so it is the caller's to free) and that holds
    the presentation of [res]: the converter's text for an IPv4 or an IPv6
    address, [NOT_AN_ADDRESS] for another family or a NULL [res].  The rest
    of the heap is untouched. *)
Theorem anetAddrStrdup_presentation `{Platform} (res : option sockaddr)
    (w : World) (text : string) :
  presentation res = Some text →
  ∃ p w' size,
    anetAddrStrdup res w = (p, w') ∧
    p ≠ 0 ∧ w_heap w !! p = None ∧
    w_heap w' = <[p := (size, Some text)]> (w_heap w) ∧
    ((has_family res AF_INET = false ∧ has_family res AF_INET6 = false) →
     text = "NOT_AN_ADDRESS").
Proof.
  intros Htext. unfold anetAddrStrdup.
  destruct (fresh_key_spec 1 (w_heap w)) as [Hge Hnone].
  assert (fresh_key 1 (w_heap w) ≠ 0) as Hnz by lia.
  destruct res as [sa|]; cbn in *.
  - destruct (sa_family sa =? AF_INET).
    + unfold sys_malloc, sys_inet_ntop. sys_simpl. rewrite Htext. cbn.
      rewrite lookup_insert_eq. cbn.
      eexists _, _, _. split; [reflexivity|]. cbn. split_and!; [done..| |by intros []].
      by rewrite insert_insert_eq.
    + destruct (sa_family sa =? AF_INET6).
      * unfold sys_malloc, sys_inet_ntop. sys_simpl. rewrite Htext. cbn.
        rewrite lookup_insert_eq. cbn.
        eexists _, _, _. split; [reflexivity|]. cbn. split_and!; [done..| |by intros []].
        by rewrite insert_insert_eq.
      * injection Htext as <-. unfold sys_strdup. sys_simpl.
        eexists _, _, _. split; [reflexivity|]. cbn. by split_and!.
  - injection Htext as <-. unfold sys_strdup. sys_simpl.
    eexists _, _, _. split; [reflexivity|]. cbn. by split_and!.
Qed.

Lemma anetAddrStrdup_presentation_witness :
  presentation (Some Examples.sa_v4) = Some "192.0.2.7" ∧
  ∃ p w' size,
    anetAddrStrdup (Some Examples.sa_v4) Examples.world0 = (p, w') ∧
    p ≠ 0 ∧ w_heap Examples.world0 !! p = None ∧
    w_heap w' = <[p := (size, Some "192.0.2.7")]> (w_heap Examples.world0) ∧
    ((has_family (Some Examples.sa_v4) AF_INET = false ∧
      has_family (Some Examples.sa_v4) AF_INET6 = false) →
     "192.0.2.7" = "NOT_AN_ADDRESS").
Proof.
  assert (H1 : presentation (Some Examples.sa_v4) = Some "192.0.2.7") by reflexivity.
  exact (conj H1 (anetAddrStrdup_presentation (Some Examples.sa_v4) Examples.world0 _ H1)).
Defined.

(** ** What the defective paths get right *)

Section support.
Context `{Platform}.

(** X13. [anetTcpConnect] releases the address list on every path: after
    the call, whatever it returned, the live address lists are those that
    were live before. *)
Lemma anetTcpConnect_releases err addr service ss w :
  w_addrlists (anetTcpConnect err addr service ss w).2 = w_addrlists w.
Proof.
  unfold anetTcpConnect.
  destruct (anetTcpGenericConnect_sink err addr service ANET_CONNECT_NONE ss w)
    as (r & w' & tr & -> & _ & _ & Haddr).
  by apply Haddr.
Qed.

(** X14. [anetTcpServer] releases the address list on every path: after
    the call, whatever it returned and however many candidates it skipped,
    the live address lists are those that were live before. *)
Lemma anetTcpServer_releases err service bindaddr nfds w :
  w_addrlists (anetTcpServer err service bindaddr nfds w).2 = w_addrlists w.
Proof.
  destruct (anetTcpServer_sink err service bindaddr nfds w)
    as (r & w' & tr & -> & _ & _ & Haddr).
  done.
Qed.

Lemma sys_accept_fail s sa len w f e rest :
  w_files w !! s = Some f → f_incoming f = AccFail e :: rest →
  sys_accept s sa len w =
    (-1, add_log (EvAccept s (-1))
           (set_errno e (set_files <[s := set_incoming rest f]> w))).
Proof. intros Hf Hinc. unfold sys_accept. sys_simpl. by rewrite Hf, Hinc. Qed.

Lemma sys_accept_conn s (sa : bool) len w f peer rest :
  w_files w !! s = Some f → f_incoming f = AccConn peer :: rest →
  let files := <[s := set_incoming rest f]> (w_files w) in
  let fd := fresh_key 0 files in
  sys_accept s sa len w =
    (fd, add_log (EvAccept s fd)
           ((if sa
             then set_ss (splice_at 0 (take (Z.to_nat len) (sockaddr_bytes peer)) (w_ss w))
             else id)
            (set_files (λ _, <[fd := set_peer peer (new_socket (f_domain f))]> files) w))).
Proof.
  intros Hf Hinc. unfold sys_accept. sys_simpl. rewrite Hf, Hinc. cbn.
  by destruct sa.
Qed.

(** X15. [anetTcpAccept] restarts [accept] after any number [k] of
    interruptions ([EINTR]) and returns the descriptor of the connection
    that follows, a descriptor that was not open before; the sink is not
    touched.  What reaches the slot is the first [sizeof_ptr] bytes of the
    peer's address. *)
Lemma anetTcpAccept_restarts err s ss k : ∀ w f peer rest fuel,
  w_files w !! s = Some f →
  f_incoming f = replicate k (AccFail EINTR) ++ AccConn peer :: rest →
  (k < fuel)%nat →
  ∃ fd w',
    anetTcpAccept fuel err s ss w = (Some fd, w') ∧
    fd ≠ ANET_ERR ∧ w_files w !! fd = None ∧
    (f_peer <$> w_files w' !! fd) = Some (Some peer) ∧
    w_err w' = w_err w ∧
    rev (w_log w') = rev (w_log w) ++ replicate k (EvAccept s (-1)) ++ [EvAccept s fd] ∧
    w_ss w' = (if ss
               then splice_at 0 (take (Z.to_nat sizeof_ptr) (sockaddr_bytes peer)) (w_ss w)
               else w_ss w).
Proof.
  unfold anetTcpAccept.
  induction k as [|k IH]; intros w f peer rest fuel Hf Hinc Hfuel;
    (destruct fuel as [|fuel]; [lia|]); cbn in Hinc; rewrite !bind_eq; cbn;
    rewrite bind_eq.
  - rewrite (sys_accept_conn s ss sizeof_ptr w f peer rest Hf Hinc). cbn.
    destruct (fresh_key_spec 0 (<[s:=set_incoming rest f]> (w_files w))) as [Hge Hnone].
    set (fd := fresh_key 0 (<[s:=set_incoming rest f]> (w_files w))) in *.
    assert (fd ≠ -1) as Hne by lia.
    destruct (Z.eqb_spec fd (-1)) as [?|_]; [done|]. cbn.
    destruct (Z.eqb_spec fd ANET_ERR) as [?|_]; [done|].
    eexists _, _. split; [reflexivity|].
    assert (fd ≠ s) as Hfs. { intros ->. by rewrite lookup_insert_eq in Hnone. }
    split_and!; [done| | | | |].
    + by rewrite lookup_insert_ne in Hnone.
    + destruct ss; cbn; by rewrite lookup_insert_eq.
    + by destruct ss.
    + by destruct ss.
    + by destruct ss.
  - rewrite (sys_accept_fail s ss sizeof_ptr w f EINTR _ Hf Hinc). cbn.
    rewrite bind_eq. unfold errno at 1. cbn.
    set (w1 := add_log _ _).
    destruct (IH w1 (set_incoming (replicate k (AccFail EINTR) ++ AccConn peer :: rest) f)
                peer rest fuel) as (fd & w' & Hacc & Hne & Hnone & Hpeer & Herr & Hlog & Hss);
      [by cbn; rewrite lookup_insert_eq|done|lia|].
    rewrite bind_eq in Hacc.
    destruct (anetGenericAccept fuel err s ss sizeof_ptr w1) as [[r|] w2]; [|done].
    exists fd, w'. split; [done|]. split_and!; try done.
    + cbn in Hnone. destruct (decide (fd = s)) as [->|Hfs].
      * by rewrite lookup_insert_eq in Hnone.
      * by rewrite lookup_insert_ne in Hnone.
    + rewrite Hlog. cbn. by rewrite <- app_assoc.
Qed.

(** X16. After any number of interruptions, a failure of [accept] other
    than [EINTR] ends the call with [ANET_ERR] and, with a sink, the
    message [accept: ...]; no descriptor is created, the listener stays
    open and the slot is not written. *)
Lemma anetTcpAccept_reports err s ss k : ∀ w f e rest fuel,
  w_files w !! s = Some f →
  f_incoming f = replicate k (AccFail EINTR) ++ AccFail e :: rest →
  e ≠ EINTR →
  (k < fuel)%nat →
  ∃ w',
    anetTcpAccept fuel err s ss w = (Some ANET_ERR, w') ∧
    w_err w' = (if err then cut ("accept: " +:+ strerror e) else w_err w) ∧
    w_files w' = <[s := set_incoming rest f]> (w_files w) ∧
    w_ss w' = w_ss w.
Proof.
  unfold anetTcpAccept.
  induction k as [|k IH]; intros w f e rest fuel Hf Hinc He Hfuel;
    (destruct fuel as [|fuel]; [lia|]); cbn in Hinc; rewrite !bind_eq; cbn;
    rewrite bind_eq.
  - rewrite (sys_accept_fail s ss sizeof_ptr w f e _ Hf Hinc). cbn.
    rewrite bind_eq. unfold errno at 1. cbn.
    destruct (Z.eqb_spec e EINTR) as [?|_]; [done|].
    rewrite bind_eq.
    set (w1 := add_log _ _).
    destruct (anetSetError_spec err ("accept: " +:+ strerror e) w1)
      as (w2 & -> & ?); destruct_and!. cbn.
    eexists. split; [reflexivity|]. by frame_rw.
  - rewrite (sys_accept_fail s ss sizeof_ptr w f EINTR _ Hf Hinc). cbn.
    rewrite bind_eq. unfold errno at 1. cbn.
    set (w1 := add_log _ _).
    destruct (IH w1 (set_incoming (replicate k (AccFail EINTR) ++ AccFail e :: rest) f)
                e rest fuel) as (w' & Hacc & Herr & Hfiles & Hss);
      [by cbn; rewrite lookup_insert_eq|done|done|lia|].
    rewrite bind_eq in Hacc.
    destruct (anetGenericAccept fuel err s ss sizeof_ptr w1) as [[r|] w2]; [|done].
    exists w'. split; [done|]. split_and!; try done.
    rewrite Hfiles. cbn. by rewrite insert_insert_eq.
Qed.

(** X17. When the resolver knows no answer, [anetTcpServer] reports it and
    returns [ANET_ERR]; no list was handed out, no socket is created and the
    array is not written. *)
Lemma anetTcpServer_unresolved err service bindaddr nfds w code :
  w_resolver w bindaddr service AI_PASSIVE = inl code →
  ∃ w',
    anetTcpServer err service bindaddr nfds w = (ANET_ERR, w') ∧
    w_fds w' = w_fds w ∧ w_files w' = w_files w ∧
    w_addrlists w' = w_addrlists w ∧
    w_err w' = (if err
                then cut ("can't resolve " +:+ fmt_s bindaddr +:+ ": " +:+
                          gai_strerror (Z.neg code))
                else w_err w).
Proof.
  intros Hres. unfold anetTcpServer. rewrite bind_eq. unfold sys_getaddrinfo.
  rewrite Hres. cbn. rewrite bind_eq.
  destruct (anetSetError_spec err
    ("can't resolve " +:+ fmt_s bindaddr +:+ ": " +:+ gai_strerror (Z.neg code))
    (add_log (EvGetaddrinfo (Z.neg code)) w)) as (w1 & -> & ?); destruct_and!.
  cbn in *. eexists. split; [reflexivity|]. by frame_rw.
Qed.

End support.

Lemma anetTcpAccept_restarts_witness :
  let w := Examples.listener_world in
  let f := set_incoming [AccFail EINTR; AccConn Examples.sa_v6]
             (set_backlog 511 (set_bound Examples.sa_v6 (new_socket AF_INET6))) in
  w_files w !! 3 = Some f ∧
  f_incoming f = replicate 1 (AccFail EINTR) ++ AccConn Examples.sa_v6 :: [] ∧
  (1 < 2)%nat ∧
  ∃ fd w',
    anetTcpAccept 2 true 3 true w = (Some fd, w') ∧
    fd ≠ ANET_ERR ∧ w_files w !! fd = None ∧
    (f_peer <$> w_files w' !! fd) = Some (Some Examples.sa_v6) ∧
    w_err w' = w_err w ∧
    rev (w_log w') = rev (w_log w) ++ replicate 1 (EvAccept 3 (-1)) ++ [EvAccept 3 fd] ∧
    w_ss w' = splice_at 0 (take (Z.to_nat sizeof_ptr) (sockaddr_bytes Examples.sa_v6))
                (w_ss w).
Proof.
  intros w f.
  assert (H1 : w_files w !! 3 = Some f) by (vm_compute; reflexivity).
  assert (H2 : f_incoming f = replicate 1 (AccFail EINTR) ++ AccConn Examples.sa_v6 :: [])
    by reflexivity.
  assert (H3 : (1 < 2)%nat) by lia.
  exact (conj H1 (conj H2 (conj H3
    (anetTcpAccept_restarts true 3 true 1 w f Examples.sa_v6 [] 2 H1 H2 H3)))).
Defined.

Lemma anetTcpAccept_reports_witness :
  let f := set_incoming [AccFail EINTR; AccFail Examples.ECONNABORTED]
             (set_backlog 511 (set_bound Examples.sa_v6 (new_socket AF_INET6))) in
  let w := Examples.aborting_world in
  w_files w !! 3 = Some f ∧
  f_incoming f = replicate 1 (AccFail EINTR) ++ AccFail Examples.ECONNABORTED :: [] ∧
  Examples.ECONNABORTED ≠ EINTR ∧ (1 < 2)%nat ∧
  ∃ w',
    anetTcpAccept 2 true 3 true w = (Some ANET_ERR, w') ∧
    w_err w' = cut ("accept: " +:+ strerror Examples.ECONNABORTED) ∧
    w_files w' = <[3 := set_incoming [] f]> (w_files w) ∧
    w_ss w' = w_ss w.
Proof.
  intros f w.
  assert (H1 : w_files w !! 3 = Some f) by (vm_compute; reflexivity).
  assert (H2 : f_incoming f
               = replicate 1 (AccFail EINTR) ++ AccFail Examples.ECONNABORTED :: [])
    by reflexivity.
  assert (H3 : Examples.ECONNABORTED ≠ EINTR) by discriminate.
  assert (H4 : (1 < 2)%nat) by lia.
  exact (conj H1 (conj H2 (conj H3 (conj H4
    (anetTcpAccept_reports true 3 true 1 w f Examples.ECONNABORTED [] 2 H1 H2 H3 H4))))).
Defined.

Lemma anetTcpServer_unresolved_witness :
  let w := Examples.world0 in
  w_resolver w None "30005" AI_PASSIVE = inl 2%positive ∧
  ∃ w',
    anetTcpServer true "30005" None 4 w = (ANET_ERR, w') ∧
    w_fds w' = w_fds w ∧ w_files w' = w_files w ∧
    w_addrlists w' = w_addrlists w ∧
    w_err w' = cut ("can't resolve " +:+ fmt_s None +:+ ": " +:+
                    gai_strerror (Z.neg 2)).
Proof.
  intros w.
  assert (H1 : w_resolver w None "30005" AI_PASSIVE = inl 2%positive) by reflexivity.
  exact (conj H1 (anetTcpServer_unresolved true "30005" None 4 w 2%positive H1)).
Defined.

(** ** The Linux converters stay within the maximum lengths *)

Lemma string_length_app (s1 s2 : string) :
  String.length (s1 +:+ s2) = (String.length s1 + String.length s2)%nat.
Proof. induction s1 as [|c s1 IH]; [done|]. cbn. rewrite <- IH. reflexivity. Qed.

Lemma dec_length n : (1 ≤ String.length (Linux.dec n) ≤ 3)%nat.
Proof.
  unfold Linux.dec, Linux.digit. rewrite !string_length_app.
  destruct (100 <=? n), (10 <=? n); cbn; lia.
Qed.

Lemma dotted_quad_length a b c d :
  (7 ≤ String.length (Linux.dotted_quad a b c d) ≤ 15)%nat.
Proof.
  unfold Linux.dotted_quad. rewrite !string_length_app. cbn.
  pose proof (dec_length (Linux.byte_to_Z a)).
  pose proof (dec_length (Linux.byte_to_Z b)).
  pose proof (dec_length (Linux.byte_to_Z c)).
  pose proof (dec_length (Linux.byte_to_Z d)).
  lia.
Qed.

(** Every [sockaddr_in] has a presentation on Linux: the dotted quad of its
    four address bytes always fits [INET_ADDRSTRLEN]. *)
Lemma linux_presentation_inet (sa : sockaddr) :
  sa_family sa = AF_INET → (6 ≤ length (sa_data sa))%nat →
  ∃ a b c d, sin_addr sa = [a; b; c; d] ∧
             presentation (Some sa) = Some (Linux.dotted_quad a b c d).
Proof.
  intros Hfam Hlen. unfold presentation, sin_addr. rewrite Hfam. cbn.
  destruct (sa_data sa) as [|p1 [|p2 [|a [|b [|c [|d rest]]]]]]; cbn in Hlen; try lia.
  exists a, b, c, d. split; [done|]. cbn. unfold Linux.fits.
  pose proof (dotted_quad_length a b c d).
  destruct (Z.ltb_spec (Z.of_nat (String.length (Linux.dotted_quad a b c d)))
              INET_ADDRSTRLEN) as [_|Hge]; [done|].
  unfold INET_ADDRSTRLEN in Hge. lia.
Qed.

Lemma hex_length n : (1 ≤ String.length (Linux.hex n) ≤ 4)%nat.
Proof.
  unfold Linux.hex, Linux.digit. rewrite !string_length_app.
  destruct (4096 <=? n), (256 <=? n), (16 <=? n); cbn; lia.
Qed.

(** Without the dotted-quad tail, every group costs at most a colon and
    four digits, and one colon may follow the last group. *)
Lemma colon_hex_from_plain base len w5 tail4 ws : ∀ i,
  ((0 <? len)%nat && (base =? 0)%nat &&
   ((len =? 6)%nat || ((len =? 5)%nat && (w5 =? 65535))) = false) →
  (String.length (Linux.colon_hex_from base len w5 tail4 i ws)
   ≤ 5 * length ws + 1)%nat.
Proof.
  intros i Hcond. revert i.
  induction ws as [|w ws IH]; intros i; cbn [Linux.colon_hex_from length].
  - destruct ((0 <? len)%nat && (base + len =? 8)%nat); cbn; lia.
  - specialize (IH (S i)).
    destruct ((0 <? len)%nat && (base <=? i)%nat && (i <? base + len)%nat).
    + rewrite string_length_app. destruct (i =? base)%nat; cbn; lia.
    + rewrite string_length_app.
      replace ((i =? 6)%nat && (0 <? len)%nat && (base =? 0)%nat &&
               ((len =? 6)%nat || (len =? 5)%nat && (w5 =? 65535))) with false.
      2:{ destruct (i =? 6)%nat; [|done]. by rewrite andb_true_l, Hcond. }
      rewrite string_length_app. pose proof (hex_length w).
      destruct (i =? 0)%nat; cbn; lia.
Qed.

(** glibc's text of an IPv6 address has at most 45 characters. *)
Lemma colon_hex_length (src : list byte) :
  length src = 16%nat → (String.length (Linux.colon_hex src) ≤ 45)%nat.
Proof.
  intros Hlen.
  do 16 (destruct src as [|? src]; [done|]). destruct src; [|done]. clear Hlen.
  unfold Linux.colon_hex. cbn [Linux.words drop].
  match goal with |- context [Linux.zero_run ?ws 0 None None] =>
    generalize (Linux.zero_run ws 0 None None) end.
  intros run.
  set (bl := match run with
             | Some (b, l) => if (l <? 2)%nat then (0%nat, 0%nat) else (b, l)
             | None => (0%nat, 0%nat)
             end).
  destruct bl as [base len]. cbn [lookup_total list_lookup_total].
  match goal with |- context [Linux.colon_hex_from base len ?w5 ?t _ _] =>
    set (w5' := w5); set (tail4 := t) end.
  assert (String.length tail4 ≤ 15)%nat as Htail.
  { subst tail4. apply dotted_quad_length. }
  clearbody tail4.
  destruct ((0 <? len)%nat && (base =? 0)%nat &&
            ((len =? 6)%nat || ((len =? 5)%nat && (w5' =? 65535)))) eqn:Hcond.
  - apply andb_prop in Hcond as [[Hpos Hbase]%andb_prop Hlen].
    apply Nat.eqb_eq in Hbase as ->.
    apply orb_prop in Hlen as [->%Nat.eqb_eq|[->%Nat.eqb_eq Hw5]%andb_prop].
    + cbn. rewrite !string_length_app. cbn. lia.
    + cbn. rewrite Hw5. cbn. rewrite !string_length_app.
      match goal with |- context [Linux.hex ?w] => pose proof (hex_length w) end.
      cbn. lia.
  - etrans; [by apply colon_hex_from_plain|]. cbn. lia.
Qed.

(** Every [sockaddr_in6] has a presentation on Linux. *)
Lemma linux_presentation_inet6 (sa : sockaddr) :
  sa_family sa = AF_INET6 → (22 ≤ length (sa_data sa))%nat →
  presentation (Some sa) = Some (Linux.colon_hex (sin6_addr sa)).
Proof.
  intros Hfam Hlen. unfold presentation. rewrite Hfam. cbn.
  assert (length (sin6_addr sa) = 16%nat) as H16.
  { unfold sin6_addr. rewrite length_take, length_drop. lia. }
  rewrite H16. cbn. unfold Linux.fits.
  pose proof (colon_hex_length _ H16).
  destruct (Z.ltb_spec (Z.of_nat (String.length (Linux.colon_hex (sin6_addr sa))))
              INET6_ADDRSTRLEN) as [_|Hge]; [done|].
  unfold INET6_ADDRSTRLEN in Hge. lia.
Qed.

(** On Linux every address the helpers can be handed has a presentation:
    the hypothesis of the stringification theorem holds for NULL, for any
    other family, and for IPv4 and IPv6 addresses of full size. *)
Lemma linux_presentation_total (res : option sockaddr) :
  (∀ sa, res = Some sa → sa_family sa = AF_INET → (6 ≤ length (sa_data sa))%nat) →
  (∀ sa, res = Some sa → sa_family sa = AF_INET6 → (22 ≤ length (sa_data sa))%nat) →
  is_Some (presentation res).
Proof.
  intros H4 H6. destruct res as [sa|]; [|by eexists].
  destruct (Z.eqb_spec (sa_family sa) AF_INET) as [Hf4|Hn4].
  - destruct (linux_presentation_inet sa Hf4 (H4 sa eq_refl Hf4))
      as (a & b & c & d & _ & ->). by eexists.
  - destruct (Z.eqb_spec (sa_family sa) AF_INET6) as [Hf6|Hn6].
    + rewrite (linux_presentation_inet6 sa Hf6 (H6 sa eq_refl Hf6)). by eexists.
    + unfold presentation.
      destruct (Z.eqb_spec (sa_family sa) AF_INET) as [?|_]; [done|].
      destruct (Z.eqb_spec (sa_family sa) AF_INET6) as [?|_]; [done|]. by eexists.
Qed.

(** ** What a full-count read delivers *)

Lemma splice_at_nil {A} (o : nat) (l : list A) : splice_at o [] l = l.
Proof. unfold splice_at. cbn. by rewrite Nat.add_0_r, take_drop. Qed.

Lemma length_splice_at {A} (o : nat) (a l : list A) :
  (o + length a ≤ length l)%nat → length (splice_at o a l) = length l.
Proof.
  intros Hle. unfold splice_at. rewrite !length_app, length_take, length_drop. lia.
Qed.

Lemma splice_at_app {A} (o : nat) (a b l : list A) :
  (o ≤ length l)%nat →
  splice_at (o + length a) b (splice_at o a l) = splice_at o (a ++ b) l.
Proof.
  intros Hle. unfold splice_at.
  assert (length (take o l) = o) as Hto by (rewrite length_take; lia).
  rewrite (app_assoc (take o l) a).
  rewrite take_app_length' by (rewrite length_app; lia).
  rewrite drop_app_ge by (rewrite length_app; lia).
  rewrite length_app, Hto, drop_drop, length_app.
  rewrite <- !app_assoc. do 3 f_equal. f_equal. lia.
Qed.

Lemma sys_read_eof fd off k w f :
  w_files w !! fd = Some f → f_rx f = [] →
  sys_read fd off k w = (0, add_log (EvRead fd k 0) w).
Proof. intros Hf Hrx. unfold sys_read. sys_simpl. by rewrite Hf, Hrx. Qed.

Lemma sys_read_data fd off k w f bs rest :
  w_files w !! fd = Some f → f_rx f = RdData bs :: rest →
  let n := Z.min k (Z.of_nat (length bs)) in
  sys_read fd off k w =
    (n, add_log (EvRead fd k n)
          (set_buf (splice_at (Z.to_nat off) (take (Z.to_nat n) bs) (w_buf w))
             (set_files
                <[fd := set_rx (if n <? Z.of_nat (length bs)
                                then RdData (drop (Z.to_nat n) bs) :: rest
                                else rest) f]> w))).
Proof. intros Hf Hrx. unfold sys_read. sys_simpl. by rewrite Hf, Hrx. Qed.

Section stream.
Context `{Platform}.

(** The loop of [anetRead] on a descriptor whose queue holds the non-empty
    pieces [chunks] and then end of file, from total [tot] on: it takes the
    first [k] bytes of the data, [k] the smaller of what is missing and what
    there is, puts them in the buffer after the [tot] bytes already there,
    and leaves the rest of the data queued. *)
Lemma anetRead_loop_stream fd n fuel : ∀ chunks w f tot,
  w_files w !! fd = Some f →
  f_rx f = map RdData chunks →
  Forall (λ c, c ≠ []) chunks →
  0 ≤ tot ≤ n → n ≤ INT_MAX → n ≤ Z.of_nat (length (w_buf w)) →
  (Z.to_nat (n - tot) ≤ fuel)%nat →
  let data := concat chunks in
  let k := Z.min (n - tot) (Z.of_nat (length data)) in
  ∃ w' f' chunks',
    anetRead_loop fuel fd tot n tot w = (Some (tot + k), w') ∧
    w_files w' !! fd = Some f' ∧ f_rx f' = map RdData chunks' ∧
    concat chunks' = drop (Z.to_nat k) data ∧
    w_buf w' = splice_at (Z.to_nat tot) (take (Z.to_nat k) data) (w_buf w).
Proof.
  unfold INT_MAX.
  induction fuel as [|fuel IH]; intros chunks w f tot Hf Hrx Hne Htot Hmax Hbuf Hfuel;
    cbn zeta.
  - assert (tot = n) as -> by lia. cbn. rewrite Z.eqb_refl.
    rewrite Z.sub_diag, Z.min_l by lia. cbn. rewrite Z.add_0_r.
    exists w, f, chunks. change (Z.to_nat 0) with 0%nat. rewrite take_0, drop_0.
    by rewrite splice_at_nil.
  - cbn [anetRead_loop]. destruct (Z.eqb_spec tot n) as [->|Hlt].
    { rewrite Z.sub_diag, Z.min_l by lia. cbn. rewrite Z.add_0_r.
      exists w, f, chunks. change (Z.to_nat 0) with 0%nat. rewrite take_0, drop_0.
      by rewrite splice_at_nil. }
    rewrite bind_eq, to_int_id, to_size_t_id by lia.
    destruct chunks as [|c cs]; cbn [map concat] in *.
    + rewrite (sys_read_eof fd tot (n - tot) w f Hf Hrx). cbn.
      rewrite (to_int_id 0) by lia. cbn.
      change (Z.of_nat 0) with 0. rewrite Z.min_r, Z.add_0_r by lia.
      exists (add_log (EvRead fd (n - tot) 0) w), f, [].
      change (Z.to_nat 0) with 0%nat. cbn. by rewrite splice_at_nil.
    + apply Forall_cons in Hne as [Hc Hcs].
      assert (0 < length c)%nat as Hclen by (destruct c; [done|cbn; lia]).
      rewrite (sys_read_data fd tot (n - tot) w f c _ Hf Hrx). cbn zeta.
      set (r := Z.min (n - tot) (Z.of_nat (length c))).
      assert (0 < r ≤ n - tot) as Hr by lia.
      rewrite to_int_id by lia.
      destruct (Z.eqb_spec r 0) as [?|_]; [lia|].
      destruct (Z.eqb_spec r (-1)) as [?|_]; [lia|].
      rewrite to_int_id by lia.
      set (w1 := add_log _ _).
      rewrite length_app.
      destruct (Z.ltb_spec r (Z.of_nat (length c))) as [Hpart|Hall].
      * (* the piece is larger than what is missing *)
        assert (r = n - tot) as Hrn by lia.
        destruct (IH (drop (Z.to_nat r) c :: cs) w1
                    (set_rx (RdData (drop (Z.to_nat r) c) :: map RdData cs) f) (tot + r))
          as (w' & f' & chunks' & Hloop & Hf' & Hrx' & Hcat & Hbuf');
          [by cbn; rewrite lookup_insert_eq|done| |lia|lia| |lia|].
        { constructor; [|done]. intros Hd%(f_equal length).
          rewrite length_drop in Hd. cbn in Hd. lia. }
        { cbn. rewrite length_splice_at; [done|]. rewrite length_take. lia. }
        cbn zeta in Hloop, Hcat, Hbuf'.
        replace (n - (tot + r)) with 0 in * by lia.
        rewrite Z.min_l in Hloop, Hcat, Hbuf' by lia.
        rewrite Z.add_0_r in Hloop. change (Z.to_nat 0) with 0%nat in Hcat, Hbuf'.
        rewrite drop_0 in Hcat. rewrite take_0, splice_at_nil in Hbuf'.
        rewrite Z.min_l by lia.
        exists w', f', chunks'. rewrite Hloop. split_and!; try done.
        -- f_equal. f_equal. lia.
        -- rewrite Hcat. rewrite drop_app_le by lia. by rewrite Hrn.
        -- rewrite Hbuf'. cbn. rewrite take_app_le by lia. by rewrite Hrn.
      * (* the whole piece is taken *)
        assert (r = Z.of_nat (length c)) as Hrc by lia.
        destruct (IH cs w1 (set_rx (map RdData cs) f) (tot + r))
          as (w' & f' & chunks' & Hloop & Hf' & Hrx' & Hcat & Hbuf');
          [by cbn; rewrite lookup_insert_eq|done|done|lia|lia| |lia|].
        { cbn. rewrite length_splice_at; [done|]. rewrite length_take. lia. }
        cbn zeta in Hloop, Hcat, Hbuf'.
        set (k' := Z.min (n - (tot + r)) (Z.of_nat (length (concat cs)))) in *.
        assert (Z.min (n - tot) (Z.of_nat (length c + length (concat cs))) = r + k')
          as -> by lia.
        exists w', f', chunks'. rewrite Hloop. split_and!; try done.
        -- f_equal. f_equal. lia.
        -- rewrite Hcat, drop_app_ge by lia. f_equal. lia.
        -- rewrite Hbuf'. cbn.
           rewrite (take_ge c) by lia.
           replace (Z.to_nat (tot + r)) with (Z.to_nat tot + length c)%nat by lia.
           rewrite splice_at_app by lia. f_equal.
           rewrite take_app_ge by lia. f_equal. f_equal. lia.
Qed.

(** X12. On a source holding [data] in non-empty pieces and then end of
    file, [anetRead] for [n] bytes returns the smaller of [n] and the
    length of [data], however the data is cut into pieces; it delivers
    that many bytes, in order, to the start of the buffer and consumes
    exactly them: the rest of the data stays queued. *)
Lemma anetRead_delivers fd n fuel chunks w f :
  w_files w !! fd = Some f →
  f_rx f = map RdData chunks →
  Forall (λ c, c ≠ []) chunks →
  0 ≤ n ≤ INT_MAX → n ≤ Z.of_nat (length (w_buf w)) →
  (Z.to_nat n ≤ fuel)%nat →
  let data := concat chunks in
  let m := Z.min n (Z.of_nat (length data)) in
  ∃ w' f' chunks',
    anetRead fuel fd n w = (Some m, w') ∧
    take (Z.to_nat m) (w_buf w') = take (Z.to_nat m) data ∧
    w_files w' !! fd = Some f' ∧ f_rx f' = map RdData chunks' ∧
    concat chunks' = drop (Z.to_nat m) data.
Proof.
  intros Hf Hrx Hne Hn Hbuf Hfuel. cbn zeta. unfold anetRead.
  destruct (anetRead_loop_stream fd n fuel chunks w f 0 Hf Hrx Hne)
    as (w' & f' & chunks' & Hloop & Hf' & Hrx' & Hcat & Hbuf'); [lia..|].
  cbn zeta in *. rewrite Z.sub_0_r in *. rewrite Z.add_0_l in Hloop.
  exists w', f', chunks'. split_and!; try done.
  rewrite Hbuf'. unfold splice_at. change (Z.to_nat 0) with 0%nat.
  rewrite take_0, app_nil_l, take_app_length'; [done|].
  rewrite length_take. lia.
Qed.

End stream.

Lemma anetRead_delivers_witness :
  let chunks := [Examples.bytes [1; 2; 3; 4]; Examples.bytes [5; 6; 7; 8; 9; 10]] in
  let w := Examples.pipe_world in
  let f := set_rx (map RdData chunks) (new_socket 0) in
  w_files w !! 3 = Some f ∧ f_rx f = map RdData chunks ∧
  Forall (λ c, c ≠ []) chunks ∧
  0 ≤ 6 ≤ INT_MAX ∧ 6 ≤ Z.of_nat (length (w_buf w)) ∧ (Z.to_nat 6 ≤ 6)%nat ∧
  ∃ w' f' chunks',
    anetRead 6 3 6 w = (Some (Z.min 6 (Z.of_nat (length (concat chunks)))), w') ∧
    take (Z.to_nat (Z.min 6 (Z.of_nat (length (concat chunks))))) (w_buf w')
      = take (Z.to_nat (Z.min 6 (Z.of_nat (length (concat chunks))))) (concat chunks) ∧
    w_files w' !! 3 = Some f' ∧ f_rx f' = map RdData chunks' ∧
    concat chunks' = drop (Z.to_nat (Z.min 6 (Z.of_nat (length (concat chunks)))))
                       (concat chunks).
Proof.
  intros chunks w f.
  assert (H1 : w_files w !! 3 = Some f) by (vm_compute; reflexivity).
  assert (H2 : f_rx f = map RdData chunks) by reflexivity.
  assert (H3 : Forall (λ c, c ≠ []) chunks) by (repeat constructor; discriminate).
  assert (H4 : 0 ≤ 6 ≤ INT_MAX) by (unfold INT_MAX; lia).
  assert (H5 : 6 ≤ Z.of_nat (length (w_buf w))) by (vm_compute; discriminate).
  assert (H6 : (Z.to_nat 6 ≤ 6)%nat) by (vm_compute; lia).
  exact (conj H1 (conj H2 (conj H3 (conj H4 (conj H5 (conj H6
    (anetRead_delivers 3 6 6 chunks w f H1 H2 H3 H4 H5 H6))))))).
Defined.

(** P4 of the specification, the draining peer: when the descriptor takes
    whatever it is given, [anetWrite] hands over the first [n] bytes of the
    buffer in one [write] and returns [n]. *)
Lemma anetWrite_drains `{Platform} fd n fuel w f :
  w_files w !! fd = Some f → f_tx f = [] →
  0 < n ≤ INT_MAX → (1 ≤ fuel)%nat →
  ∃ w' f',
    anetWrite fuel fd n w = (Some n, w') ∧
    w_files w' !! fd = Some f' ∧
    f_sent f' = f_sent f ++ take (Z.to_nat n) (w_buf w) ∧
    w_log w' = EvWrite fd n n :: w_log w.
Proof.
  unfold INT_MAX. intros Hf Htx Hn Hfuel. destruct fuel as [|fuel]; [lia|].
  unfold anetWrite. cbn [anetWrite_loop].
  destruct (Z.eqb_spec 0 n) as [?|_]; [lia|].
  rewrite bind_eq, Z.sub_0_r, to_int_id, to_size_t_id by lia.
  unfold sys_write. sys_simpl. rewrite Hf, Htx. cbn.
  rewrite to_int_id by lia.
  destruct (Z.eqb_spec n 0) as [?|_]; [lia|].
  destruct (Z.eqb_spec n (-1)) as [?|_]; [lia|].
  rewrite to_int_id by lia. destruct fuel; cbn; rewrite Z.eqb_refl;
    (eexists _, _; split; [reflexivity|]; cbn; rewrite lookup_insert_eq; by cbn).
Qed.

(** * Further properties of anet.c *)

(** ** Messages *)

Lemma substring_app_prefix (p s : string) (k : nat) :
  String.substring 0 (String.length p + k) (p +:+ s) = p +:+ String.substring 0 k s.
Proof.
  induction p as [|c p IH]; [done|].
  change (String.substring 0 (S (String.length p + k)) (String c (p +:+ s))
          = String c (p +:+ String.substring 0 k s)).
  cbn [String.substring]. by rewrite IH.
Qed.

Lemma length_substring_le (n : nat) (s : string) :
  (String.length (String.substring 0 n s) ≤ n)%nat.
Proof.
  revert s. induction n as [|n IH]; intros [|c s]; cbn; try lia.
  specialize (IH s). lia.
Qed.

Section messages.
Context `{Platform}.

(** A message keeps its head when it is cut: the heads anet.c uses are far
    shorter than the 255 characters a sink holds at least. *)
Lemma cut_head (p s : string) :
  (String.length p ≤ 255)%nat → ∃ rest, cut (p +:+ s) = p +:+ rest.
Proof.
  intros Hp. unfold cut. pose proof ANET_ERR_LEN_min.
  replace (Z.to_nat (ANET_ERR_LEN - 1))
    with (String.length p + (Z.to_nat (ANET_ERR_LEN - 1) - String.length p))%nat by lia.
  rewrite substring_app_prefix. by eexists.
Qed.

Lemma cut_length (msg : string) : Z.of_nat (String.length (cut msg)) < ANET_ERR_LEN.
Proof.
  unfold cut. pose proof ANET_ERR_LEN_min.
  pose proof (length_substring_le (Z.to_nat (ANET_ERR_LEN - 1)) msg). lia.
Qed.

End messages.

(** ** The option operations *)

Lemma set_status_id (f : File) : set_status (f_status f) f = f.
Proof. by destruct f. Qed.

Lemma lor_O_NONBLOCK_bit (st i : Z) :
  0 ≤ i →
  Z.testbit (Z.lor st O_NONBLOCK) i = Z.testbit st i || (i =? O_NONBLOCK_bit).
Proof.
  intros Hi. rewrite Z.lor_spec. f_equal.
  change O_NONBLOCK with (2 ^ 11). rewrite Z.pow2_bits_eqb by lia.
  unfold O_NONBLOCK_bit. apply Z.eqb_sym.
Qed.

Lemma lor_O_NONBLOCK_idem (st : Z) :
  Z.testbit st O_NONBLOCK_bit = true → Z.lor st O_NONBLOCK = st.
Proof.
  intros Hb. apply Z.bits_inj'. intros i Hi. rewrite lor_O_NONBLOCK_bit by done.
  destruct (Z.eqb_spec i O_NONBLOCK_bit) as [->|_]; [by rewrite Hb | apply orb_false_r].
Qed.

Section options.
Context `{Platform}.

(** What [anetNonBlock] does, in full: on success the status flags of
    [fd] gain [O_NONBLOCK] and nothing else changes; on failure the
    descriptor table is as before and the sink is told which [fcntl]
    failed. *)
Lemma anetNonBlock_cases err fd w :
  ∃ r w' tr, anetNonBlock err fd w = (r, w') ∧
    w_log w' = rev tr ++ w_log w ∧ connects tr = [] ∧
    w_addrlists w' = w_addrlists w ∧ w_ss w' = w_ss w ∧
    w_fds w' = w_fds w ∧ w_resolver w' = w_resolver w ∧
    ((r = ANET_OK ∧ w_err w' = w_err w ∧ setup_clean tr ∧
      ∃ f, w_files w !! fd = Some f ∧ f_status f ≠ -1 ∧
           w_files w' = <[fd := set_status (Z.lor (f_status f) O_NONBLOCK) f]> (w_files w)) ∨
     (r = ANET_ERR ∧ w_files w' = w_files w ∧ ¬ setup_clean tr ∧
      ∃ head rest, head ∈ ["fcntl(F_GETFL): "; "fcntl(F_SETFL,O_NONBLOCK): "] ∧
        w_err w' = (if err then cut (head +:+ rest) else w_err w))).
Proof.
  unfold anetNonBlock. rewrite bind_eq.
  destruct (sys_fcntl_getfl_spec fd w) as (r & w1 & -> & Hget).
  assert (Hfiles1 : w_files w1 = w_files w ∧
            (r ≠ -1 → ∃ f, w_files w !! fd = Some f ∧ r = f_status f)).
  { destruct Hget as [[-> Hf]|(f & Hl & -> & Hf)].
    - split; [apply Hf | done].
    - split; [|by eauto]. destruct Hf as (_ & -> & _). by apply insert_id. }
  assert (Hfr : w_log w1 = EvGetfl fd r :: w_log w ∧
            w_addrlists w1 = w_addrlists w ∧ w_err w1 = w_err w ∧ w_ss w1 = w_ss w ∧
            w_fds w1 = w_fds w ∧ w_resolver w1 = w_resolver w).
  { destruct Hget as [[-> Hf]|(f & Hl & -> & Hf)];
      destruct Hf as (? & ? & ? & ? & ? & ? & ?); by split_and!. }
  clear Hget. destruct Hfiles1 as [Hfiles1 Hsome].
  destruct Hfr as (Hl1 & Ha1 & He1 & Hs1 & Hd1 & Hr1).
  destruct (Z.eqb_spec r (-1)) as [->|Hr].
  - unfold errno. sys_simpl. cbn.
    destruct (anetSetError_spec err ("fcntl(F_GETFL): " +:+ strerror (w_errno w1)) w1)
      as (w2 & -> & Hl2 & Hf2 & Ha2 & He2 & Hs2 & Hd2 & Hr2).
    exists ANET_ERR, w2,
      [EvGetfl fd (-1); EvSetError err ("fcntl(F_GETFL): " +:+ strerror (w_errno w1))].
    split_and!; try congruence.
    { by rewrite Hl2, Hl1. }
    { done. }
    right. split_and!; try congruence.
    { intros HF. by apply Forall_cons_1 in HF as [? _]. }
    exists "fcntl(F_GETFL): ", (strerror (w_errno w1)).
    split; [repeat constructor|]. rewrite He2. destruct err; congruence.
  - destruct (Hsome Hr) as (f & Hlook & ->). rewrite bind_eq.
    destruct (sys_fcntl_setfl_spec fd (Z.lor (f_status f) O_NONBLOCK) w1)
      as (r2 & w2 & -> & Hset).
    destruct Hset as [[-> Hf]|(f' & Hl' & -> & Hf)];
      destruct Hf as (Hl2 & Hf2 & Ha2 & He2 & Hs2 & Hd2 & Hr2); cbn.
    + unfold errno. sys_simpl. cbn.
      destruct (anetSetError_spec err
                  ("fcntl(F_SETFL,O_NONBLOCK): " +:+ strerror (w_errno w2)) w2)
        as (w3 & -> & Hl3 & Hf3 & Ha3 & He3 & Hs3 & Hd3 & Hr3).
      exists ANET_ERR, w3,
        [EvGetfl fd (f_status f); EvSetfl fd (Z.lor (f_status f) O_NONBLOCK) (-1);
         EvSetError err ("fcntl(F_SETFL,O_NONBLOCK): " +:+ strerror (w_errno w2))].
      split_and!; try congruence.
      { by rewrite Hl3, Hl2, Hl1. }
      { done. }
      right. split_and!; try congruence.
      { intros HF. apply Forall_cons_1 in HF as [_ HF].
        by apply Forall_cons_1 in HF as [? _]. }
      exists "fcntl(F_SETFL,O_NONBLOCK): ", (strerror (w_errno w2)).
      split; [repeat constructor|]. rewrite He3. destruct err; congruence.
    + exists ANET_OK, w2,
        [EvGetfl fd (f_status f); EvSetfl fd (Z.lor (f_status f) O_NONBLOCK) 0].
      split_and!; try congruence.
      { done. }
      { by rewrite Hl2, Hl1. }
      { done. }
      left. split_and!; try congruence.
      { repeat constructor. cbn. by apply Z.eqb_neq. }
      exists f. split_and!; try done.
      rewrite Hf2, Hfiles1. rewrite Hfiles1 in Hl'. congruence.
Qed.

End options.
Section options_more.
Context `{Platform}.

(** The three [setsockopt] operations have this shape; [head] is the
    beginning of their message. *)
Lemma setsockopt_cases err fd level optname val (head : string) w :
  ∃ r w' tr,
    (r ← sys_setsockopt fd level optname val;
     if r =? -1 then
       e ← errno; anetSetError err (head +:+ strerror e);; mret ANET_ERR
     else mret ANET_OK) w = (r, w') ∧
    w_log w' = rev tr ++ w_log w ∧ connects tr = [] ∧
    w_addrlists w' = w_addrlists w ∧ w_ss w' = w_ss w ∧
    w_fds w' = w_fds w ∧ w_resolver w' = w_resolver w ∧
    ((r = ANET_OK ∧ w_err w' = w_err w ∧
      ∃ f, w_files w !! fd = Some f ∧
           w_files w' = <[fd := add_opt (level, optname, val) f]> (w_files w)) ∨
     (r = ANET_ERR ∧ w_files w' = w_files w ∧
      ∃ rest, w_err w' = (if err then cut (head +:+ rest) else w_err w))).
Proof.
  rewrite bind_eq.
  destruct (sys_setsockopt_spec fd level optname val w)
    as (r & w1 & -> & [[-> Hfr]|(f & Hf & -> & Hfr)]);
    destruct Hfr as (Hl1 & Hf1 & Ha1 & He1 & Hs1 & Hd1 & Hr1); cbn.
  - unfold errno. sys_simpl. cbn.
    destruct (anetSetError_spec err (head +:+ strerror (w_errno w1)) w1)
      as (w2 & -> & Hl2 & Hf2 & Ha2 & He2 & Hs2 & Hd2 & Hr2).
    exists ANET_ERR, w2,
      [EvSetsockopt fd level optname val (-1);
       EvSetError err (head +:+ strerror (w_errno w1))].
    split_and!; try congruence.
    { by rewrite Hl2, Hl1. }
    { done. }
    right. split_and!; try congruence.
    exists (strerror (w_errno w1)). rewrite He2. destruct err; congruence.
  - exists ANET_OK, w1, [EvSetsockopt fd level optname val 0].
    split_and!; try congruence; try done.
    left. split_and!; try done. by exists f.
Qed.

(** The four option operations at once. *)
Lemma option_op_cases fuel err o fd w :
  option_fd o = Some fd →
  ∃ r w' tr, run_op fuel err o w = (Some r, w') ∧
    w_log w' = rev tr ++ w_log w ∧ connects tr = [] ∧
    w_addrlists w' = w_addrlists w ∧ w_ss w' = w_ss w ∧
    w_fds w' = w_fds w ∧ w_resolver w' = w_resolver w ∧
    ((r = ANET_OK ∧ w_err w' = w_err w ∧
      ∃ f f', w_files w !! fd = Some f ∧ w_files w' = <[fd := f']> (w_files w) ∧
        match setter_option o with
        | Some opt => f' = add_opt opt f
        | None => f' = set_status (Z.lor (f_status f) O_NONBLOCK) f
        end) ∨
     (r = ANET_ERR ∧ w_files w' = w_files w ∧
      ∃ head rest, head ∈ option_heads o ∧
        w_err w' = (if err then cut (head +:+ rest) else w_err w))).
Proof.
  intros Hfd. destruct o; try done; cbn in Hfd; injection Hfd as ->;
    unfold run_op, returning; rewrite bind_eq.
  - destruct (anetNonBlock_cases err fd w)
      as (r & w' & tr & -> & Hl & Hc & Ha & Hs & Hd & Hr & Hcase).
    exists r, w', tr. split_and!; try done.
    destruct Hcase as [(-> & He & _ & f & Hf & _ & Hw)|(-> & Hw & _ & Hm)]; [left|by right].
    split_and!; try done. by eexists f, _.
  - destruct (setsockopt_cases err fd IPPROTO_TCP TCP_NODELAY 1
                "setsockopt TCP_NODELAY: " w)
      as (r & w' & tr & Hrun & Hl & Hc & Ha & Hs & Hd & Hr & Hcase).
    unfold anetTcpNoDelay. rewrite Hrun.
    exists r, w', tr. split_and!; try done.
    destruct Hcase as [(-> & He & f & Hf & Hw)|(-> & Hw & rest & Hm)]; [left|right].
    + split_and!; try done. by eexists f, _.
    + split_and!; try done. eexists _, rest. split; [constructor|done].
  - destruct (setsockopt_cases err fd SOL_SOCKET SO_SNDBUF buffsize
                "setsockopt SO_SNDBUF: " w)
      as (r & w' & tr & Hrun & Hl & Hc & Ha & Hs & Hd & Hr & Hcase).
    unfold anetSetSendBuffer. rewrite Hrun.
    exists r, w', tr. split_and!; try done.
    destruct Hcase as [(-> & He & f & Hf & Hw)|(-> & Hw & rest & Hm)]; [left|right].
    + split_and!; try done. by eexists f, _.
    + split_and!; try done. eexists _, rest. split; [constructor|done].
  - destruct (setsockopt_cases err fd SOL_SOCKET SO_KEEPALIVE 1
                "setsockopt SO_KEEPALIVE: " w)
      as (r & w' & tr & Hrun & Hl & Hc & Ha & Hs & Hd & Hr & Hcase).
    unfold anetTcpKeepAlive. rewrite Hrun.
    exists r, w', tr. split_and!; try done.
    destruct Hcase as [(-> & He & f & Hf & Hw)|(-> & Hw & rest & Hm)]; [left|right].
    + split_and!; try done. by eexists f, _.
    + split_and!; try done. eexists _, rest. split; [constructor|done].
Qed.

Lemma option_heads_short o head :
  head ∈ option_heads o → (String.length head ≤ 255)%nat.
Proof.
  destruct o; cbn; intros Hin; repeat (apply elem_of_cons in Hin as [->|Hin]);
    try (by apply elem_of_nil in Hin); cbn; lia.
Qed.

End options_more.

(** X1. A successful [anetNonBlock(err, fd)] turns [O_NONBLOCK] on in the
    status flags of [fd] and changes nothing else: every other flag bit,
    every other field of the socket, every other descriptor, the sink and
    the address lists are as before; on a socket that is already
    non-blocking the descriptor table does not change at all. *)
Theorem anetNonBlock_sets_flag `{Platform} err fd w w' :
  anetNonBlock err fd w = (ANET_OK, w') →
  ∃ f f', w_files w !! fd = Some f ∧ w_files w' !! fd = Some f' ∧
    (∀ i, 0 ≤ i →
       Z.testbit (f_status f') i = Z.testbit (f_status f) i || (i =? O_NONBLOCK_bit)) ∧
    f' = set_status (f_status f') f ∧
    (∀ fd', fd' ≠ fd → w_files w' !! fd' = w_files w !! fd') ∧
    (Z.testbit (f_status f) O_NONBLOCK_bit = true → w_files w' = w_files w) ∧
    w_err w' = w_err w ∧ w_addrlists w' = w_addrlists w.
Proof.
  intros Hrun.
  destruct (anetNonBlock_cases err fd w)
    as (r & w1 & tr & Hrun' & _ & _ & Ha & _ & _ & _ & Hcase).
  rewrite Hrun in Hrun'. injection Hrun' as <- <-.
  destruct Hcase as [(_ & He & _ & f & Hf & _ & Hw)|(? & _)]; [|done].
  exists f, (set_status (Z.lor (f_status f) O_NONBLOCK) f).
  split_and!; try done.
  - rewrite Hw. apply lookup_insert_eq.
  - intros i Hi. by apply lor_O_NONBLOCK_bit.
  - intros fd' Hne. rewrite Hw. by apply lookup_insert_ne.
  - intros Hb. rewrite Hw, lor_O_NONBLOCK_idem, set_status_id by done.
    by apply insert_id.
Qed.

Lemma anetNonBlock_sets_flag_witness :
  let w := Examples.listener_world in
  let w' := (anetNonBlock true 3 w).2 in
  anetNonBlock true 3 w = (ANET_OK, w') ∧
  ∃ f f', w_files w !! 3 = Some f ∧ w_files w' !! 3 = Some f' ∧
    (∀ i, 0 ≤ i →
       Z.testbit (f_status f') i = Z.testbit (f_status f) i || (i =? O_NONBLOCK_bit)) ∧
    f' = set_status (f_status f') f ∧
    (∀ fd', fd' ≠ 3 → w_files w' !! fd' = w_files w !! fd') ∧
    (Z.testbit (f_status f) O_NONBLOCK_bit = true → w_files w' = w_files w) ∧
    w_err w' = w_err w ∧ w_addrlists w' = w_addrlists w.
Proof.
  intros w w'.
  assert (H1 : anetNonBlock true 3 w = (ANET_OK, w')) by reflexivity.
  exact (conj H1 (anetNonBlock_sets_flag true 3 w w' H1)).
Defined.

(** X2. The four option operations ([anetNonBlock], [anetTcpNoDelay],
    [anetSetSendBuffer], [anetTcpKeepAlive]) return OK or ERR and never
    open or close a descriptor, touch an address list or the caller's
    slot.  On a descriptor that is not open they return ERR.  When they
    return ERR the descriptor table is as before the call and a sink, if
    there is one, holds a message that begins with the operation's own
    head; when they return OK, or when there is no sink, the sink's
    memory is as before. *)
Theorem option_ops_failure `{Platform} fuel err o fd w :
  option_fd o = Some fd →
  ∃ r w', run_op fuel err o w = (Some r, w') ∧
    (r = ANET_OK ∨ r = ANET_ERR) ∧
    dom (w_files w') = dom (w_files w) ∧
    w_addrlists w' = w_addrlists w ∧ w_ss w' = w_ss w ∧
    (w_files w !! fd = None → r = ANET_ERR) ∧
    (r = ANET_ERR → w_files w' = w_files w ∧
       (err = true → ∃ head rest, head ∈ option_heads o ∧ w_err w' = head +:+ rest)) ∧
    (r = ANET_OK ∨ err = false → w_err w' = w_err w).
Proof.
  intros Hfd.
  destruct (option_op_cases fuel err o fd w Hfd)
    as (r & w' & tr & Hrun & _ & _ & Ha & Hs & _ & _ & Hcase).
  exists r, w'. split_and!; try done.
  - destruct Hcase as [(-> & _)|(-> & _)]; [by left|by right].
  - destruct Hcase as [(_ & _ & f & f' & Hf & -> & _)|(_ & -> & _)]; [|done].
    apply dom_insert_lookup_L. by rewrite Hf.
  - intros Hnone. destruct Hcase as [(_ & _ & f & f' & Hf & _)|(-> & _)]; [|done].
    by rewrite Hnone in Hf.
  - intros ->. destruct Hcase as [(? & _)|(_ & Hw & head & rest & Hin & He)]; [done|].
    split; [done|]. intros ->.
    destruct (cut_head head rest (option_heads_short o head Hin)) as (rest' & Hcut).
    exists head, rest'. split; [done|]. by rewrite He.
  - intros Hor. destruct Hcase as [(_ & He & _)|(-> & _ & head & rest & _ & He)]; [done|].
    destruct Hor as [?| ->]; done.
Qed.

Lemma option_ops_failure_witness :
  let o := OpSetSendBuffer 3 65536 in
  let w := Examples.refusing_world in
  option_fd o = Some 3 ∧
  ∃ r w', run_op 0 true o w = (Some r, w') ∧
    (r = ANET_OK ∨ r = ANET_ERR) ∧
    dom (w_files w') = dom (w_files w) ∧
    w_addrlists w' = w_addrlists w ∧ w_ss w' = w_ss w ∧
    (w_files w !! 3 = None → r = ANET_ERR) ∧
    (r = ANET_ERR → w_files w' = w_files w ∧
       (true = true → ∃ head rest, head ∈ option_heads o ∧ w_err w' = head +:+ rest)) ∧
    (r = ANET_OK ∨ true = false → w_err w' = w_err w).
Proof.
  intros o w.
  assert (H1 : option_fd o = Some 3) by reflexivity.
  exact (conj H1 (option_ops_failure 0 true o 3 w H1)).
Defined.

(** X3. A successful [anetTcpNoDelay], [anetSetSendBuffer] or
    [anetTcpKeepAlive] sets exactly its own option on [fd] (TCP_NODELAY
    to 1 at IPPROTO_TCP, SO_SNDBUF to the given size and SO_KEEPALIVE to 1
    at SOL_SOCKET), on top of the options the socket already had, and
    leaves every other descriptor alone. *)
Theorem setter_ops_set_option `{Platform} fuel err o fd opt w w' :
  option_fd o = Some fd → setter_option o = Some opt →
  run_op fuel err o w = (Some ANET_OK, w') →
  ∃ f f', w_files w !! fd = Some f ∧ w_files w' !! fd = Some f' ∧
    f_opts f' = opt :: f_opts f ∧ f' = add_opt opt f ∧
    (∀ fd', fd' ≠ fd → w_files w' !! fd' = w_files w !! fd').
Proof.
  intros Hfd Hopt Hrun.
  destruct (option_op_cases fuel err o fd w Hfd)
    as (r & w1 & tr & Hrun' & _ & _ & _ & _ & _ & _ & Hcase).
  rewrite Hrun in Hrun'. injection Hrun' as <- <-.
  destruct Hcase as [(_ & _ & f & f' & Hf & Hw & Hf')|(? & _)]; [|done].
  rewrite Hopt in Hf'. subst f'. exists f, (add_opt opt f).
  split_and!; try done.
  - rewrite Hw. apply lookup_insert_eq.
  - intros fd' Hne. rewrite Hw. by apply lookup_insert_ne.
Qed.

Lemma setter_ops_set_option_witness :
  let o := OpSetSendBuffer 3 65536 in
  let w := Examples.listener_world in
  let w' := (run_op 0 true o w).2 in
  option_fd o = Some 3 ∧ setter_option o = Some (SOL_SOCKET, SO_SNDBUF, 65536) ∧
  run_op 0 true o w = (Some ANET_OK, w') ∧
  ∃ f f', w_files w !! 3 = Some f ∧ w_files w' !! 3 = Some f' ∧
    f_opts f' = (SOL_SOCKET, SO_SNDBUF, 65536) :: f_opts f ∧
    f' = add_opt (SOL_SOCKET, SO_SNDBUF, 65536) f ∧
    (∀ fd', fd' ≠ 3 → w_files w' !! fd' = w_files w !! fd').
Proof.
  intros o w w'.
  assert (H1 : option_fd o = Some 3) by reflexivity.
  assert (H2 : setter_option o = Some (SOL_SOCKET, SO_SNDBUF, 65536)) by reflexivity.
  assert (H3 : run_op 0 true o w = (Some ANET_OK, w')) by reflexivity.
  exact (conj H1 (conj H2 (conj H3 (setter_ops_set_option 0 true o 3 _ w w' H1 H2 H3)))).
Defined.


(** ** The connect operations *)

Lemma connects_app (a b : list event) : connects (a ++ b) = connects a ++ connects b.
Proof. induction a as [|[] a IH]; cbn; by rewrite ?IH. Qed.

Lemma setup_clean_app (a b : list event) :
  setup_clean (a ++ b) ↔ setup_clean a ∧ setup_clean b.
Proof. apply Forall_app. Qed.

Section connect.
Context `{Platform}.

Lemma anetCreateSocket_cases err domain w :
  ∃ r w' tr, anetCreateSocket err domain w = (r, w') ∧
    w_log w' = rev tr ++ w_log w ∧ connects tr = [] ∧
    w_addrlists w' = w_addrlists w ∧ w_ss w' = w_ss w ∧
    w_fds w' = w_fds w ∧ w_resolver w' = w_resolver w ∧
    w_files w ⊆ w_files w' ∧
    ((0 ≤ r ∧ setup_clean tr ∧ w_err w' = w_err w ∧ w_files w !! r = None ∧
      w_files w' =
        <[r := add_opt (SOL_SOCKET, SO_REUSEADDR, 1) (new_socket domain)]> (w_files w)) ∨
     (r = ANET_ERR ∧ (setup_clean tr → w_files w' = w_files w))).
Proof.
  unfold anetCreateSocket. rewrite bind_eq.
  destruct (sys_socket_spec domain w) as (s & w1 & -> & [[-> Hfr]|(Hs & Hnone & Hfr)]);
    destruct Hfr as (Hl1 & Hf1 & Ha1 & He1 & Hs1 & Hd1 & Hr1).
  - cbn. unfold errno. sys_simpl. cbn.
    destruct (anetSetError_spec err ("creating socket: " +:+ strerror (w_errno w1)) w1)
      as (w2 & -> & Hl2 & Hf2 & Ha2 & He2 & Hs2 & Hd2 & Hr2).
    exists ANET_ERR, w2,
      [EvSocket domain (-1); EvSetError err ("creating socket: " +:+ strerror (w_errno w1))].
    split_and!; try congruence.
    { by rewrite Hl2, Hl1. }
    { done. }
    { by rewrite Hf2, Hf1. }
    right. split; [done|]. intros _. congruence.
  - destruct (Z.eqb_spec s (-1)) as [->|_]; [lia|]. rewrite bind_eq.
    destruct (sys_setsockopt_spec s SOL_SOCKET SO_REUSEADDR 1 w1)
      as (r & w2 & -> & [[-> Hfr]|(f & Hf & -> & Hfr)]);
      destruct Hfr as (Hl2 & Hf2 & Ha2 & He2 & Hs2 & Hd2 & Hr2); cbn.
    + unfold errno. sys_simpl. cbn.
      destruct (anetSetError_spec err
                  ("setsockopt SO_REUSEADDR: " +:+ strerror (w_errno w2)) w2)
        as (w3 & -> & Hl3 & Hf3 & Ha3 & He3 & Hs3 & Hd3 & Hr3).
      exists ANET_ERR, w3,
        [EvSocket domain s; EvSetsockopt s SOL_SOCKET SO_REUSEADDR 1 (-1);
         EvSetError err ("setsockopt SO_REUSEADDR: " +:+ strerror (w_errno w2))].
      split_and!; try congruence.
      { by rewrite Hl3, Hl2, Hl1. }
      { done. }
      { rewrite Hf3, Hf2, Hf1. by apply insert_subseteq. }
      right. split; [done|]. intros HF. apply Forall_cons_1 in HF as [_ HF].
      by apply Forall_cons_1 in HF as [? _].
    + rewrite Hf1, lookup_insert_eq in Hf. injection Hf as <-.
      rewrite Hf1, insert_insert_eq in Hf2.
      exists s, w2, [EvSocket domain s; EvSetsockopt s SOL_SOCKET SO_REUSEADDR 1 0].
      split_and!; try congruence.
      { done. }
      { by rewrite Hl2, Hl1. }
      { done. }
      { rewrite Hf2. by apply insert_subseteq. }
      left. split_and!; try congruence. by repeat constructor.
Qed.

(** The optional [anetNonBlock] of the connect loop, on a socket that
    [anetCreateSocket] has just made. *)
Lemma connect_nonblock_cases err (nb : bool) s f w :
  w_files w !! s = Some f → f_status f ≠ -1 →
  ∃ r w' tr, (if nb then anetNonBlock err s else mret ANET_OK) w = (r, w') ∧
    w_log w' = rev tr ++ w_log w ∧ connects tr = [] ∧
    w_addrlists w' = w_addrlists w ∧ w_ss w' = w_ss w ∧
    w_fds w' = w_fds w ∧ w_resolver w' = w_resolver w ∧
    ((r = ANET_OK ∧ w_err w' = w_err w ∧ setup_clean tr ∧
      w_files w' =
        <[s := if nb then set_status (Z.lor (f_status f) O_NONBLOCK) f else f]> (w_files w)) ∨
     (r = ANET_ERR ∧ nb = true ∧ w_files w' = w_files w ∧ ¬ setup_clean tr)).
Proof.
  intros Hf Hst. destruct nb.
  - destruct (anetNonBlock_cases err s w)
      as (r & w' & tr & -> & Hl & Hc & Ha & Hs & Hd & Hr & Hcase).
    exists r, w', tr. split_and!; try done.
    destruct Hcase as [(-> & He & Hcl & f' & Hf' & _ & Hw)|(-> & Hw & Hcl & _)].
    + left. split_and!; try done. rewrite Hf in Hf'. by injection Hf' as <-.
    + by right.
  - exists ANET_OK, w, []. split_and!; try done. left. split_and!; try done.
    + constructor.
    + symmetry. by apply insert_id.
Qed.

Lemma connect_done_full (ss : bool) ai h (s : Z) w :
  ∃ w', ((if ss then memcpy_ss (sockaddr_bytes (ai_addr ai)) sizeof_ptr
          else @mret sys _ _ tt)
         ≫= λ _, sys_freeaddrinfo h ≫= λ _, mret s) w = (s, w') ∧
    w_log w' = EvFreeaddrinfo h :: w_log w ∧ w_err w' = w_err w ∧
    w_addrlists w' = delete h (w_addrlists w) ∧ w_files w' = w_files w ∧
    w_ss w' = saved_address ss ai (w_ss w) ∧ w_fds w' = w_fds w ∧
    w_resolver w' = w_resolver w ∧ w_errno w' = w_errno w.
Proof. destruct ss; (eexists; split; [reflexivity|]); by repeat split. Qed.

End connect.
Section connect_loop.
Context `{Platform}.

(** A candidate that was given up, with the calls [tr0] from [w] to [w5],
    in front of a run of the loop on the remaining candidates. *)
Lemma connect_outcome_lift flags ss h ai p w w5 tr0 trs r w' :
  connect_outcome flags ss h p w5 trs r w' →
  w_log w5 = rev tr0 ++ w_log w →
  connects tr0 = [] ∨ connects tr0 = [(ai_addr ai, -1)] →
  w_files w ⊆ w_files w5 → (setup_clean tr0 → w_files w5 = w_files w) →
  w_addrlists w5 = w_addrlists w → w_ss w5 = w_ss w → w_fds w5 = w_fds w →
  w_resolver w5 = w_resolver w →
  connect_outcome flags ss h (ai :: p) w (tr0 ++ trs) r w'.
Proof.
  intros (Hl & Hsub & Hd & Hr & Hsl & Hcase) Hl0 Hc0 Hsub0 Hcl0 Ha0 Hs0 Hd0 Hr0.
  unfold connect_outcome. split_and!.
  - by rewrite Hl, Hl0, rev_app_distr, app_assoc.
  - by etrans.
  - congruence.
  - congruence.
  - rewrite connects_app, map_app. destruct Hc0 as [->| ->]; cbn.
    + by apply sublist_cons.
    + by apply sublist_skip.
  - destruct Hcase as [(ai' & rc & before & Hr0' & Hin & Hc & Hbef & Hrc & Hnone & Hsome &
                         Hex & Ha & Hs & Hen)|(-> & Hs & Hall & Hex & Ha)]; [left|right].
    + exists ai', rc, (connects tr0 ++ before). split_and!; try done.
      * by apply elem_of_cons; right.
      * by rewrite connects_app, Hc, app_assoc.
      * apply Forall_app. split; [|done]. destruct Hc0 as [->| ->]; by repeat constructor.
      * by eapply lookup_weaken_None.
      * intros [Hcl1 Hcl2]%setup_clean_app. by rewrite Hex, Hcl0.
      * by rewrite Ha, Ha0.
      * by rewrite Hs, Hs0.
    + split_and!; try done.
      * by rewrite Hs, Hs0.
      * rewrite connects_app. apply Forall_app. split; [|done].
        destruct Hc0 as [->| ->]; by repeat constructor.
      * intros [Hcl1 Hcl2]%setup_clean_app. by rewrite Hex, Hcl0.
      * intros Hor. rewrite Ha, Ha0; [done|].
        destruct Hor as [[_ ?]%setup_clean_app|?]; [by left|by right].
Qed.

Lemma connect_loop_cases err flags ss h p : ∀ w,
  ∃ r w' tr, anetTcpGenericConnect_loop err flags ss h p w = (r, w') ∧
    connect_outcome flags ss h p w tr r w'.
Proof.
  induction p as [|ai p IH]; intros w.
  - cbn. rewrite bind_eq, sys_freeaddrinfo_eq. cbn.
    exists ANET_ERR, (add_log (EvFreeaddrinfo h) (set_addrlists (delete h) w)),
      [EvFreeaddrinfo h].
    split; [done|]. unfold connect_outcome. split_and!; try done.
    right. split_and!; done.
  - cbn [anetTcpGenericConnect_loop]. rewrite bind_eq.
    destruct (anetCreateSocket_cases err (ai_family ai) w)
      as (s & w1 & tr1 & -> & Hl1 & Hc1 & Ha1 & Hs1 & Hd1 & Hr1 & Hsub1 & Hcase1).
    destruct Hcase1 as [(Hs & Hcl1 & He1 & Hnone & Hf1)|(-> & Hex1)].
    2:{ cbn. destruct (IH w1) as (r & w' & trs & -> & Hout).
        exists r, w', (tr1 ++ trs). split; [done|].
        by apply (connect_outcome_lift _ _ _ _ _ _ w1); auto. }
    destruct (Z.eqb_spec s ANET_ERR) as [->|_]; [unfold ANET_ERR in Hs; lia|].
    rewrite bind_eq. fold (wants_nonblock flags).
    set (f0 := add_opt (SOL_SOCKET, SO_REUSEADDR, 1) (new_socket (ai_family ai))) in *.
    destruct (connect_nonblock_cases err (wants_nonblock flags) s f0 w1)
      as (nb & w2 & tr2 & -> & Hl2 & Hc2 & Ha2 & Hs2 & Hd2 & Hr2 & Hcase2).
    { rewrite Hf1. apply lookup_insert_eq. }
    { done. }
    destruct Hcase2 as [(-> & He2 & Hcl2 & Hf2)|(-> & Hnb & Hf2 & Hcl2)].
    2:{ cbn. exists ANET_ERR, w2, (tr1 ++ tr2). split; [done|].
        unfold connect_outcome. split_and!.
        - by rewrite Hl2, Hl1, rev_app_distr, app_assoc.
        - by rewrite Hf2.
        - congruence.
        - congruence.
        - rewrite connects_app, Hc1, Hc2. apply sublist_nil_l.
        - right. split_and!; try congruence.
          + rewrite connects_app, Hc1, Hc2. constructor.
          + by intros [_ ?]%setup_clean_app.
          + intros [[_ ?]%setup_clean_app|Hf]; [done|]. by rewrite Hf in Hnb. }
    cbn. rewrite bind_eq.
    set (f1 := if wants_nonblock flags
               then set_status (Z.lor (f_status f0) O_NONBLOCK) f0 else f0) in *.
    rewrite Hf1, insert_insert_eq in Hf2.
    assert (Hl12 : w_log w2 = rev (tr1 ++ tr2) ++ w_log w).
    { by rewrite Hl2, Hl1, rev_app_distr, app_assoc. }
    assert (Hc12 : connects (tr1 ++ tr2) = []).
    { by rewrite connects_app, Hc1, Hc2. }
    assert (Hcl12 : setup_clean (tr1 ++ tr2)) by (by apply setup_clean_app).
    assert (Hdone : ∀ rc w3 w',
      (rc = 0 ∨ rc = -1 ∧ wants_nonblock flags = true) →
      w_log w3 = EvConnect s (ai_addr ai) rc :: w_log w2 →
      w_files w3 = <[s := client_socket (wants_nonblock flags) ai rc]> (w_files w) →
      w_addrlists w3 = w_addrlists w2 → w_ss w3 = w_ss w2 → w_fds w3 = w_fds w2 →
      w_resolver w3 = w_resolver w2 →
      w_log w' = EvFreeaddrinfo h :: w_log w3 →
      w_addrlists w' = delete h (w_addrlists w3) → w_files w' = w_files w3 →
      w_ss w' = saved_address ss ai (w_ss w3) → w_fds w' = w_fds w3 →
      w_resolver w' = w_resolver w3 → (rc = -1 → w_errno w' = EINPROGRESS) →
      connect_outcome flags ss h (ai :: p) w
        ((tr1 ++ tr2) ++ [EvConnect s (ai_addr ai) rc; EvFreeaddrinfo h]) s w').
    { intros rc w3 w' Hrc Hl3 Hf3 Ha3 Hs3 Hd3 Hr3 Hl' Ha' Hf' Hs' Hd' Hr' Hen.
      unfold connect_outcome. split_and!.
      - by rewrite Hl', Hl3, Hl12, (rev_app_distr (tr1 ++ tr2)), <- app_assoc.
      - rewrite Hf', Hf3. by apply insert_subseteq.
      - congruence.
      - congruence.
      - rewrite connects_app, Hc12. cbn. apply sublist_skip, sublist_nil_l.
      - left. exists ai, rc, []. split_and!; try done.
        + apply elem_of_cons; by left.
        + by rewrite connects_app, Hc12.
        + rewrite Hf', Hf3. apply lookup_insert_eq.
        + intros _. by rewrite Hf', Hf3.
        + rewrite Ha', Ha3. congruence.
        + rewrite Hs', Hs3. congruence. }
    destruct (sys_connect_spec s (ai_addr ai) (ai_addrlen ai) w2)
      as (c & w3 & -> & [[-> Hfr]|(f & Hf & -> & Hfr)]);
      destruct Hfr as (Hl3 & Hf3 & Ha3 & He3 & Hs3 & Hd3 & Hr3).
    + cbn. rewrite bind_eq. unfold errno at 1. cbn.
      fold (wants_nonblock flags).
      destruct ((w_errno w3 =? EINPROGRESS) && wants_nonblock flags) eqn:Hin.
      * apply andb_true_iff in Hin as [Heq%Z.eqb_eq Hnb].
        destruct (connect_done_full ss ai h s w3)
          as (w' & -> & Hl' & He' & Ha' & Hf' & Hs' & Hd' & Hr' & Hen').
        eexists _, _, _. split; [done|].
        apply (Hdone (-1) w3 w'); try done; [by right| |congruence].
        rewrite Hf3, Hf2. reflexivity.
      * rewrite bind_eq.
        destruct (anetSetError_spec err ("connect: " +:+ strerror (w_errno w3)) w3)
          as (w4 & -> & Hl4 & Hf4 & Ha4 & He4 & Hs4 & Hd4 & Hr4). rewrite bind_eq.
        destruct (sys_close_spec s w4) as (c & w5 & -> & Hfr5).
        destruct Hfr5 as (Hl5 & Hf5 & Ha5 & He5 & Hs5 & Hd5 & Hr5).
        destruct (IH w5) as (r & w' & trs & -> & Hout).
        exists r, w',
          (((tr1 ++ tr2) ++
            [EvConnect s (ai_addr ai) (-1);
             EvSetError err ("connect: " +:+ strerror (w_errno w3)); EvClose s]) ++ trs).
        split; [done|].
        assert (Hfiles5 : w_files w5 = w_files w).
        { rewrite Hf5, Hf4, Hf3, Hf2. by apply delete_insert_id. }
        apply (connect_outcome_lift _ _ _ _ _ _ w5); try done; try congruence.
        -- by rewrite Hl5, Hl4, Hl3, Hl12, (rev_app_distr (tr1 ++ tr2)), <- app_assoc.
        -- right. by rewrite connects_app, Hc12.
        -- by rewrite Hfiles5.
    + cbn.
      destruct (connect_done_full ss ai h s w3)
        as (w' & -> & Hl' & He' & Ha' & Hf' & Hs' & Hd' & Hr' & Hen').
      eexists _, _, _. split; [done|].
      apply (Hdone 0 w3 w'); try done; [by left|].
      rewrite Hf3, Hf2, insert_insert_eq. rewrite Hf2, lookup_insert_eq in Hf.
      by injection Hf as <-.
Qed.

End connect_loop.
Section connect_whole.
Context `{Platform}.

Lemma anetTcpGenericConnect_cases err addr service flags ss w :
  ∃ r w' tr, anetTcpGenericConnect err addr service flags ss w = (r, w') ∧
    w_log w' = rev tr ++ w_log w ∧
    match w_resolver w addr service 0 with
    | inl code =>
        r = ANET_ERR ∧ connects tr = [] ∧ setup_clean tr ∧ w_files w' = w_files w ∧
        w_addrlists w' = w_addrlists w ∧ w_ss w' = w_ss w ∧ w_fds w' = w_fds w
    | inr cands =>
        ∃ trs, tr = EvGetaddrinfo 0 :: trs ∧
          w_addrlists w !! fresh (dom (w_addrlists w)) = None ∧
          connect_outcome flags ss (fresh (dom (w_addrlists w))) cands
            (add_log (EvGetaddrinfo 0)
               (set_addrlists <[fresh (dom (w_addrlists w)) := cands]> w))
            trs r w'
    end.
Proof.
  unfold anetTcpGenericConnect. rewrite bind_eq. unfold sys_getaddrinfo.
  destruct (w_resolver w addr service 0) as [code|cands]; cbn.
  - rewrite bind_eq.
    destruct (anetSetError_spec err
      ("can't resolve " +:+ fmt_s addr +:+ ": " +:+ gai_strerror (Z.neg code))
      (add_log (EvGetaddrinfo (Z.neg code)) w))
      as (w1 & -> & Hl & Hf & Ha & He & Hs & Hd & Hr).
    cbn in *. eexists _, _, [_; _]. split; [reflexivity|]. split; [by rewrite Hl|].
    split_and!; try done. by repeat constructor.
  - set (h := fresh (dom (w_addrlists w))).
    destruct (connect_loop_cases err flags ss h cands
                (add_log (EvGetaddrinfo 0) (set_addrlists <[h:=cands]> w)))
      as (r & w' & trs & -> & Hout).
    exists r, w', (EvGetaddrinfo 0 :: trs). split; [done|]. split.
    + destruct Hout as (-> & _). cbn. by rewrite <- app_assoc.
    + exists trs. split_and!; try done. apply fresh_addrlist.
Qed.

End connect_whole.

Lemma setup_clean_cons_getaddrinfo r tr :
  setup_clean (EvGetaddrinfo r :: tr) ↔ setup_clean tr.
Proof.
  split; [by intros [_ ?]%Forall_cons_1|]. intros ?. by apply Forall_cons_2.
Qed.

(** X4. [anetTcpConnect] returns a socket only if the resolver answered
    with candidates, and the socket is then a descriptor that was not open
    before, of the family of one of the candidates, in blocking mode, with
    [SO_REUSEADDR] as its only option and connected to that candidate's
    address.  Every descriptor that was open before is still open and
    unchanged, the address list is released, and the slot, if the caller
    gave one, holds the saved address. *)
Theorem anetTcpConnect_socket `{Platform} err addr service ss w r w' :
  anetTcpConnect err addr service ss w = (r, w') → r ≠ ANET_ERR →
  ∃ cands ai f,
    w_resolver w addr service 0 = inr cands ∧ ai ∈ cands ∧
    0 ≤ r ∧ w_files w !! r = None ∧ w_files w' !! r = Some f ∧
    f = client_socket false ai 0 ∧
    f_domain f = ai_family ai ∧ f_peer f = Some (ai_addr ai) ∧
    f_opts f = [(SOL_SOCKET, SO_REUSEADDR, 1)] ∧
    Z.testbit (f_status f) O_NONBLOCK_bit = false ∧
    w_files w ⊆ w_files w' ∧ w_addrlists w' = w_addrlists w ∧
    w_ss w' = saved_address ss ai (w_ss w).
Proof.
  intros Hrun Hr. unfold anetTcpConnect in Hrun.
  destruct (anetTcpGenericConnect_cases err addr service ANET_CONNECT_NONE ss w)
    as (r0 & w0 & tr & Hrun0 & Hl & Hcase).
  rewrite Hrun in Hrun0. injection Hrun0 as <- <-.
  destruct (w_resolver w addr service 0) as [code|cands]; [by destruct Hcase|].
  destruct Hcase as (trs & -> & Hfresh & _ & Hsub & _ & _ & _ & Hcase).
  destruct Hcase as [(ai & rc & before & Hr0 & Hin & _ & _ & Hrc & Hnone & Hsome &
                      _ & Ha & Hs & _)|(? & _)]; [|done].
  destruct Hrc as [->|[_ ?]]; [|done].
  exists cands, ai, (client_socket false ai 0). split_and!; try done.
  rewrite Ha. cbn. by apply delete_insert_id.
Qed.

Lemma anetTcpConnect_socket_witness :
  let w := Examples.fallback_world in
  let r := (anetTcpConnect true (Some "host") "80" true w).1 in
  let w' := (anetTcpConnect true (Some "host") "80" true w).2 in
  anetTcpConnect true (Some "host") "80" true w = (r, w') ∧ r ≠ ANET_ERR ∧
  ∃ cands ai f,
    w_resolver w (Some "host") "80" 0 = inr cands ∧ ai ∈ cands ∧
    0 ≤ r ∧ w_files w !! r = None ∧ w_files w' !! r = Some f ∧
    f = client_socket false ai 0 ∧
    f_domain f = ai_family ai ∧ f_peer f = Some (ai_addr ai) ∧
    f_opts f = [(SOL_SOCKET, SO_REUSEADDR, 1)] ∧
    Z.testbit (f_status f) O_NONBLOCK_bit = false ∧
    w_files w ⊆ w_files w' ∧ w_addrlists w' = w_addrlists w ∧
    w_ss w' = saved_address true ai (w_ss w).
Proof.
  intros w r w'.
  assert (H1 : anetTcpConnect true (Some "host") "80" true w = (r, w')) by (vm_compute; reflexivity).
  assert (H2 : r ≠ ANET_ERR) by (vm_compute; discriminate).
  exact (conj H1 (conj H2
    (anetTcpConnect_socket true (Some "host") "80" true w r w' H1 H2))).
Defined.

(** X5. [anetTcpNonBlockConnect] returns a socket only if the resolver
    answered with candidates, and the socket is then a descriptor that was
    not open before, of the family of one of the candidates, with
    [O_NONBLOCK] set and [SO_REUSEADDR] as its only option.  The last
    [connect] of the call went to that candidate's address, and either it
    succeeded and the socket is connected to it, or it answered -1 with
    [errno] left at [EINPROGRESS] and the socket has no peer yet.  The address list is
    released and the slot, if given, holds the saved address. *)
Theorem anetTcpNonBlockConnect_socket `{Platform} err addr service ss w r w' :
  anetTcpNonBlockConnect err addr service ss w = (r, w') → r ≠ ANET_ERR →
  ∃ cands ai rc f tr,
    w_resolver w addr service 0 = inr cands ∧ ai ∈ cands ∧
    w_log w' = rev tr ++ w_log w ∧ last (connects tr) = Some (ai_addr ai, rc) ∧
    (rc = 0 ∨ rc = -1) ∧
    0 ≤ r ∧ w_files w !! r = None ∧ w_files w' !! r = Some f ∧
    f = client_socket true ai rc ∧
    f_domain f = ai_family ai ∧
    f_peer f = (if rc =? -1 then None else Some (ai_addr ai)) ∧
    f_opts f = [(SOL_SOCKET, SO_REUSEADDR, 1)] ∧
    Z.testbit (f_status f) O_NONBLOCK_bit = true ∧
    w_files w ⊆ w_files w' ∧ w_addrlists w' = w_addrlists w ∧
    w_ss w' = saved_address ss ai (w_ss w) ∧
    (rc = -1 → w_errno w' = EINPROGRESS).
Proof.
  intros Hrun Hr. unfold anetTcpNonBlockConnect in Hrun.
  destruct (anetTcpGenericConnect_cases err addr service ANET_CONNECT_NONBLOCK ss w)
    as (r0 & w0 & tr & Hrun0 & Hl & Hcase).
  rewrite Hrun in Hrun0. injection Hrun0 as <- <-.
  destruct (w_resolver w addr service 0) as [code|cands]; [by destruct Hcase|].
  destruct Hcase as (trs & -> & Hfresh & _ & Hsub & _ & _ & _ & Hcase).
  destruct Hcase as [(ai & rc & before & Hr0 & Hin & Hc & _ & Hrc & Hnone & Hsome &
                      _ & Ha & Hs & Hen)|(? & _)]; [|done].
  exists cands, ai, rc, (client_socket true ai rc), (EvGetaddrinfo 0 :: trs).
  split_and!; try done.
  - cbn [connects]. rewrite Hc. apply last_snoc.
  - destruct Hrc as [->|[-> _]]; [by left|by right].
  - by destruct Hrc as [->|[-> _]].
  - by destruct Hrc as [->|[-> _]].
  - by destruct Hrc as [->|[-> _]].
  - by destruct Hrc as [->|[-> _]].
  - rewrite Ha. cbn. by apply delete_insert_id.
Qed.

Lemma anetTcpNonBlockConnect_socket_witness :
  let w := Examples.pending_world in
  let r := (anetTcpNonBlockConnect true (Some "host") "80" true w).1 in
  let w' := (anetTcpNonBlockConnect true (Some "host") "80" true w).2 in
  anetTcpNonBlockConnect true (Some "host") "80" true w = (r, w') ∧ r ≠ ANET_ERR ∧
  ∃ cands ai rc f tr,
    w_resolver w (Some "host") "80" 0 = inr cands ∧ ai ∈ cands ∧
    w_log w' = rev tr ++ w_log w ∧ last (connects tr) = Some (ai_addr ai, rc) ∧
    (rc = 0 ∨ rc = -1) ∧
    0 ≤ r ∧ w_files w !! r = None ∧ w_files w' !! r = Some f ∧
    f = client_socket true ai rc ∧
    f_domain f = ai_family ai ∧
    f_peer f = (if rc =? -1 then None else Some (ai_addr ai)) ∧
    f_opts f = [(SOL_SOCKET, SO_REUSEADDR, 1)] ∧
    Z.testbit (f_status f) O_NONBLOCK_bit = true ∧
    w_files w ⊆ w_files w' ∧ w_addrlists w' = w_addrlists w ∧
    w_ss w' = saved_address true ai (w_ss w) ∧
    (rc = -1 → w_errno w' = EINPROGRESS).
Proof.
  intros w r w'.
  assert (H1 : anetTcpNonBlockConnect true (Some "host") "80" true w = (r, w'))
    by (vm_compute; reflexivity).
  assert (H2 : r ≠ ANET_ERR) by (vm_compute; discriminate).
  exact (conj H1 (conj H2
    (anetTcpNonBlockConnect_socket true (Some "host") "80" true w r w' H1 H2))).
Defined.

(** X6. [anetTcpGenericConnect] tries the candidates in the order the
    resolver gave them, each at most once: the addresses of its [connect]
    calls are a sublist of the candidates' addresses.  It stops at the
    first [connect] it accepts: when it returns a socket, every earlier
    [connect] failed and the socket is connected to the address of the
    last one (or, for a non-blocking connect answered with -1, still
    without a peer); a blocking connect only accepts a [connect] that
    returned 0.  When it returns ERR every [connect] it made failed. *)
Theorem anetTcpGenericConnect_order `{Platform} err addr service flags ss w cands :
  w_resolver w addr service 0 = inr cands →
  ∃ r w' tr, anetTcpGenericConnect err addr service flags ss w = (r, w') ∧
    w_log w' = rev tr ++ w_log w ∧
    map fst (connects tr) `sublist_of` map ai_addr cands ∧
    (r = ANET_ERR → Forall (λ c, c.2 = -1) (connects tr)) ∧
    (r ≠ ANET_ERR →
     ∃ before sa rc, connects tr = before ++ [(sa, rc)] ∧
       Forall (λ c, c.2 = -1) before ∧
       (wants_nonblock flags = false → rc = 0) ∧
       (f_peer <$> w_files w' !! r) = Some (if rc =? -1 then None else Some sa)).
Proof.
  intros Hres.
  destruct (anetTcpGenericConnect_cases err addr service flags ss w)
    as (r & w' & tr & Hrun & Hl & Hcase).
  rewrite Hres in Hcase. destruct Hcase as (trs & -> & _ & _ & _ & _ & _ & Hsub & Hcase).
  exists r, w', (EvGetaddrinfo 0 :: trs). split_and!; try done.
  - intros ->. destruct Hcase as [(ai & rc & before & Hr0 & _)|(_ & _ & Hall & _)];
      [unfold ANET_ERR in Hr0; lia|done].
  - intros Hr. destruct Hcase as [(ai & rc & before & _ & _ & Hc & Hbef & Hrc & _ & Hsome & _)|
                                  (? & _)]; [|done].
    exists before, (ai_addr ai), rc. split_and!; try done.
    + intros Hnb. destruct Hrc as [->|[_ Hnb']]; [done|]. by rewrite Hnb in Hnb'.
    + rewrite Hsome. cbn. f_equal. by destruct Hrc as [->|[-> _]], (wants_nonblock flags).
Qed.

Lemma anetTcpGenericConnect_order_witness :
  let w := Examples.fallback_world in
  w_resolver w (Some "host") "80" 0 = inr [Examples.cand_v6; Examples.cand_v4] ∧
  ∃ r w' tr,
    anetTcpGenericConnect true (Some "host") "80" ANET_CONNECT_NONE true w = (r, w') ∧
    w_log w' = rev tr ++ w_log w ∧
    map fst (connects tr) `sublist_of` map ai_addr [Examples.cand_v6; Examples.cand_v4] ∧
    (r = ANET_ERR → Forall (λ c, c.2 = -1) (connects tr)) ∧
    (r ≠ ANET_ERR →
     ∃ before sa rc, connects tr = before ++ [(sa, rc)] ∧
       Forall (λ c, c.2 = -1) before ∧
       (wants_nonblock ANET_CONNECT_NONE = false → rc = 0) ∧
       (f_peer <$> w_files w' !! r) = Some (if rc =? -1 then None else Some sa)).
Proof.
  intros w.
  assert (H1 : w_resolver w (Some "host") "80" 0
               = inr [Examples.cand_v6; Examples.cand_v4]) by reflexivity.
  exact (conj H1 (anetTcpGenericConnect_order true (Some "host") "80"
                    ANET_CONNECT_NONE true w _ H1)).
Defined.

(** X7. [anetTcpGenericConnect] closes every socket on which [connect]
    failed: unless a [setsockopt] or [fcntl] of the call failed, the
    descriptor table after ERR is the table before the call, the table
    after success differs from it in the returned socket only, and the
    address list is released.  In every case the descriptors that were
    open stay open and unchanged and the descriptor array is not touched;
    the caller's slot is written only when a socket is returned. *)
Theorem anetTcpGenericConnect_closes `{Platform} err addr service flags ss w :
  ∃ r w' tr, anetTcpGenericConnect err addr service flags ss w = (r, w') ∧
    w_log w' = rev tr ++ w_log w ∧
    w_files w ⊆ w_files w' ∧ w_fds w' = w_fds w ∧
    (r = ANET_ERR → w_ss w' = w_ss w) ∧
    (setup_clean tr →
     w_addrlists w' = w_addrlists w ∧
     (r = ANET_ERR → w_files w' = w_files w) ∧
     (r ≠ ANET_ERR → w_files w !! r = None ∧ ∃ f, w_files w' = <[r := f]> (w_files w))).
Proof.
  destruct (anetTcpGenericConnect_cases err addr service flags ss w)
    as (r & w' & tr & Hrun & Hl & Hcase).
  exists r, w', tr. split; [done|]. split; [done|].
  destruct (w_resolver w addr service 0) as [code|cands].
  - destruct Hcase as (-> & _ & _ & Hf & Ha & Hs & Hd). split_and!; try done.
    by rewrite Hf.
  - destruct Hcase as (trs & -> & Hfresh & _ & Hsub & Hd & _ & _ & Hcase).
    cbn in Hsub, Hd. split_and!; try done.
    + intros ->. destruct Hcase as [(ai & rc & before & Hr0 & _)|(_ & Hs & _)];
        [unfold ANET_ERR in Hr0; lia|done].
    + intros Hcl%setup_clean_cons_getaddrinfo.
      destruct Hcase as [(ai & rc & before & Hr0 & _ & _ & _ & _ & Hnone & _ & Hex & Ha & _)|
                         (-> & _ & _ & Hex & Ha)].
      * split_and!.
        -- rewrite Ha. cbn. by apply delete_insert_id.
        -- intros ->. unfold ANET_ERR in Hr0. lia.
        -- intros _. split; [done|]. eexists. by apply Hex.
      * split_and!; [|by intros _; apply Hex|done].
        rewrite Ha by (by left). cbn. by apply delete_insert_id.
Qed.

Section connect_addr.
Context `{Platform}.

Lemma connect_saved (ss : bool) ai (s : Z) w :
  ∃ w', ((if ss then memcpy_ss (sockaddr_bytes (ai_addr ai)) sizeof_ptr
          else @mret sys _ _ tt) ≫= λ _, mret s) w = (s, w') ∧
    w_log w' = w_log w ∧ w_err w' = w_err w ∧
    w_addrlists w' = w_addrlists w ∧ w_files w' = w_files w ∧
    w_ss w' = saved_address ss ai (w_ss w) ∧ w_fds w' = w_fds w ∧
    w_errno w' = w_errno w.
Proof. destruct ss; (eexists; split; [reflexivity|]); by repeat split. Qed.

End connect_addr.

(** X8. [anetTcpNonBlockConnectAddr] makes one attempt on the candidate it
    is given: at most one [connect], to the candidate's address.  It
    returns a new non-blocking socket with [SO_REUSEADDR], connected or
    with the connection in progress ([connect] answered -1 and [errno] is
    [EINPROGRESS]), and then the descriptor table differs
    from the one before in that socket only and the slot, if given, holds
    the saved address; or it returns ERR with the slot untouched and,
    unless a [setsockopt] or [fcntl] failed, the descriptor table as before
    (the socket on which [connect] failed is closed).  It never touches an
    address list: the candidate's list stays the caller's. *)
Theorem anetTcpNonBlockConnectAddr_attempt `{Platform} err p ss w :
  ∃ r w' tr, anetTcpNonBlockConnectAddr err p ss w = (r, w') ∧
    w_log w' = rev tr ++ w_log w ∧
    w_addrlists w' = w_addrlists w ∧ w_fds w' = w_fds w ∧
    w_files w ⊆ w_files w' ∧
    ((∃ rc, 0 ≤ r ∧ connects tr = [(ai_addr p, rc)] ∧ (rc = 0 ∨ rc = -1) ∧
        w_files w !! r = None ∧
        w_files w' = <[r := client_socket true p rc]> (w_files w) ∧
        w_ss w' = saved_address ss p (w_ss w) ∧
        (rc = -1 → w_errno w' = EINPROGRESS)) ∨
     (r = ANET_ERR ∧ w_ss w' = w_ss w ∧
      (connects tr = [] ∨ connects tr = [(ai_addr p, -1)]) ∧
      (setup_clean tr → w_files w' = w_files w))).
Proof.
  unfold anetTcpNonBlockConnectAddr. rewrite bind_eq.
  destruct (anetCreateSocket_cases err (ai_family p) w)
    as (s & w1 & tr1 & -> & Hl1 & Hc1 & Ha1 & Hs1 & Hd1 & Hr1 & Hsub1 & Hcase1).
  destruct Hcase1 as [(Hs & Hcl1 & He1 & Hnone & Hf1)|(-> & Hex1)].
  2:{ cbn. exists ANET_ERR, w1, tr1. split_and!; try done. right.
      split_and!; try done. by left. }
  destruct (Z.eqb_spec s ANET_ERR) as [->|_]; [unfold ANET_ERR in Hs; lia|].
  rewrite bind_eq.
  set (f0 := add_opt (SOL_SOCKET, SO_REUSEADDR, 1) (new_socket (ai_family p))) in *.
  destruct (connect_nonblock_cases err true s f0 w1)
    as (nb & w2 & tr2 & Hrun2 & Hl2 & Hc2 & Ha2 & Hs2 & Hd2 & Hr2 & Hcase2).
  { rewrite Hf1. apply lookup_insert_eq. }
  { done. }
  cbn in Hrun2. rewrite Hrun2. clear Hrun2.
  assert (Hl12 : w_log w2 = rev (tr1 ++ tr2) ++ w_log w).
  { by rewrite Hl2, Hl1, rev_app_distr, app_assoc. }
  assert (Hc12 : connects (tr1 ++ tr2) = []).
  { by rewrite connects_app, Hc1, Hc2. }
  destruct Hcase2 as [(-> & He2 & Hcl2 & Hf2)|(-> & _ & Hf2 & Hcl2)].
  2:{ cbn. exists ANET_ERR, w2, (tr1 ++ tr2). split_and!; try congruence.
      - done.
      - by rewrite Hf2.
      - right. split_and!; try congruence; [by left|].
        by intros [_ ?]%setup_clean_app. }
  cbn. rewrite bind_eq. rewrite Hf1, insert_insert_eq in Hf2.
  set (f1 := set_status (Z.lor (f_status f0) O_NONBLOCK) f0) in *.
  destruct (sys_connect_spec s (ai_addr p) (ai_addrlen p) w2)
    as (c & w3 & -> & [[-> Hfr]|(f & Hf & -> & Hfr)]);
    destruct Hfr as (Hl3 & Hf3 & Ha3 & He3 & Hs3 & Hd3 & Hr3).
  - cbn. rewrite bind_eq. unfold errno at 1. cbn.
    destruct (Z.eqb_spec (w_errno w3) EINPROGRESS) as [Hen|_].
    + destruct (connect_saved ss p s w3)
        as (w' & -> & Hl' & He' & Ha' & Hf' & Hs' & Hd' & Hen').
      exists s, w', ((tr1 ++ tr2) ++ [EvConnect s (ai_addr p) (-1)]).
      split_and!; try congruence.
      * by rewrite Hl', Hl3, Hl12, (rev_app_distr (tr1 ++ tr2)).
      * rewrite Hf', Hf3, Hf2. by apply insert_subseteq.
      * left. exists (-1). split_and!; try done.
        -- by rewrite connects_app, Hc12.
        -- by right.
        -- by rewrite Hf', Hf3, Hf2.
        -- rewrite Hs', Hs3. congruence.
        -- intros _. congruence.
    + rewrite bind_eq.
      destruct (anetSetError_spec err ("connect: " +:+ strerror (w_errno w3)) w3)
        as (w4 & -> & Hl4 & Hf4 & Ha4 & He4 & Hs4 & Hd4 & Hr4). rewrite bind_eq.
      destruct (sys_close_spec s w4) as (c & w5 & -> & Hfr5).
      destruct Hfr5 as (Hl5 & Hf5 & Ha5 & He5 & Hs5 & Hd5 & Hr5).
      assert (Hfiles5 : w_files w5 = w_files w).
      { rewrite Hf5, Hf4, Hf3, Hf2. by apply delete_insert_id. }
      exists ANET_ERR, w5,
        ((tr1 ++ tr2) ++
         [EvConnect s (ai_addr p) (-1);
          EvSetError err ("connect: " +:+ strerror (w_errno w3)); EvClose s]).
      split_and!; try congruence.
      * done.
      * by rewrite Hl5, Hl4, Hl3, Hl12, (rev_app_distr (tr1 ++ tr2)).
      * by rewrite Hfiles5.
      * right. split_and!; try congruence.
        right. by rewrite connects_app, Hc12.
  - cbn.
    destruct (connect_saved ss p s w3)
      as (w' & -> & Hl' & He' & Ha' & Hf' & Hs' & Hd' & Hen').
    exists s, w', ((tr1 ++ tr2) ++ [EvConnect s (ai_addr p) 0]).
    rewrite Hf2, lookup_insert_eq in Hf. injection Hf as <-.
    split_and!; try congruence.
    * by rewrite Hl', Hl3, Hl12, (rev_app_distr (tr1 ++ tr2)).
    * rewrite Hf', Hf3, Hf2, insert_insert_eq. by apply insert_subseteq.
    * left. exists 0. split_and!; try done.
      -- by rewrite connects_app, Hc12.
      -- by left.
      -- by rewrite Hf', Hf3, Hf2, insert_insert_eq.
      -- rewrite Hs', Hs3. congruence.
Qed.

(** X9. [anetGetaddrinfo] queries the resolver with no flags.  When the
    resolver answers with candidates it returns 0 and hands out a new
    list with exactly those candidates, live after the call and owned by
    the caller; the lists that were live stay as they were and the sink is
    not written.  When the resolver fails it returns ERR, makes no list,
    and tells a sink, if there is one, that it cannot resolve the host.
    In both cases no descriptor is touched. *)
Theorem anetGetaddrinfo_result `{Platform} err addr service w :
  ∃ r h l w', anetGetaddrinfo err addr service w = ((r, (h, l)), w') ∧
    w_files w' = w_files w ∧ w_ss w' = w_ss w ∧ w_fds w' = w_fds w ∧
    match w_resolver w addr service 0 with
    | inr cands =>
        r = 0 ∧ l = cands ∧ w_addrlists w !! h = None ∧
        w_addrlists w' = <[h := cands]> (w_addrlists w) ∧ w_err w' = w_err w
    | inl code =>
        r = ANET_ERR ∧ w_addrlists w' = w_addrlists w ∧
        (err = false → w_err w' = w_err w) ∧
        (err = true →
         w_err w' = cut ("can't resolve " +:+ fmt_s addr +:+ ": " +:+
                         gai_strerror (Z.neg code)) ∧
         ∃ rest, w_err w' = "can't resolve " +:+ rest)
    end.
Proof.
  unfold anetGetaddrinfo. rewrite bind_eq. unfold sys_getaddrinfo.
  destruct (w_resolver w addr service 0) as [code|cands]; cbn.
  - rewrite bind_eq.
    destruct (anetSetError_spec err
      ("can't resolve " +:+ fmt_s addr +:+ ": " +:+ gai_strerror (Z.neg code))
      (add_log (EvGetaddrinfo (Z.neg code)) w))
      as (w1 & -> & Hl & Hf & Ha & He & Hs & Hd & Hr).
    cbn in *. eexists _, _, _, _. split; [reflexivity|]. split_and!; try done.
    + intros ->. by rewrite He.
    + intros ->. rewrite He. split; [done|].
      apply (cut_head "can't resolve "). cbn. lia.
  - eexists _, _, _, _. split; [reflexivity|]. split_and!; try done.
    apply fresh_addrlist.
Qed.

(** ** The buffer of [anetRead] and [anetWrite] *)

(** One [read]: what it does to the buffer and to the descriptor table. *)
Lemma sys_read_buf fd off k w :
  0 ≤ k →
  ∃ r w' src, sys_read fd off k w = (r, w') ∧ (r = -1 ∨ 0 ≤ r ≤ k) ∧
    length src = Z.to_nat r ∧
    w_buf w' = splice_at (Z.to_nat off) src (w_buf w) ∧
    w_err w' = w_err w ∧ w_addrlists w' = w_addrlists w ∧ w_ss w' = w_ss w ∧
    dom (w_files w') = dom (w_files w) ∧
    (∀ fd', fd' ≠ fd → w_files w' !! fd' = w_files w !! fd').
Proof.
  intros Hk. unfold sys_read. sys_simpl.
  destruct (w_files w !! fd) as [f|] eqn:Hf; cbn;
    [destruct (f_rx f) as [|[bs|e] rest]; cbn|].
  - exists 0, (add_log (EvRead fd k 0) w), []. split_and!; try done; [lia|].
    by rewrite splice_at_nil.
  - eexists _, _, (take (Z.to_nat (Z.min k (Z.of_nat (length bs)))) bs).
    split; [reflexivity|]. cbn. split_and!; try done.
    + lia.
    + rewrite length_take. lia.
    + apply dom_insert_lookup_L. by rewrite Hf.
    + intros fd' Hne. by apply lookup_insert_ne.
  - eexists _, _, []. split; [reflexivity|]. cbn. split_and!; try done.
    + by left.
    + by rewrite splice_at_nil.
    + apply dom_insert_lookup_L. by rewrite Hf.
    + intros fd' Hne. by apply lookup_insert_ne.
  - eexists _, _, []. split; [reflexivity|]. cbn. split_and!; try done.
    + by left.
    + by rewrite splice_at_nil.
Qed.

(** One [write]: what goes out is the piece of the buffer at the offset. *)
Lemma sys_write_sent fd off k w f :
  0 ≤ k → 0 ≤ off → w_files w !! fd = Some f →
  ∃ r w' f', sys_write fd off k w = (r, w') ∧ (r = -1 ∨ 0 ≤ r ≤ k) ∧
    w_files w' = <[fd := f']> (w_files w) ∧
    f_sent f' = f_sent f ++ take (Z.to_nat r) (drop (Z.to_nat off) (w_buf w)) ∧
    w_buf w' = w_buf w ∧ w_err w' = w_err w ∧ w_addrlists w' = w_addrlists w ∧
    w_ss w' = w_ss w.
Proof.
  intros Hk Hoff Hf. unfold sys_write. sys_simpl. rewrite Hf. cbn.
  destruct (f_tx f) as [|[c|e] rest]; cbn.
  - eexists _, _, _. split; [reflexivity|]. cbn. split_and!; try done. lia.
  - eexists _, _, _. split; [reflexivity|]. cbn. split_and!; try done. lia.
  - eexists _, _, _. split; [reflexivity|]. cbn. split_and!; try done.
    + by left.
    + by rewrite app_nil_r.
Qed.

(** The goals left when one of the two loops stops. *)
Ltac stop_tac :=
  first [ done | lia | (cbn; lia) | by rewrite splice_at_nil
        | by rewrite Z.sub_diag | by rewrite Z.sub_diag, app_nil_r
        | by (intros ? [=]; right) | by (intros ? [=]; left) | idtac ].

Section buffers.
Context `{Platform}.

Lemma anetRead_loop_buf fd n fuel : ∀ tot w,
  0 ≤ tot ≤ n → n ≤ INT_MAX → n ≤ Z.of_nat (length (w_buf w)) →
  ∃ res w' k src, anetRead_loop fuel fd tot n tot w = (res, w') ∧
    tot ≤ k ≤ n ∧ length src = Z.to_nat (k - tot) ∧
    w_buf w' = splice_at (Z.to_nat tot) src (w_buf w) ∧
    (∀ r, res = Some r → r = -1 ∨ r = k) ∧
    w_err w' = w_err w ∧ w_addrlists w' = w_addrlists w ∧ w_ss w' = w_ss w ∧
    dom (w_files w') = dom (w_files w) ∧
    (∀ fd', fd' ≠ fd → w_files w' !! fd' = w_files w !! fd').
Proof.
  unfold INT_MAX.
  induction fuel as [|fuel IH]; intros tot w Htot Hmax Hbuf; cbn.
  - exists (if tot =? n then Some tot else None), w, tot, [].
    split; [by destruct (tot =? n)|]. split_and!; stop_tac.
    intros r. destruct (tot =? n); intros [=]. by right.
  - destruct (Z.eqb_spec tot n) as [->|Hne].
    { exists (Some n), w, n, []. split_and!; stop_tac. }
    unfold mbind, sys_mbind.
    rewrite to_int_id, to_size_t_id by lia.
    destruct (sys_read_buf fd tot (n - tot) w)
      as (r & w1 & src & -> & Hr & Hlen & Hb & He & Ha & Hs & Hdom & Hoth); [lia|].
    rewrite to_int_id by lia.
    destruct (Z.eqb_spec r 0) as [->|Hr0].
    { exists (Some tot), w1, tot, []. destruct src; [|done].
      split_and!; stop_tac. }
    destruct (Z.eqb_spec r (-1)) as [->|Hr1].
    { exists (Some (-1)), w1, tot, []. destruct src; [|done].
      split_and!; stop_tac. }
    rewrite to_int_id by lia.
    assert (Hlen1 : length (w_buf w1) = length (w_buf w)).
    { rewrite Hb. apply length_splice_at. lia. }
    destruct (IH (tot + r) w1) as (res & w' & k & src2 & -> & Hk & Hlen2 & Hb2 & Hres &
                                   He2 & Ha2 & Hs2 & Hdom2 & Hoth2); [lia..|].
    exists res, w', k, (src ++ src2). split_and!; try done; try congruence; try lia.
    + rewrite length_app. lia.
    + rewrite Hb2, Hb. replace (Z.to_nat (tot + r)) with (Z.to_nat tot + length src)%nat by lia.
      apply splice_at_app. lia.
    + intros fd' Hne'. by rewrite Hoth2, Hoth.
Qed.

Lemma anetWrite_loop_sent fd n fuel : ∀ tot w f,
  0 ≤ tot ≤ n → n ≤ INT_MAX → w_files w !! fd = Some f →
  ∃ res w' f' k, anetWrite_loop fuel fd tot n tot w = (res, w') ∧
    tot ≤ k ≤ n ∧ w_files w' !! fd = Some f' ∧
    f_sent f' = f_sent f ++ take (Z.to_nat (k - tot)) (drop (Z.to_nat tot) (w_buf w)) ∧
    (∀ r, res = Some r → r = -1 ∨ r = k) ∧
    w_buf w' = w_buf w ∧ w_err w' = w_err w ∧ w_addrlists w' = w_addrlists w ∧
    w_ss w' = w_ss w ∧
    (∀ fd', fd' ≠ fd → w_files w' !! fd' = w_files w !! fd').
Proof.
  unfold INT_MAX.
  induction fuel as [|fuel IH]; intros tot w f Htot Hmax Hf; cbn.
  - exists (if tot =? n then Some tot else None), w, f, tot.
    split; [by destruct (tot =? n)|]. split_and!; stop_tac.
    intros r. destruct (tot =? n); intros [=]. by right.
  - destruct (Z.eqb_spec tot n) as [->|Hne].
    { exists (Some n), w, f, n. split_and!; stop_tac. }
    unfold mbind, sys_mbind.
    rewrite to_int_id, to_size_t_id by lia.
    destruct (sys_write_sent fd tot (n - tot) w f)
      as (r & w1 & f1 & -> & Hr & Hf1 & Hsent & Hb & He & Ha & Hs); [lia..|done|].
    rewrite to_int_id by lia.
    assert (Hlook1 : w_files w1 !! fd = Some f1) by (rewrite Hf1; apply lookup_insert_eq).
    assert (Hoth1 : ∀ fd', fd' ≠ fd → w_files w1 !! fd' = w_files w !! fd').
    { intros fd' Hne'. rewrite Hf1. by apply lookup_insert_ne. }
    destruct (Z.eqb_spec r 0) as [->|Hr0].
    { exists (Some tot), w1, f1, tot. split_and!; stop_tac. }
    destruct (Z.eqb_spec r (-1)) as [->|Hr1].
    { exists (Some (-1)), w1, f1, tot. split_and!; stop_tac. }
    rewrite to_int_id by lia.
    destruct (IH (tot + r) w1 f1) as (res & w' & f' & k & -> & Hk & Hf' & Hsent' & Hres &
                                      Hb' & He' & Ha' & Hs' & Hoth'); [lia..|done|].
    exists res, w', f', k. split_and!; try done; try congruence; try lia.
    + rewrite Hsent', Hsent, Hb, <- app_assoc. f_equal.
      replace (Z.to_nat (tot + r)) with (Z.to_nat tot + Z.to_nat r)%nat by lia.
      rewrite <- drop_drop, take_take_drop. f_equal. lia.
    + intros fd' Hne'. by rewrite Hoth', Hoth1.
Qed.

End buffers.

Lemma drop_splice_at_0 {A} (src l : list A) (n : nat) :
  (length src ≤ n)%nat → drop n (splice_at 0 src l) = drop n l.
Proof.
  intros Hn. unfold splice_at. rewrite take_0, Nat.add_0_l. cbn.
  rewrite drop_app_ge by done. rewrite drop_drop. f_equal. lia.
Qed.

(** X10. [anetRead(fd, buf, count)] with [0 <= count] and a buffer of at
    least [count] bytes stays inside the buffer whatever the descriptor
    does: the buffer keeps its length and the bytes from position [count]
    on are as before; when the call returns a count [r >= 0] only the
    first [r] bytes can have changed.  Nothing else is touched: neither
    the sink, the slot or an address list, nor any other descriptor, and
    no descriptor is opened or closed. *)
Theorem anetRead_buffer_bound `{Platform} fuel fd n w :
  0 ≤ n ≤ INT_MAX → n ≤ Z.of_nat (length (w_buf w)) →
  ∃ res w', anetRead fuel fd n w = (res, w') ∧
    length (w_buf w') = length (w_buf w) ∧
    drop (Z.to_nat n) (w_buf w') = drop (Z.to_nat n) (w_buf w) ∧
    (∀ r, res = Some r → 0 ≤ r →
          drop (Z.to_nat r) (w_buf w') = drop (Z.to_nat r) (w_buf w)) ∧
    w_err w' = w_err w ∧ w_ss w' = w_ss w ∧ w_addrlists w' = w_addrlists w ∧
    dom (w_files w') = dom (w_files w) ∧
    (∀ fd', fd' ≠ fd → w_files w' !! fd' = w_files w !! fd').
Proof.
  intros Hn Hbuf. unfold anetRead.
  destruct (anetRead_loop_buf fd n fuel 0 w)
    as (res & w' & k & src & -> & Hk & Hlen & Hb & Hres & He & Ha & Hs & Hdom & Hoth);
    [lia..|].
  rewrite Z.sub_0_r in Hlen. change (Z.to_nat 0) with 0%nat in Hb.
  exists res, w'. split_and!; try done.
  - rewrite Hb. apply length_splice_at. lia.
  - rewrite Hb. apply drop_splice_at_0. lia.
  - intros r Hr Hr0. destruct (Hres r Hr) as [->| ->]; [lia|].
    rewrite Hb. apply drop_splice_at_0. lia.
Qed.

Lemma anetRead_buffer_bound_witness :
  let w := Examples.pipe_world in
  0 ≤ 12 ≤ INT_MAX ∧ 12 ≤ Z.of_nat (length (w_buf w)) ∧
  ∃ res w', anetRead 12 3 12 w = (res, w') ∧
    length (w_buf w') = length (w_buf w) ∧
    drop (Z.to_nat 12) (w_buf w') = drop (Z.to_nat 12) (w_buf w) ∧
    (∀ r, res = Some r → 0 ≤ r →
          drop (Z.to_nat r) (w_buf w') = drop (Z.to_nat r) (w_buf w)) ∧
    w_err w' = w_err w ∧ w_ss w' = w_ss w ∧ w_addrlists w' = w_addrlists w ∧
    dom (w_files w') = dom (w_files w) ∧
    (∀ fd', fd' ≠ 3 → w_files w' !! fd' = w_files w !! fd').
Proof.
  intros w.
  assert (H1 : 0 ≤ 12 ≤ INT_MAX) by (unfold INT_MAX; lia).
  assert (H2 : 12 ≤ Z.of_nat (length (w_buf w))) by (vm_compute; discriminate).
  exact (conj H1 (conj H2 (anetRead_buffer_bound 12 3 12 w H1 H2))).
Defined.

(** X11. [anetWrite(fd, buf, count)] with [0 <= count] on an open
    descriptor hands the kernel a prefix of the buffer, in order and
    without gaps or repetition: what the descriptor has taken after the
    call is what it had taken before followed by the first [k] bytes of the
    buffer, for some [k <= count].  The call returns that [k], or -1 when a
    write failed (the [k] bytes taken before the failure are then not
    reported).  The buffer, the sink and the other descriptors are not
    touched. *)
Theorem anetWrite_sends_prefix `{Platform} fuel fd n w f :
  w_files w !! fd = Some f → 0 ≤ n ≤ INT_MAX →
  ∃ res w' f' k, anetWrite fuel fd n w = (res, w') ∧ 0 ≤ k ≤ n ∧
    w_files w' !! fd = Some f' ∧
    f_sent f' = f_sent f ++ take (Z.to_nat k) (w_buf w) ∧
    (∀ r, res = Some r → r = -1 ∨ r = k) ∧
    w_buf w' = w_buf w ∧ w_err w' = w_err w ∧
    (∀ fd', fd' ≠ fd → w_files w' !! fd' = w_files w !! fd').
Proof.
  intros Hf Hn. unfold anetWrite.
  destruct (anetWrite_loop_sent fd n fuel 0 w f)
    as (res & w' & f' & k & -> & Hk & Hf' & Hsent & Hres & Hb & He & Ha & Hs & Hoth);
    [lia..|done|].
  rewrite Z.sub_0_r in Hsent. change (Z.to_nat 0) with 0%nat in Hsent.
  rewrite drop_0 in Hsent.
  exists res, w', f', k. split_and!; try done; lia.
Qed.

Lemma anetWrite_sends_prefix_witness :
  let w := Examples.slow_peer_world in
  w_files w !! 3 = Some (set_tx [WrRoom 4; WrRoom 6; WrRoom 0] [] (new_socket 0)) ∧
  0 ≤ 16 ≤ INT_MAX ∧
  ∃ res w' f' k, anetWrite 16 3 16 w = (res, w') ∧ 0 ≤ k ≤ 16 ∧
    w_files w' !! 3 = Some f' ∧
    f_sent f' = f_sent (set_tx [WrRoom 4; WrRoom 6; WrRoom 0] [] (new_socket 0)) ++
                take (Z.to_nat k) (w_buf w) ∧
    (∀ r, res = Some r → r = -1 ∨ r = k) ∧
    w_buf w' = w_buf w ∧ w_err w' = w_err w ∧
    (∀ fd', fd' ≠ 3 → w_files w' !! fd' = w_files w !! fd').
Proof.
  intros w.
  assert (H1 : w_files w !! 3
               = Some (set_tx [WrRoom 4; WrRoom 6; WrRoom 0] [] (new_socket 0)))
    by (vm_compute; reflexivity).
  assert (H2 : 0 ≤ 16 ≤ INT_MAX) by (unfold INT_MAX; lia).
  exact (conj H1 (conj H2 (anetWrite_sends_prefix 16 3 16 w _ H1 H2))).
Defined.

(** ** Edges of the server *)

(** X18. [anetTcpServer] with no room in the array ([nfds <= 0]) makes no
    socket call at all: it resolves the name, releases the list and
    returns ERR.  The descriptor table, the array and the address lists
    are as before, and when the name did resolve the sink is not written
    although the result is ERR. *)
Theorem anetTcpServer_no_room `{Platform} err service bindaddr nfds w :
  nfds ≤ 0 →
  ∃ w' tr, anetTcpServer err service bindaddr nfds w = (ANET_ERR, w') ∧
    w_log w' = rev tr ++ w_log w ∧
    w_files w' = w_files w ∧ w_fds w' = w_fds w ∧ w_addrlists w' = w_addrlists w ∧
    match w_resolver w bindaddr service AI_PASSIVE with
    | inr _ => (∃ h, tr = [EvGetaddrinfo 0; EvFreeaddrinfo h]) ∧ w_err w' = w_err w
    | inl code => ∃ msg, tr = [EvGetaddrinfo (Z.neg code); EvSetError err msg]
    end.
Proof.
  intros Hn. unfold anetTcpServer. rewrite bind_eq. unfold sys_getaddrinfo.
  destruct (w_resolver w bindaddr service AI_PASSIVE) as [code|cands]; cbn.
  - rewrite bind_eq.
    destruct (anetSetError_spec err
      ("can't resolve " +:+ fmt_s bindaddr +:+ ": " +:+ gai_strerror (Z.neg code))
      (add_log (EvGetaddrinfo (Z.neg code)) w))
      as (w1 & -> & Hl & Hf & Ha & He & Hs & Hd & Hr).
    cbn in *. eexists w1, [_; _]. split_and!; try done.
    + by rewrite Hl.
    + by eexists.
  - set (h := fresh (dom (w_addrlists w))).
    assert (Hloop : anetTcpServer_loop err nfds h cands 0
              = (sys_freeaddrinfo h;; mret ANET_ERR)).
    { destruct cands as [|ai p]; cbn; [done|].
      destruct (Z.ltb_spec 0 nfds); [lia|done]. }
    rewrite Hloop, bind_eq, sys_freeaddrinfo_eq. cbn.
    eexists _, [_; _]. split_and!; try done.
    + cbn. apply delete_insert_id, fresh_addrlist.
    + by eexists.
Qed.

Lemma anetTcpServer_no_room_witness :
  let w := Examples.server_world in
  0 ≤ 0 ∧
  ∃ w' tr, anetTcpServer true "30005" None 0 w = (ANET_ERR, w') ∧
    w_log w' = rev tr ++ w_log w ∧
    w_files w' = w_files w ∧ w_fds w' = w_fds w ∧ w_addrlists w' = w_addrlists w ∧
    match w_resolver w None "30005" AI_PASSIVE with
    | inr _ => (∃ h, tr = [EvGetaddrinfo 0; EvFreeaddrinfo h]) ∧ w_err w' = w_err w
    | inl code => ∃ msg, tr = [EvGetaddrinfo (Z.neg code); EvSetError true msg]
    end.
Proof.
  intros w.
  assert (H1 : 0 ≤ 0) by lia.
  exact (conj H1 (anetTcpServer_no_room true "30005" None 0 w H1)).
Defined.

(** ** A negative count *)

Lemma sys_read_log fd off k w :
  w_log (sys_read fd off k w).2 = EvRead fd k (sys_read fd off k w).1 :: w_log w.
Proof.
  unfold sys_read. sys_simpl.
  destruct (w_files w !! fd) as [f|]; cbn; [destruct (f_rx f) as [|[bs|e] rest]|]; done.
Qed.

Lemma sys_write_log fd off k w :
  w_log (sys_write fd off k w).2 = EvWrite fd k (sys_write fd off k w).1 :: w_log w.
Proof.
  unfold sys_write. sys_simpl.
  destruct (w_files w !! fd) as [f|]; cbn; [destruct (f_tx f) as [|[c|e] rest]|]; done.
Qed.

Section negative.
Context `{Platform}.

Lemma to_size_t_negative n :
  - 2 ^ 31 ≤ n < 0 → to_size_t n = 2 ^ (8 * sizeof_ptr) + n.
Proof.
  intros Hn. unfold to_size_t. pose proof sizeof_ptr_min.
  assert (2 ^ 32 ≤ 2 ^ (8 * sizeof_ptr)) by (apply Z.pow_le_mono_r; lia).
  rewrite <- (Z.mod_add n 1) by lia. rewrite Z.mod_small; lia.
Qed.

Lemma anetRead_loop_log fd n fuel : ∀ off tot w,
  ∃ tr, w_log (anetRead_loop fuel fd off n tot w).2 = rev tr ++ w_log w.
Proof.
  induction fuel as [|fuel IH]; intros off tot w; cbn.
  - exists []. by destruct (tot =? n).
  - destruct (tot =? n); [by exists []|].
    rewrite bind_eq. pose proof (sys_read_log fd off (to_size_t (to_int (n - tot))) w) as Hl.
    destruct (sys_read fd off (to_size_t (to_int (n - tot))) w) as [r w1]. cbn in Hl.
    destruct (to_int r =? 0); [by exists [EvRead fd (to_size_t (to_int (n - tot))) r]|].
    destruct (to_int r =? -1); [by exists [EvRead fd (to_size_t (to_int (n - tot))) r]|].
    destruct (IH (off + to_int r) (to_int (tot + to_int r)) w1) as (tr & Htr).
    exists (EvRead fd (to_size_t (to_int (n - tot))) r :: tr).
    rewrite Htr, Hl. cbn. by rewrite <- app_assoc.
Qed.

Lemma anetWrite_loop_log fd n fuel : ∀ off tot w,
  ∃ tr, w_log (anetWrite_loop fuel fd off n tot w).2 = rev tr ++ w_log w.
Proof.
  induction fuel as [|fuel IH]; intros off tot w; cbn.
  - exists []. by destruct (tot =? n).
  - destruct (tot =? n); [by exists []|].
    rewrite bind_eq. pose proof (sys_write_log fd off (to_size_t (to_int (n - tot))) w) as Hl.
    destruct (sys_write fd off (to_size_t (to_int (n - tot))) w) as [r w1]. cbn in Hl.
    destruct (to_int r =? 0); [by exists [EvWrite fd (to_size_t (to_int (n - tot))) r]|].
    destruct (to_int r =? -1); [by exists [EvWrite fd (to_size_t (to_int (n - tot))) r]|].
    destruct (IH (off + to_int r) (to_int (tot + to_int r)) w1) as (tr & Htr).
    exists (EvWrite fd (to_size_t (to_int (n - tot))) r :: tr).
    rewrite Htr, Hl. cbn. by rewrite <- app_assoc.
Qed.

End negative.

(** X19. A negative [count] is not rejected by [anetRead] and [anetWrite]:
    the loop is entered, and the first [read] or [write] is asked for
    [count] converted to [size_t], that is [2^(8*sizeof_ptr) + count]
    bytes, far more than any buffer holds. *)
Theorem anetRead_anetWrite_negative_count `{Platform} fuel fd n w :
  - 2 ^ 31 ≤ n < 0 →
  (∃ tr r, w_log (anetRead (S fuel) fd n w).2
             = rev (EvRead fd (2 ^ (8 * sizeof_ptr) + n) r :: tr) ++ w_log w) ∧
  (∃ tr r, w_log (anetWrite (S fuel) fd n w).2
             = rev (EvWrite fd (2 ^ (8 * sizeof_ptr) + n) r :: tr) ++ w_log w).
Proof.
  intros Hn. unfold anetRead, anetWrite. cbn [anetRead_loop anetWrite_loop].
  destruct (Z.eqb_spec 0 n) as [?|_]; [lia|].
  rewrite !bind_eq, Z.sub_0_r, to_int_id, to_size_t_negative by lia.
  set (k := 2 ^ (8 * sizeof_ptr) + n). split.
  - pose proof (sys_read_log fd 0 k w) as Hl.
    destruct (sys_read fd 0 k w) as [r w1]. cbn in Hl.
    destruct (to_int r =? 0); [by exists [], r|].
    destruct (to_int r =? -1); [by exists [], r|].
    destruct (anetRead_loop_log fd n fuel (0 + to_int r) (to_int (0 + to_int r)) w1)
      as (tr & Htr).
    exists tr, r. rewrite Htr, Hl. cbn. by rewrite <- app_assoc.
  - pose proof (sys_write_log fd 0 k w) as Hl.
    destruct (sys_write fd 0 k w) as [r w1]. cbn in Hl.
    destruct (to_int r =? 0); [by exists [], r|].
    destruct (to_int r =? -1); [by exists [], r|].
    destruct (anetWrite_loop_log fd n fuel (0 + to_int r) (to_int (0 + to_int r)) w1)
      as (tr & Htr).
    exists tr, r. rewrite Htr, Hl. cbn. by rewrite <- app_assoc.
Qed.

Lemma anetRead_anetWrite_negative_count_witness :
  let w := Examples.pipe_world in
  - 2 ^ 31 ≤ -1 < 0 ∧
  (∃ tr r, w_log (anetRead 1 3 (-1) w).2
             = rev (EvRead 3 (2 ^ (8 * sizeof_ptr) + -1) r :: tr) ++ w_log w) ∧
  (∃ tr r, w_log (anetWrite 1 3 (-1) w).2
             = rev (EvWrite 3 (2 ^ (8 * sizeof_ptr) + -1) r :: tr) ++ w_log w).
Proof.
  intros w.
  assert (H1 : - 2 ^ 31 ≤ -1 < 0) by lia.
  exact (conj H1 (anetRead_anetWrite_negative_count 0 3 (-1) w H1)).
Defined.

(** ** The size of the sink *)

Section sink_size.
Context `{Platform}.

Lemma run_op_sink_post fuel err o w :
  enough_fuel o w fuel →
  ∃ r w' tr, run_op fuel err o w = (Some r, w') ∧ sink_post w w' tr.
Proof.
  intros Hfuel.
  assert (∀ (m : sys Z),
    (∃ r w' tr, m w = (r, w') ∧ sink_post w w' tr) →
    ∃ r w' tr, returning m w = (Some r, w') ∧ sink_post w w' tr) as Hret.
  { intros m (r & w' & tr & Hm & Hpost). exists r, w', tr. split; [|done].
    unfold returning. by rewrite bind_eq, Hm. }
  destruct o; cbn [run_op]; cbn in Hfuel.
  - apply Hret. destruct (anetNonBlock_sink err fd w) as (r & w' & tr & Hm & Hpost & _).
    by exists r, w', tr.
  - apply Hret.
    destruct (setsockopt_sink err fd IPPROTO_TCP TCP_NODELAY 1
                "setsockopt TCP_NODELAY: " w) as (r & w' & tr & Hm & Hpost & _).
    by exists r, w', tr.
  - apply Hret.
    destruct (setsockopt_sink err fd SOL_SOCKET SO_SNDBUF buffsize
                "setsockopt SO_SNDBUF: " w) as (r & w' & tr & Hm & Hpost & _).
    by exists r, w', tr.
  - apply Hret.
    destruct (setsockopt_sink err fd SOL_SOCKET SO_KEEPALIVE 1
                "setsockopt SO_KEEPALIVE: " w) as (r & w' & tr & Hm & Hpost & _).
    by exists r, w', tr.
  - apply Hret.
    destruct (anetGetaddrinfo_sink err addr service w) as (r & w' & tr & Hm & Hpost & _).
    exists r.1, w', tr. split; [|done]. by rewrite bind_eq, Hm.
  - apply Hret.
    destruct (anetTcpGenericConnect_sink err addr service ANET_CONNECT_NONE ss w)
      as (r & w' & tr & Hm & Hpost & _).
    by exists r, w', tr.
  - apply Hret.
    destruct (anetTcpGenericConnect_sink err addr service ANET_CONNECT_NONBLOCK ss w)
      as (r & w' & tr & Hm & Hpost & _).
    by exists r, w', tr.
  - apply Hret.
    destruct (anetTcpNonBlockConnectAddr_sink err p ss w) as (r & w' & tr & Hm & Hpost & _).
    by exists r, w', tr.
  - apply Hret.
    destruct (anetTcpServer_sink err service bindaddr nfds w)
      as (r & w' & tr & Hm & Hpost & _).
    by exists r, w', tr.
  - destruct (anetTcpAccept_sink err s ss fuel w Hfuel) as (r & w' & tr & Hm & Hpost & _).
    by exists r, w', tr.
Qed.

End sink_size.

(** X20. No operation overruns the sink: after any of the ten operations
    that take one, the sink either holds what it held before the call or
    a text of fewer than [ANET_ERR_LEN] characters, so that the text and
    its terminator fit the [ANET_ERR_LEN] bytes the caller provides,
    however long the host name or the system's message is. *)
Theorem sink_within_bounds `{Platform} fuel err o w :
  enough_fuel o w fuel →
  ∃ r w', run_op fuel err o w = (Some r, w') ∧
    (w_err w' = w_err w ∨ Z.of_nat (String.length (w_err w')) < ANET_ERR_LEN).
Proof.
  intros Hfuel.
  destruct (run_op_sink_post fuel err o w Hfuel) as (r & w' & tr & Hrun & _ & He & _).
  exists r, w'. split; [done|]. rewrite sink_after_last in He. rewrite He.
  destruct (last (reports tr)) as [msg|]; [right|by left]. apply cut_length.
Qed.

Lemma sink_within_bounds_witness :
  let o := OpTcpConnect (Some "host") "80" false in
  let w := Examples.fallback_world in
  enough_fuel o w 0 ∧
  ∃ r w', run_op 0 true o w = (Some r, w') ∧
    (w_err w' = w_err w ∨ Z.of_nat (String.length (w_err w')) < ANET_ERR_LEN).
Proof.
  intros o w.
  assert (H1 : enough_fuel o w 0) by exact I.
  exact (conj H1 (sink_within_bounds 0 true o w H1)).
Defined.

(** ** The block of [anetAddrStrdup] *)

(** X21. [anetAddrStrdup(res)] always returns a block that was not
    allocated before, never NULL, and changes nothing but the heap (and
    [errno]): the descriptors, the sink, the slot and the log are as
    before.  The block has [INET_ADDRSTRLEN] bytes for an IPv4 address,
    [INET6_ADDRSTRLEN] for an IPv6 address and the 15 bytes of
    [NOT_AN_ADDRESS] otherwise.  The result of [inet_ntop] is not looked
    at: when the conversion fails the block is returned all the same, with
    nothing written to it. *)
Theorem anetAddrStrdup_block `{Platform} (res : option sockaddr) (w : World) :
  ∃ p w', anetAddrStrdup res w = (p, w') ∧
    p ≠ 0 ∧ w_heap w !! p = None ∧
    w_heap w' =
      <[p := (if has_family res AF_INET then INET_ADDRSTRLEN
              else if has_family res AF_INET6 then INET6_ADDRSTRLEN
              else 15,
              presentation res)]> (w_heap w) ∧
    w_files w' = w_files w ∧ w_err w' = w_err w ∧ w_ss w' = w_ss w ∧
    w_log w' = w_log w.
Proof.
  unfold anetAddrStrdup.
  destruct (fresh_key_spec 1 (w_heap w)) as [Hge Hnone].
  assert (fresh_key 1 (w_heap w) ≠ 0) as Hnz by lia.
  destruct res as [sa|]; cbn.
  - destruct (sa_family sa =? AF_INET).
    + unfold sys_malloc, sys_inet_ntop. sys_simpl.
      destruct (inet_ntop AF_INET (sin_addr sa) INET_ADDRSTRLEN) as [text|]; cbn.
      * rewrite lookup_insert_eq. cbn.
        eexists _, _. split; [reflexivity|]. cbn. split_and!; try done.
        by rewrite insert_insert_eq.
      * eexists _, _. split; [reflexivity|]. cbn. by split_and!.
    + destruct (sa_family sa =? AF_INET6).
      * unfold sys_malloc, sys_inet_ntop. sys_simpl.
        destruct (inet_ntop AF_INET6 (sin6_addr sa) INET6_ADDRSTRLEN) as [text|]; cbn.
        -- rewrite lookup_insert_eq. cbn.
           eexists _, _. split; [reflexivity|]. cbn. split_and!; try done.
           by rewrite insert_insert_eq.
        -- eexists _, _. split; [reflexivity|]. cbn. by split_and!.
      * unfold sys_strdup. sys_simpl.
        eexists _, _. split; [reflexivity|]. cbn. by split_and!.
  - unfold sys_strdup. sys_simpl.
    eexists _, _. split; [reflexivity|]. cbn. by split_and!.
Qed.

(** ** The listeners of [anetTcpServer] *)

Section listeners.
Context `{Platform}.

Lemma anetListen_cases err s sa len w f :
  w_files w !! s = Some f →
  ∃ r w' (v6only : bool), anetListen err s sa len w = (r, w') ∧
    w_addrlists w' = w_addrlists w ∧ w_ss w' = w_ss w ∧ w_fds w' = w_fds w ∧
    (v6only = true → sa_family sa = AF_INET6) ∧
    ((r = ANET_OK ∧ w_err w' = w_err w ∧
      w_files w' =
        <[s := set_backlog 511
                 (set_bound sa
                    (if v6only then add_opt (IPPROTO_IPV6, IPV6_V6ONLY, 1) f else f))]>
          (w_files w)) ∨
     (r = ANET_ERR ∧ w_files w' = delete s (w_files w))).
Proof.
  intros Hf. unfold anetListen. rewrite bind_eq.
  assert (∃ w0 (v6only : bool),
            (if sa_family sa =? AF_INET6
             then sys_setsockopt s IPPROTO_IPV6 IPV6_V6ONLY 1;; mret ()
             else mret ()) w = (tt, w0) ∧
            w_err w0 = w_err w ∧ w_fds w0 = w_fds w ∧ w_addrlists w0 = w_addrlists w ∧
            w_ss w0 = w_ss w ∧
            (v6only = true → sa_family sa = AF_INET6) ∧
            w_files w0 =
              <[s := if v6only then add_opt (IPPROTO_IPV6, IPV6_V6ONLY, 1) f else f]>
                (w_files w))
    as (w0 & v6only & -> & He0 & Hd0 & Ha0 & Hs0 & Hv6 & Hf0).
  { destruct (Z.eqb_spec (sa_family sa) AF_INET6) as [Hfam|Hfam].
    - rewrite bind_eq.
      destruct (sys_setsockopt_spec s IPPROTO_IPV6 IPV6_V6ONLY 1 w)
        as (r & w1 & -> & [[-> Hfr]|(f1 & Hf1 & -> & Hfr)]);
        destruct Hfr as (Hl1 & Hf1' & Ha1 & He1 & Hs1 & Hd1 & Hr1).
      + exists w1, false. split_and!; try done. rewrite Hf1'. symmetry. by apply insert_id.
      + exists w1, true. split_and!; try done. rewrite Hf1'. rewrite Hf in Hf1.
        by injection Hf1 as <-.
    - exists w, false. split_and!; try done. symmetry. by apply insert_id. }
  set (f0 := if v6only then add_opt (IPPROTO_IPV6, IPV6_V6ONLY, 1) f else f) in *.
  rewrite bind_eq.
  destruct (sys_bind_spec s sa len w0) as (b & w1 & -> & [[-> Hfr]|(f1 & Hf1 & -> & Hfr)]);
    destruct Hfr as (Hl1 & Hf1' & Ha1 & He1 & Hs1 & Hd1 & Hr1).
  - cbn. rewrite bind_eq. unfold errno. rewrite bind_eq.
    destruct (anetSetError_spec err ("bind: " +:+ strerror (w_errno w1)) w1)
      as (w2 & -> & Hl2 & Hf2 & Ha2 & He2 & Hs2 & Hd2 & Hr2). rewrite bind_eq.
    destruct (sys_close_spec s w2) as (c & w3 & -> & Hfr3). cbn.
    destruct Hfr3 as (Hl3 & Hf3 & Ha3 & He3 & Hs3 & Hd3 & Hr3).
    exists ANET_ERR, w3, v6only. split_and!; try done; try congruence. right. split; [done|].
    by rewrite Hf3, Hf2, Hf1', Hf0, delete_insert_eq.
  - rewrite Hf0, lookup_insert_eq in Hf1. injection Hf1 as <-.
    rewrite Hf0, insert_insert_eq in Hf1'. cbn. rewrite bind_eq.
    destruct (sys_listen_spec s 511 w1) as (l & w2 & -> & [[-> Hfr]|(f2 & Hf2 & -> & Hfr)]);
      destruct Hfr as (Hl2 & Hf2' & Ha2 & He2 & Hs2 & Hd2 & Hr2).
    + cbn. rewrite bind_eq. unfold errno. rewrite bind_eq.
      destruct (anetSetError_spec err ("listen: " +:+ strerror (w_errno w2)) w2)
        as (w3 & -> & Hl3 & Hf3 & Ha3 & He3 & Hs3 & Hd3 & Hr3). rewrite bind_eq.
      destruct (sys_close_spec s w3) as (c & w4 & -> & Hfr4). cbn.
      destruct Hfr4 as (Hl4 & Hf4 & Ha4 & He4 & Hs4 & Hd4 & Hr4).
      exists ANET_ERR, w4, v6only. split_and!; try done; try congruence. right. split; [done|].
      by rewrite Hf4, Hf3, Hf2', Hf1', delete_insert_eq.
    + rewrite Hf1', lookup_insert_eq in Hf2. injection Hf2 as <-.
      rewrite Hf1', insert_insert_eq in Hf2'. cbn.
      exists ANET_OK, w2, v6only. split_and!; try done; try congruence. left.
      split_and!; try congruence. exact Hf2'.
Qed.

Lemma anetTcpServer_loop_state err nfds h p : ∀ i w,
  0 ≤ i → nfds ≤ Z.of_nat (length (w_fds w)) →
  ∃ r w' won, anetTcpServer_loop err nfds h p i w = (r, w') ∧
    w_files w ⊆ w_files w' ∧
    w_fds w' = take (Z.to_nat i) (w_fds w) ++ map fst won ++
               drop (Z.to_nat i + length won) (w_fds w) ∧
    Forall (listener_of w') won ∧
    Forall (λ sa, w_files w !! sa.1 = None ∧ sa.2 ∈ p) won ∧
    r = (if 0 <? i + Z.of_nat (length won)
         then i + Z.of_nat (length won) else ANET_ERR).
Proof.
  induction p as [|ai p IH]; intros i w Hi Hcap.
  - cbn. rewrite bind_eq, sys_freeaddrinfo_eq. cbn.
    eexists _, _, []. split; [reflexivity|]. cbn.
    rewrite Nat.add_0_r, take_drop, Z.add_0_r. by split_and!.
  - cbn [anetTcpServer_loop]. destruct (Z.ltb_spec i nfds) as [Hlt|Hge].
    2:{ rewrite bind_eq, sys_freeaddrinfo_eq. cbn.
        eexists _, _, []. split; [reflexivity|]. cbn.
        rewrite Nat.add_0_r, take_drop, Z.add_0_r. by split_and!. }
    rewrite bind_eq.
    destruct (anetCreateSocket_cases err (ai_family ai) w)
      as (s & w1 & tr1 & -> & Hl1 & Hc1 & Ha1 & Hs1 & Hd1 & Hr1 & Hsub1 & Hcase1).
    destruct Hcase1 as [(Hs & Hcl1 & He1 & Hnone & Hf1)|(-> & Hex1)].
    2:{ cbn. destruct (IH i w1 Hi) as (r & w' & won & -> & Hsub & Hfds & Hlis & Hfresh & ->);
          [by rewrite Hd1|].
        eexists _, w', won. split; [reflexivity|]. split_and!; try done.
        - by etrans.
        - by rewrite Hfds, Hd1.
        - eapply Forall_impl; [exact Hfresh|]. intros sa [Hsa Hin]. cbn in Hsa.
          split; [by eapply lookup_weaken_None|by apply elem_of_cons; right]. }
    destruct (Z.eqb_spec s ANET_ERR) as [->|_]; [unfold ANET_ERR in Hs; lia|].
    rewrite bind_eq.
    set (f0 := add_opt (SOL_SOCKET, SO_REUSEADDR, 1) (new_socket (ai_family ai))) in *.
    destruct (anetListen_cases err s (ai_addr ai) (ai_addrlen ai) w1 f0)
      as (l & w2 & v6only & -> & Ha2 & Hs2 & Hd2 & Hv6 & Hcase2).
    { by rewrite Hf1, lookup_insert_eq. }
    destruct Hcase2 as [(-> & He2 & Hf2)|(-> & Hf2)].
    + cbn. rewrite Hf1, insert_insert_eq in Hf2. rewrite bind_eq. unfold modify.
      set (w3 := set_fds (<[Z.to_nat i:=s]> (w_fds w2)) w2).
      destruct (IH (i + 1) w3) as (r & w' & won & -> & Hsub & Hfds & Hlis & Hfresh & ->);
        [lia|by cbn; rewrite length_insert, Hd2, Hd1|].
      cbn in Hsub, Hfds, Hfresh.
      eexists _, w', ((s, ai) :: won). split; [reflexivity|]. cbn [length map fst snd].
      replace (i + Z.of_nat (S (length won))) with (i + 1 + Z.of_nat (length won)) by lia.
      split_and!; try done.
      * etrans; [|exact Hsub]. rewrite Hf2. by apply insert_subseteq.
      * rewrite Hfds, Hd2, Hd1.
        replace (Z.to_nat (i + 1)) with (S (Z.to_nat i)) by lia.
        apply store_next. lia.
      * constructor; [|done]. exists v6only. split; [done|]. cbn.
        eapply lookup_weaken; [|exact Hsub]. by rewrite Hf2, lookup_insert_eq.
      * constructor; [split; [done|by apply elem_of_cons; left]|].
        eapply Forall_impl; [exact Hfresh|]. intros sa [Hsa Hin]. cbn in Hsa.
        split; [|by apply elem_of_cons; right].
        eapply lookup_weaken_None; [exact Hsa|]. rewrite Hf2. by apply insert_subseteq.
    + cbn. rewrite Hf1, delete_insert_id in Hf2 by done.
      destruct (IH i w2 Hi) as (r & w' & won & -> & Hsub & Hfds & Hlis & Hfresh & ->);
        [by rewrite Hd2, Hd1|].
      eexists _, w', won. split; [reflexivity|]. split_and!; try done.
      * by rewrite <- Hf2.
      * by rewrite Hfds, Hd2, Hd1.
      * eapply Forall_impl; [exact Hfresh|]. intros sa [Hsa Hin].
        split; [by rewrite <- Hf2|by apply elem_of_cons; right].
Qed.

End listeners.

(** X22. The listeners [anetTcpServer] stores in the caller's array are
    sockets it made during the call, each for one candidate: of the
    candidate's family, bound to its address, listening with a backlog of
    511, with [SO_REUSEADDR] set and still in blocking mode.  [IPV6_V6ONLY]
    is set on listeners for IPv6 addresses only, and a listener for an IPv6
    address is handed out without it when that [setsockopt] failed: its
    result is not looked at.  The result is the number of listeners, or ERR
    when there is none. *)
Theorem anetTcpServer_listener_state `{Platform} err service bindaddr nfds w cands :
  w_resolver w bindaddr service AI_PASSIVE = inr cands →
  nfds ≤ Z.of_nat (length (w_fds w)) →
  ∃ r w' won, anetTcpServer err service bindaddr nfds w = (r, w') ∧
    w_fds w' = map fst won ++ drop (length won) (w_fds w) ∧
    r = (if decide (won = []) then ANET_ERR else Z.of_nat (length won)) ∧
    Forall (λ sa, sa.2 ∈ cands ∧ w_files w !! sa.1 = None) won ∧
    Forall (λ sa, ∃ v6only : bool,
              (v6only = true → sa_family (ai_addr sa.2) = AF_INET6) ∧
              w_files w' !! sa.1 = Some (listener_socket sa.2 v6only) ∧
              f_opts (listener_socket sa.2 v6only) =
                (if v6only then [(IPPROTO_IPV6, IPV6_V6ONLY, 1)] else []) ++
                [(SOL_SOCKET, SO_REUSEADDR, 1)] ∧
              Z.testbit (f_status (listener_socket sa.2 v6only)) O_NONBLOCK_bit = false)
           won.
Proof.
  intros Hres Hcap. unfold anetTcpServer. rewrite bind_eq. unfold sys_getaddrinfo.
  rewrite Hres. cbn.
  set (h := fresh (dom (w_addrlists w))).
  destruct (anetTcpServer_loop_state err nfds h cands 0
              (add_log (EvGetaddrinfo 0) (set_addrlists <[h:=cands]> w)))
    as (r & w' & won & -> & Hsub & Hfds & Hlis & Hfresh & ->); [lia|done|].
  cbn in Hfds, Hfresh. exists (if 0 <? 0 + Z.of_nat (length won)
                               then 0 + Z.of_nat (length won) else ANET_ERR), w', won.
  split_and!; try done.
  - destruct won; cbn [length]; [done|]. case_decide; [done|].
    destruct (Z.ltb_spec 0 (0 + Z.of_nat (S (length won)))); lia.
  - eapply Forall_impl; [exact Hfresh|]. by intros sa [? ?].
  - eapply Forall_impl; [exact Hlis|]. intros sa (v6only & Hv6 & Hlook).
    exists v6only. split_and!; try done; by destruct v6only.
Qed.

Lemma anetTcpServer_listener_state_witness :
  let w := Examples.server_world in
  let cands := [Examples.cand_v6; Examples.cand_v4] in
  w_resolver w None "30005" AI_PASSIVE = inr cands ∧
  2 ≤ Z.of_nat (length (w_fds w)) ∧
  ∃ r w' won, anetTcpServer true "30005" None 2 w = (r, w') ∧
    w_fds w' = map fst won ++ drop (length won) (w_fds w) ∧
    r = (if decide (won = []) then ANET_ERR else Z.of_nat (length won)) ∧
    Forall (λ sa, sa.2 ∈ cands ∧ w_files w !! sa.1 = None) won ∧
    Forall (λ sa, ∃ v6only : bool,
              (v6only = true → sa_family (ai_addr sa.2) = AF_INET6) ∧
              w_files w' !! sa.1 = Some (listener_socket sa.2 v6only) ∧
              f_opts (listener_socket sa.2 v6only) =
                (if v6only then [(IPPROTO_IPV6, IPV6_V6ONLY, 1)] else []) ++
                [(SOL_SOCKET, SO_REUSEADDR, 1)] ∧
              Z.testbit (f_status (listener_socket sa.2 v6only)) O_NONBLOCK_bit = false)
           won.
Proof.
  intros w cands.
  assert (H1 : w_resolver w None "30005" AI_PASSIVE = inr cands) by reflexivity.
  assert (H2 : 2 ≤ Z.of_nat (length (w_fds w))) by (vm_compute; discriminate).
  exact (conj H1 (conj H2
    (anetTcpServer_listener_state true "30005" None 2 w cands H1 H2))).
Defined.

(** ** The sink does not steer the operations *)

Lemma blind_ret {A} (x : A) : sink_blind (mret x) (mret x).
Proof. by intros w1 w2 HR. Qed.

Lemma blind_bind {A B} (m1 m2 : sys A) (k1 k2 : A → sys B) :
  sink_blind m1 m2 → (∀ x, sink_blind (k1 x) (k2 x)) →
  sink_blind (m1 ≫= k1) (m2 ≫= k2).
Proof.
  intros Hm Hk w1 w2 HR. rewrite !bind_eq.
  destruct (Hm w1 w2 HR) as [Hx HR'].
  destruct (m1 w1) as [x1 w1'], (m2 w2) as [x2 w2']. cbn in Hx, HR'. subst x2.
  by apply Hk.
Qed.

Ltac blind_call :=
  unfold sink_blind, same_but_sink;
  intros [] [] (? & ? & ? & ? & ? & ? & ? & ? & ?); simplify_eq/=;
  sys_simpl; repeat (case_match; simplify_eq/=); by split_and!.

Lemma blind_errno : sink_blind errno errno.
Proof. blind_call. Qed.

Lemma blind_socket domain : sink_blind (sys_socket domain) (sys_socket domain).
Proof. unfold sys_socket. blind_call. Qed.

Lemma blind_setsockopt fd level optname val :
  sink_blind (sys_setsockopt fd level optname val) (sys_setsockopt fd level optname val).
Proof. unfold sys_setsockopt. blind_call. Qed.

Lemma blind_getfl fd : sink_blind (sys_fcntl_getfl fd) (sys_fcntl_getfl fd).
Proof. unfold sys_fcntl_getfl. blind_call. Qed.

Lemma blind_setfl fd flags : sink_blind (sys_fcntl_setfl fd flags) (sys_fcntl_setfl fd flags).
Proof. unfold sys_fcntl_setfl. blind_call. Qed.

Lemma blind_connect fd sa len : sink_blind (sys_connect fd sa len) (sys_connect fd sa len).
Proof. unfold sys_connect. blind_call. Qed.

Lemma blind_bind_call fd sa len : sink_blind (sys_bind fd sa len) (sys_bind fd sa len).
Proof. unfold sys_bind. blind_call. Qed.

Lemma blind_listen fd backlog : sink_blind (sys_listen fd backlog) (sys_listen fd backlog).
Proof. unfold sys_listen. blind_call. Qed.

Lemma blind_close fd : sink_blind (sys_close fd) (sys_close fd).
Proof. unfold sys_close. blind_call. Qed.

Lemma blind_accept fd sa len : sink_blind (sys_accept fd sa len) (sys_accept fd sa len).
Proof. unfold sys_accept, memcpy_ss. blind_call. Qed.

Lemma blind_getaddrinfo host service flags :
  sink_blind (sys_getaddrinfo host service flags) (sys_getaddrinfo host service flags).
Proof. unfold sys_getaddrinfo. blind_call. Qed.

Lemma blind_freeaddrinfo h : sink_blind (sys_freeaddrinfo h) (sys_freeaddrinfo h).
Proof. unfold sys_freeaddrinfo. blind_call. Qed.

Lemma blind_memcpy_ss src n : sink_blind (memcpy_ss src n) (memcpy_ss src n).
Proof. unfold memcpy_ss. blind_call. Qed.

Lemma blind_store (i : nat) (s : Z) :
  sink_blind (modify (λ w, set_fds (<[i := s]> (w_fds w)) w))
             (modify (λ w, set_fds (<[i := s]> (w_fds w)) w)).
Proof. blind_call. Qed.

Section blind.
Context `{Platform}.

(** The one place where the sink matters. *)
Lemma blind_anetSetError msg : sink_blind (anetSetError true msg) (anetSetError false msg).
Proof. unfold anetSetError. blind_call. Qed.


Ltac blind_step :=
  first
    [ apply blind_ret | apply blind_errno | apply blind_socket | apply blind_setsockopt
    | apply blind_getfl | apply blind_setfl | apply blind_connect | apply blind_bind_call
    | apply blind_listen | apply blind_close | apply blind_accept
    | apply blind_getaddrinfo | apply blind_freeaddrinfo | apply blind_memcpy_ss
    | apply blind_store | apply blind_anetSetError
    | assumption
    | apply blind_bind; [|intros ?]
    | match goal with
      | |- sink_blind (if ?b then _ else _) (if ?b then _ else _) => destruct b
      | |- sink_blind (let '(_, _) := ?x in _) (let '(_, _) := ?x in _) => destruct x
      | |- sink_blind (match ?x with _ => _ end) (match ?x with _ => _ end) => destruct x
      end ].

Ltac blind := repeat blind_step.

Lemma blind_anetNonBlock fd : sink_blind (anetNonBlock true fd) (anetNonBlock false fd).
Proof. unfold anetNonBlock. blind. Qed.

Lemma blind_anetTcpNoDelay fd : sink_blind (anetTcpNoDelay true fd) (anetTcpNoDelay false fd).
Proof. unfold anetTcpNoDelay. blind. Qed.

Lemma blind_anetSetSendBuffer fd n :
  sink_blind (anetSetSendBuffer true fd n) (anetSetSendBuffer false fd n).
Proof. unfold anetSetSendBuffer. blind. Qed.

Lemma blind_anetTcpKeepAlive fd :
  sink_blind (anetTcpKeepAlive true fd) (anetTcpKeepAlive false fd).
Proof. unfold anetTcpKeepAlive. blind. Qed.

Lemma blind_anetCreateSocket domain :
  sink_blind (anetCreateSocket true domain) (anetCreateSocket false domain).
Proof. unfold anetCreateSocket. blind. Qed.

Lemma blind_anetListen s sa len :
  sink_blind (anetListen true s sa len) (anetListen false s sa len).
Proof. unfold anetListen. blind. Qed.

Lemma blind_connect_loop flags ss h p :
  sink_blind (anetTcpGenericConnect_loop true flags ss h p)
             (anetTcpGenericConnect_loop false flags ss h p).
Proof.
  induction p as [|ai p IH]; cbn [anetTcpGenericConnect_loop]; [blind|].
  apply blind_bind; [apply blind_anetCreateSocket|intros s].
  destruct (s =? ANET_ERR); [done|].
  apply blind_bind.
  { destruct (negb (Z.land flags ANET_CONNECT_NONBLOCK =? 0));
      [apply blind_anetNonBlock|apply blind_ret]. }
  intros nb. blind.
Qed.

Lemma blind_anetTcpGenericConnect addr service flags ss :
  sink_blind (anetTcpGenericConnect true addr service flags ss)
             (anetTcpGenericConnect false addr service flags ss).
Proof.
  unfold anetTcpGenericConnect.
  apply blind_bind; [apply blind_getaddrinfo|intros [gai_error [h l]]].
  destruct (negb (gai_error =? 0)); [blind|apply blind_connect_loop].
Qed.

Lemma blind_anetGetaddrinfo addr service :
  sink_blind (anetGetaddrinfo true addr service) (anetGetaddrinfo false addr service).
Proof.
  unfold anetGetaddrinfo.
  apply blind_bind; [apply blind_getaddrinfo|intros [gai_error res]]. blind.
Qed.

Lemma blind_anetTcpNonBlockConnectAddr p ss :
  sink_blind (anetTcpNonBlockConnectAddr true p ss) (anetTcpNonBlockConnectAddr false p ss).
Proof.
  unfold anetTcpNonBlockConnectAddr.
  apply blind_bind; [apply blind_anetCreateSocket|intros s].
  destruct (s =? ANET_ERR); [blind|].
  apply blind_bind; [apply blind_anetNonBlock|intros nb]. blind.
Qed.

Lemma blind_server_loop nfds h p : ∀ i,
  sink_blind (anetTcpServer_loop true nfds h p i) (anetTcpServer_loop false nfds h p i).
Proof.
  induction p as [|ai p IH]; intros i; cbn [anetTcpServer_loop]; [blind|].
  destruct (i <? nfds); [|blind].
  apply blind_bind; [apply blind_anetCreateSocket|intros s].
  destruct (s =? ANET_ERR); [apply IH|].
  apply blind_bind; [apply blind_anetListen|intros l].
  destruct (l =? ANET_ERR); [apply IH|].
  apply blind_bind; [apply blind_store|intros _]. apply IH.
Qed.

Lemma blind_anetTcpServer service bindaddr nfds :
  sink_blind (anetTcpServer true service bindaddr nfds)
             (anetTcpServer false service bindaddr nfds).
Proof.
  unfold anetTcpServer.
  apply blind_bind; [apply blind_getaddrinfo|intros [gai_error [h l]]].
  destruct (negb (gai_error =? 0)); [blind|apply blind_server_loop].
Qed.

Lemma blind_anetGenericAccept fuel s sa len :
  sink_blind (anetGenericAccept fuel true s sa len) (anetGenericAccept fuel false s sa len).
Proof.
  induction fuel as [|fuel IH]; cbn [anetGenericAccept]; [blind|].
  apply blind_bind; [apply blind_accept|intros fd].
  destruct (fd =? -1); [|blind].
  apply blind_bind; [apply blind_errno|intros e].
  destruct (e =? EINTR); [apply IH|blind].
Qed.

Lemma blind_anetTcpAccept fuel s ss :
  sink_blind (anetTcpAccept fuel true s ss) (anetTcpAccept fuel false s ss).
Proof.
  unfold anetTcpAccept.
  apply blind_bind; [apply blind_anetGenericAccept|intros [fd|]]; blind.
Qed.

End blind.

(** X24. Whether a sink is passed changes nothing but the sink: each of
    the ten operations, run with a sink and run without one, returns the
    same result and leaves the same descriptors, address lists, slot,
    descriptor array, [errno] and pending outcomes behind. *)
Theorem sink_does_not_steer `{Platform} fuel o w :
  (run_op fuel true o w).1 = (run_op fuel false o w).1 ∧
  same_but_sink (run_op fuel true o w).2 (run_op fuel false o w).2.
Proof.
  assert (sink_blind (run_op fuel true o) (run_op fuel false o)) as Hb.
  { destruct o; cbn [run_op]; unfold returning;
      try (apply blind_bind; [|intros ?; apply blind_ret]).
    - apply blind_anetNonBlock.
    - apply blind_anetTcpNoDelay.
    - apply blind_anetSetSendBuffer.
    - apply blind_anetTcpKeepAlive.
    - apply blind_bind; [apply blind_anetGetaddrinfo|intros ?; apply blind_ret].
    - apply blind_anetTcpGenericConnect.
    - apply blind_anetTcpGenericConnect.
    - apply blind_anetTcpNonBlockConnectAddr.
    - apply blind_anetTcpServer.
    - apply blind_anetTcpAccept. }
  apply Hb. by split_and!.
Qed.

(** X23. [anetListen] on an open socket [s] either makes it a listener or
    closes it: after OK [s] is bound to the address and listens with a
    backlog of 511, its status flags are unchanged, [IPV6_V6ONLY] is the
    only option that can have been added, and only for an IPv6 address;
    after ERR (a failed [bind] or [listen]) [s] is no longer open, so the
    caller must not close it again.  No other descriptor changes, and the
    sink is not written on success even when setting [IPV6_V6ONLY]
    failed. *)
Theorem anetListen_listens_or_closes `{Platform} err s sa len w f :
  w_files w !! s = Some f →
  ∃ r w', anetListen err s sa len w = (r, w') ∧ (r = ANET_OK ∨ r = ANET_ERR) ∧
    (∀ fd, fd ≠ s → w_files w' !! fd = w_files w !! fd) ∧
    (r = ANET_ERR → w_files w' !! s = None) ∧
    (r = ANET_OK →
     w_err w' = w_err w ∧
     ∃ f', w_files w' !! s = Some f' ∧
       f_bound f' = Some sa ∧ f_backlog f' = Some 511 ∧
       f_status f' = f_status f ∧ f_domain f' = f_domain f ∧
       (f_opts f' = f_opts f ∨
        sa_family sa = AF_INET6 ∧
        f_opts f' = (IPPROTO_IPV6, IPV6_V6ONLY, 1) :: f_opts f)).
Proof.
  intros Hf.
  destruct (anetListen_cases err s sa len w f Hf)
    as (r & w' & v6only & Hrun & _ & _ & _ & Hv6 & Hcase).
  exists r, w'. split; [done|].
  destruct Hcase as [(-> & He & Hw)|(-> & Hw)].
  - split_and!; try done.
    + by left.
    + intros fd Hne. rewrite Hw. by apply lookup_insert_ne.
    + intros _. split; [done|]. eexists. split; [by rewrite Hw, lookup_insert_eq|].
      destruct v6only; cbn; split_and!; try done; [right|by left].
      split; [by apply Hv6|done].
  - split_and!; try done.
    + by right.
    + intros fd Hne. rewrite Hw. by apply lookup_delete_ne.
    + intros _. rewrite Hw. apply lookup_delete_eq.
Qed.

Lemma anetListen_listens_or_closes_witness :
  let w := Examples.refusing_world in
  w_files w !! 3 = Some (new_socket AF_INET6) ∧
  ∃ r w', anetListen true 3 Examples.sa_v6 28 w = (r, w') ∧
    (r = ANET_OK ∨ r = ANET_ERR) ∧
    (∀ fd, fd ≠ 3 → w_files w' !! fd = w_files w !! fd) ∧
    (r = ANET_ERR → w_files w' !! 3 = None) ∧
    (r = ANET_OK →
     w_err w' = w_err w ∧
     ∃ f', w_files w' !! 3 = Some f' ∧
       f_bound f' = Some Examples.sa_v6 ∧ f_backlog f' = Some 511 ∧
       f_status f' = f_status (new_socket AF_INET6) ∧
       f_domain f' = f_domain (new_socket AF_INET6) ∧
       (f_opts f' = f_opts (new_socket AF_INET6) ∨
        sa_family Examples.sa_v6 = AF_INET6 ∧
        f_opts f' = (IPPROTO_IPV6, IPV6_V6ONLY, 1) :: f_opts (new_socket AF_INET6))).
Proof.
  intros w.
  assert (H1 : w_files w !! 3 = Some (new_socket AF_INET6)) by (vm_compute; reflexivity).
  exact (conj H1 (anetListen_listens_or_closes true 3 Examples.sa_v6 28 w _ H1)).
Defined.

(** ** The message of [anetSetError] *)

Lemma substring_prefix (n : nat) (s : string) :
  ∃ rest, s = String.substring 0 n s +:+ rest.
Proof.
  revert s. induction n as [|n IH]; intros [|c s]; cbn; try by eexists.
  destruct (IH s) as (rest & Hrest). exists rest.
  change (String c s = String c (String.substring 0 n s +:+ rest)). by f_equal.
Qed.

Lemma substring_all (n : nat) (s : string) :
  (String.length s ≤ n)%nat → String.substring 0 n s = s.
Proof.
  revert s. induction n as [|n IH]; intros [|c s]; cbn; try done; try lia.
  intros Hlen. f_equal. apply IH. lia.
Qed.

(** X25. [anetSetError] without a sink does nothing.  With a sink it
    replaces the sink's content by the formatted message cut to fit: the
    sink then holds a prefix of the message of fewer than [ANET_ERR_LEN]
    characters, and the whole message when that is short enough.  Nothing
    else changes: not a descriptor, an address list, the slot or the
    array. *)
Theorem anetSetError_truncates `{Platform} err msg w :
  ∃ w', anetSetError err msg w = (tt, w') ∧
    w_files w' = w_files w ∧ w_addrlists w' = w_addrlists w ∧
    w_ss w' = w_ss w ∧ w_fds w' = w_fds w ∧
    (err = false → w_err w' = w_err w) ∧
    (err = true →
     Z.of_nat (String.length (w_err w')) < ANET_ERR_LEN ∧
     (∃ rest, msg = w_err w' +:+ rest) ∧
     (Z.of_nat (String.length msg) < ANET_ERR_LEN → w_err w' = msg)).
Proof.
  destruct (anetSetError_spec err msg w) as (w' & Hrun & _ & Hf & Ha & He & Hs & Hd & _).
  exists w'. split_and!; try done.
  - intros ->. by rewrite He.
  - intros ->. rewrite He. split_and!.
    + apply cut_length.
    + apply substring_prefix.
    + intros Hlen. apply substring_all. lia.
Qed.
